(** * ON1Builder: the opportunity pipeline

    A shallow embedding of the detection-to-bundle pipeline:

    - [Py]        Python values, exceptions and insertion-ordered dicts;
    - [Analytics] [utils/advanced_analytics.py]: [AdvancedAnalytics] and
                  [StrategySelector];
    - [Detector]  [engines/opportunity_detector.py]: the opportunity store;
    - [Optimizer] [utils/profit_optimizer.py]: [ProfitOptimizer];
    - [Relay]     [monitoring/flashbots_relay.py]: [FlashbotsRelay].

    Numbers.  Python's [int] and [float] are both embedded in [Q]: arithmetic
    and comparisons are exact, there is no rounding, no infinity and no NaN.
    Every constant of the source is written as the decimal the source has.
    Division by zero, which [Q] would answer with [0], raises
    [ZeroDivisionError] as Python does.

    Effects.  A [try]/[except Exception] block is a [match] on a [result];
    [await] is sequencing; clocks ([time.time], [datetime.now]) are explicit
    arguments; object state is a record passed in and returned. *)

From Stdlib Require Import QArith Qabs ZArith List String Ascii Bool Lia Lqa.
From Stdlib Require Import Sorting.Sorted Sorting.Permutation ListSet HexString.
Import ListNotations.

#[local] Set Warnings "-register-all".

Local Open Scope string_scope.
Local Open Scope list_scope.
Local Open Scope Q_scope.

(* ================================================================== *)
(** * Python values *)
(* ================================================================== *)

Module Py.

(** The exception classes the pipeline meets.  All of them derive from
    [Exception], so every [except Exception] handler catches each of them. *)
Inductive exn : Type :=
| TypeError
| ValueError
| AttributeError
| KeyError
| ZeroDivisionError
| TransportError                 (* aiohttp / web3 provider failures *)
| FlashbotsError (msg : string)  (* on1builder.utils.custom_exceptions *)
| PlainException (msg : string). (* [raise Exception("...")] *)

Inductive result (A : Type) : Type :=
| Ok (a : A)
| Raise (e : exn).

Arguments Ok {A} a.
Arguments Raise {A} e.

Definition bind {A B} (m : result A) (k : A -> result B) : result B :=
  match m with
  | Ok a => k a
  | Raise e => Raise e
  end.

Notation "x <- m ;; k" := (bind m (fun x => k))
  (at level 61, m at next level, right associativity).

Definition raises {A} (m : result A) : bool :=
  match m with Ok _ => false | Raise _ => true end.

(** Dynamically typed values: what a [Dict[str, Any]] or a decoded JSON
    document holds.  [PTime] is a [datetime], in microseconds. *)
Inductive pyval : Type :=
| PNone
| PBool (b : bool)
| PNum (q : Q)
| PStr (s : string)
| PList (l : list pyval)
| PDict (d : list (string * pyval))
| PTime (t : Z).

Definition pydict := list (string * pyval).

(** What the interpreter and the standard library provide and this
    development does not re-implement. *)
Class Builtins : Type := {
  (** [float(s)] on a string: [None] when it raises [ValueError]. *)
  float_of_str : string -> option Q;
  (** [int(s, 16)]: [None] when it raises [ValueError]. *)
  int_base16 : string -> option Z;
  (** [str(v)] as an f-string renders it; it raises [ValueError] on an
      integer beyond the interpreter's digit limit. *)
  py_str : pyval -> result string;
  (** [hashlib.md5(s.encode()).hexdigest()]; [encode] raises
      [UnicodeEncodeError], a [ValueError], on a lone surrogate. *)
  md5_hexdigest : string -> result string;
  (** [b.hex()] on the bytes [b]. *)
  bytes_hex : string -> string;
  (** [str(e)] on an exception. *)
  str_exn : exn -> string
}.

(** The relay endpoint: [session.post(url, json=body)] followed by
    [await response.json()], either the decoded document or the exception
    the transport or the decoder raised. *)
Class Network : Type := {
  http_post : string -> pyval -> result pyval
}.

Definition Qltb (x y : Q) : bool := negb (Qle_bool y x).

(** [min(a, b)] and [max(a, b)]: the first argument unless the second is
    strictly smaller (larger). *)
Definition py_min (a b : Q) : Q := if Qltb b a then b else a.
Definition py_max (a b : Q) : Q := if Qltb a b then b else a.

(** [int(x)] on a number: truncation towards zero. *)
Definition py_int (x : Q) : Z := Z.quot (Qnum x) (Zpos (Qden x)).

(** [10**18] and [1e18] *)
Definition ten_pow_18 : Q := inject_Z (10 ^ 18).

(** [x / y] *)
Definition py_div (x y : Q) : result Q :=
  if Qeq_bool y 0 then Raise ZeroDivisionError else Ok (x / y).

(** [sum(l)] *)
Definition py_sum (l : list Q) : Q := fold_left Qplus l 0.

(** [np.mean(l)] on a non-empty list of numbers. *)
Definition np_mean (l : list Q) : Q := py_sum l / inject_Z (Z.of_nat (List.length l)).

(** Truth value of an object ([if v], [not v]). *)
Definition truthy (v : pyval) : bool :=
  match v with
  | PNone => false
  | PBool b => b
  | PNum q => negb (Qeq_bool q 0)
  | PStr s => negb (String.eqb s "")
  | PList l => match l with [] => false | _ => true end
  | PDict d => match d with [] => false | _ => true end
  | PTime _ => true
  end.

(** The numeric reading of a value in arithmetic and ordering: numbers, and
    [bool] as [0]/[1]. *)
Definition as_number (v : pyval) : option Q :=
  match v with
  | PNum q => Some q
  | PBool b => Some (if b then 1 else 0)
  | _ => None
  end.

(** [float(v)] *)
Definition py_float {builtins : Builtins} (v : pyval) : result Q :=
  match v with
  | PNum q => Ok q
  | PBool b => Ok (if b then 1 else 0)
  | PStr s => match float_of_str s with Some q => Ok q | None => Raise ValueError end
  | _ => Raise TypeError
  end.

(** Ordering against a number; anything that is not a number raises
    [TypeError]. *)
Definition py_cmp (op : Q -> Q -> bool) (v : pyval) (q : Q) : result bool :=
  match as_number v with
  | Some x => Ok (op x q)
  | None => Raise TypeError
  end.

Definition py_ge := py_cmp (fun x q => Qle_bool q x).
Definition py_gt := py_cmp (fun x q => Qltb q x).
Definition py_lt := py_cmp (fun x q => Qltb x q).

(** [v * q] for a float [q]. *)
Definition py_mul (v : pyval) (q : Q) : result Q :=
  match as_number v with
  | Some x => Ok (x * q)
  | None => Raise TypeError
  end.

(** [v == "literal"] *)
Definition py_eq_str (v : pyval) (s : string) : bool :=
  match v with
  | PStr s' => String.eqb s' s
  | _ => false
  end.

(** Lists and dicts are unhashable: using one as a dict key raises
    [TypeError]. *)
Definition hashable (v : pyval) : bool :=
  match v with
  | PList _ | PDict _ => false
  | _ => true
  end.

(** [a == b] on hashable values, as a dict compares its keys. *)
Definition py_key_eqb (a b : pyval) : bool :=
  match a, b with
  | PNone, PNone => true
  | PStr x, PStr y => String.eqb x y
  | PTime x, PTime y => Z.eqb x y
  | (PNum _ | PBool _), (PNum _ | PBool _) =>
      match as_number a, as_number b with
      | Some x, Some y => Qeq_bool x y
      | _, _ => false
      end
  | _, _ => false
  end.

(** [int(v, 16)]: only a string can be read in an explicit base. *)
Definition py_int16 {builtins : Builtins} (v : pyval) : result Z :=
  match v with
  | PStr s => match int_base16 s with Some n => Ok n | None => Raise ValueError end
  | _ => Raise TypeError
  end.

(** ** Dicts

    A Python dict keeps insertion order: assigning to a present key keeps
    its position, a new key goes last. *)

Section Dict.
Context {K V : Type} (eqb : K -> K -> bool).

Fixpoint dict_lookup (d : list (K * V)) (k : K) : option V :=
  match d with
  | [] => None
  | (k', v) :: d' => if eqb k k' then Some v else dict_lookup d' k
  end.

Definition dict_mem (d : list (K * V)) (k : K) : bool :=
  match dict_lookup d k with Some _ => true | None => false end.

(** [d[k] = v] *)
Fixpoint dict_set (d : list (K * V)) (k : K) (v : V) : list (K * V) :=
  match d with
  | [] => [(k, v)]
  | (k', v') :: d' =>
      if eqb k k' then (k', v) :: d' else (k', v') :: dict_set d' k v
  end.

(** [del d[k]] for a key that is present: the entry under [k] goes, the
    others keep their order. *)
Definition dict_del (d : list (K * V)) (k : K) : list (K * V) :=
  filter (fun kv => negb (eqb k (fst kv))) d.

Definition dict_keys (d : list (K * V)) : list K := map fst d.
Definition dict_values (d : list (K * V)) : list V := map snd d.
End Dict.

(** [d.get(k, default)] on a dict with string keys. *)
Definition get (d : pydict) (k : string) (default : pyval) : pyval :=
  match dict_lookup String.eqb d k with
  | Some v => v
  | None => default
  end.

(** [v.get(k, default)] on an arbitrary object: only dicts have [.get]. *)
Definition py_get (v : pyval) (k : string) (default : pyval) : result pyval :=
  match v with
  | PDict d => Ok (get d k default)
  | _ => Raise AttributeError
  end.

(** [d.get(k, default)] where the key is an arbitrary object and the dict
    has string keys: an unhashable key raises, any other key that is not a
    string is simply absent. *)
Definition get_any {V} (d : list (string * V)) (k : pyval) (default : V)
  : result V :=
  match k with
  | PList _ | PDict _ => Raise TypeError
  | PStr s =>
      Ok (match dict_lookup String.eqb d s with
          | Some v => v
          | None => default
          end)
  | _ => Ok default
  end.

(** [a in b] for strings: [a] occurs in [b]. *)
Fixpoint is_substring (a b : string) : bool :=
  String.prefix a b ||
  match b with
  | EmptyString => false
  | String _ b' => is_substring a b'
  end.

(** [k in v] for a string literal [k]. *)
Definition py_contains (v : pyval) (k : string) : result bool :=
  match v with
  | PDict d => Ok (dict_mem String.eqb d k)
  | PList l => Ok (existsb (fun x => py_eq_str x k) l)
  | PStr s => Ok (is_substring k s)
  | _ => Raise TypeError
  end.

(** [v[k]] for a string literal [k]. *)
Definition py_getitem (v : pyval) (k : string) : result pyval :=
  match v with
  | PDict d =>
      match dict_lookup String.eqb d k with
      | Some x => Ok x
      | None => Raise KeyError
      end
  | _ => Raise TypeError
  end.

Fixpoint chars (s : string) : list pyval :=
  match s with
  | EmptyString => []
  | String c s' => PStr (String c EmptyString) :: chars s'
  end.

(** [for x in v]: the elements the loop visits. *)
Definition py_iter (v : pyval) : result (list pyval) :=
  match v with
  | PList l => Ok l
  | PStr s => Ok (chars s)
  | PDict d => Ok (map (fun kv => PStr (fst kv)) d)
  | _ => Raise TypeError
  end.

(** [l[:n]] *)
Definition slice_to {A} (l : list A) (n : Z) : list A :=
  if (0 <=? n)%Z then firstn (Z.to_nat n) l
  else firstn (List.length l - Z.to_nat (- n)) l.

(** [l[-n:]] for a positive literal [n]. *)
Definition last_n {A} (n : nat) (l : list A) : list A :=
  skipn (List.length l - n) l.

(** [list.sort(key=..., reverse=True)] on keys already computed: a stable
    sort, largest key first; elements with equal keys keep their order. *)
Fixpoint insert_desc {A} (x : Q * A) (l : list (Q * A)) : list (Q * A) :=
  match l with
  | [] => [x]
  | y :: l' =>
      if Qltb (fst x) (fst y) then y :: insert_desc x l'
      else x :: y :: l'
  end.

Definition sort_desc {A} (l : list (Q * A)) : list (Q * A) :=
  fold_right insert_desc [] l.

(** The order of a list sorted by [sort_desc]: the key of [a] is at least
    the key of [b]. *)
Definition ge_key {A} (a b : Q * A) : Prop := fst b <= fst a.

Fixpoint map_m {A B} (f : A -> result B) (l : list A) : result (list B) :=
  match l with
  | [] => Ok []
  | x :: l' => y <- f x ;; ys <- map_m f l' ;; Ok (y :: ys)
  end.

Fixpoint filter_m {A} (f : A -> result bool) (l : list A) : result (list A) :=
  match l with
  | [] => Ok []
  | x :: l' =>
      b <- f x ;; ys <- filter_m f l' ;; Ok (if b then x :: ys else ys)
  end.

End Py.

Import Py.

(* ================================================================== *)
(** * utils/advanced_analytics.py *)
(* ================================================================== *)

Module Analytics.

Record OpportunityScore : Type := {
  total_score : Q;
  profit_potential : Q;
  risk_score : Q;
  execution_probability : Q;
  market_conditions : Q;
  gas_efficiency : Q;
  competition_level : Q;
  confidence_interval : Q * Q
}.

(** The fields of [AdvancedAnalytics] that its methods read or write. *)
Record AdvancedAnalytics : Type := {
  _volatility_regime : string;
  _success_rates : list (string * Q);
  _avg_profits : list (string * Q);
  _risk_adjusted_returns : list (string * Q)
}.

(** [AdvancedAnalytics.__init__] *)
Definition init : AdvancedAnalytics := {|
  _volatility_regime := "normal";
  _success_rates := [];
  _avg_profits := [];
  _risk_adjusted_returns := []
|}.

(** The weight dict of [_get_opportunity_weights]: its six keys. *)
Record Weights : Type := {
  profit : Q;
  risk : Q;
  execution : Q;
  market : Q;
  gas : Q;
  competition : Q
}.

Definition set_profit (w : Weights) (x : Q) : Weights :=
  {| profit := x; risk := risk w; execution := execution w;
     market := market w; gas := gas w; competition := competition w |}.
Definition set_risk (w : Weights) (x : Q) : Weights :=
  {| profit := profit w; risk := x; execution := execution w;
     market := market w; gas := gas w; competition := competition w |}.
Definition set_execution (w : Weights) (x : Q) : Weights :=
  {| profit := profit w; risk := risk w; execution := x;
     market := market w; gas := gas w; competition := competition w |}.
Definition set_competition (w : Weights) (x : Q) : Weights :=
  {| profit := profit w; risk := risk w; execution := execution w;
     market := market w; gas := gas w; competition := x |}.

(** [sum(weights.values())] *)
Definition weights_sum (w : Weights) : Q :=
  py_sum [profit w; risk w; execution w; market w; gas w; competition w].

Definition _calculate_profit_score (expected_profit amount_in gas_estimate : Q) : Q :=
  if Qle_bool expected_profit 0 || Qle_bool amount_in 0 then 0.0
  else
    let net_profit := expected_profit - gas_estimate in
    if Qle_bool net_profit 0 then 0.0
    else
      let roi := net_profit / amount_in in
      if Qltb roi 0.001 then 0.1
      else if Qltb roi 0.01 then 0.3
      else if Qltb roi 0.05 then 0.6
      else if Qltb roi 0.1 then 0.8
      else py_min 1.0 (0.8 + (roi - 0.1) * 2).

Definition _calculate_gas_efficiency_score (expected_profit gas_estimate : Q) : Q :=
  if Qle_bool expected_profit 0 || Qle_bool gas_estimate 0 then 0.0
  else
    let gas_ratio := gas_estimate / expected_profit in
    if Qltb gas_ratio 0.05 then 1.0
    else if Qltb gas_ratio 0.1 then 0.8
    else if Qltb gas_ratio 0.2 then 0.6
    else if Qltb gas_ratio 0.5 then 0.3
    else 0.0.

Definition base_weights : Weights := {|
  profit := 0.3;
  risk := 0.2;
  execution := 0.2;
  market := 0.15;
  gas := 0.1;
  competition := 0.05
|}.

Definition _get_opportunity_weights (opportunity_type : pyval) : Weights :=
  if py_eq_str opportunity_type "flashloan_arbitrage" then
    set_risk (set_profit base_weights 0.4) 0.15
  else if py_eq_str opportunity_type "sandwich" then
    set_competition (set_risk base_weights 0.3) 0.15
  else if py_eq_str opportunity_type "arbitrage" then
    set_execution base_weights 0.25
  else base_weights.

Definition risk_map : list (string * Q) :=
  [ ("arbitrage", 0.1); ("front_run", 0.3); ("back_run", 0.2);
    ("sandwich", 0.5); ("flashloan_arbitrage", 0.15); ("liquidation", 0.25) ].

Definition _get_strategy_risk (strategy_type : pyval) : result Q :=
  get_any risk_map strategy_type 0.3.

(** The placeholders of the source, each returning its constant. *)
Definition _get_token_volatility (token : pyval) : option Q := Some 0.05.
Definition _assess_liquidity_risk (opportunity : pydict) : Q := 0.2.
Definition _get_market_conditions : Q := 0.7.
Definition _assess_gas_stability : Q := 0.8.
Definition _assess_liquidity_availability (opportunity : pydict) : Q := 0.9.
Definition _get_market_regime_score : Q := 0.6.
Definition _get_volatility_score (opportunity : pydict) : Q := 0.7.
Definition _get_trend_score (opportunity : pydict) : Q := 0.6.
Definition _get_sentiment_score (opportunity : pydict) : Q := 0.5.
Definition _find_similar_transactions (opportunity : pydict) : list pydict := [].
Definition _get_historical_competition (opportunity : pydict) : Q := 0.3.
Definition _assess_gas_competition : Q := 0.4.

Definition _calculate_market_conditions_score (opportunity : pydict) : Q :=
  let regime_score := _get_market_regime_score in
  let volatility_score := _get_volatility_score opportunity in
  let trend_score := _get_trend_score opportunity in
  let sentiment_score := _get_sentiment_score opportunity in
  np_mean [regime_score; volatility_score; trend_score; sentiment_score].

Definition _calculate_competition_score (opportunity : pydict) : Q :=
  let similar_txs := _find_similar_transactions opportunity in
  let historical_competition := _get_historical_competition opportunity in
  let gas_competition := _assess_gas_competition in
  np_mean [ py_min 1.0 (inject_Z (Z.of_nat (List.length similar_txs)) * 0.2);
            historical_competition;
            gas_competition ].

Definition _calculate_confidence_interval
    (self : AdvancedAnalytics) (opportunity : pydict) (base_score : Q) : Q * Q :=
  let uncertainty := 0.1 in
  let uncertainty :=
    if negb (truthy (get opportunity "price_data_quality" (PBool true)))
    then uncertainty + 0.1 else uncertainty in
  let uncertainty :=
    if negb (truthy (get opportunity "liquidity_data_quality" (PBool true)))
    then uncertainty + 0.1 else uncertainty in
  let uncertainty :=
    if String.eqb (_volatility_regime self) "high"
    then uncertainty + 0.15 else uncertainty in
  let lower_bound := py_max 0.0 (base_score - uncertainty) in
  let upper_bound := py_min 1.0 (base_score + uncertainty) in
  (lower_bound, upper_bound).

(** [score_opportunity] answers every exception of its body with this
    score. *)
Definition failed_score : OpportunityScore := {|
  total_score := 0.0;
  profit_potential := 0.0;
  risk_score := 1.0;
  execution_probability := 0.0;
  market_conditions := 0.0;
  gas_efficiency := 0.0;
  competition_level := 1.0;
  confidence_interval := (0.0, 0.0)
|}.

Section Scoring.
Context {builtins : Builtins}.

(** [_calculate_risk_score] awaits [self._get_competition_level], a method
    the class does not define.  It is a parameter here; in the source as
    it stands the attribute lookup raises ([undefined_method]). *)
Variable _get_competition_level : pydict -> result Q.

Definition _calculate_risk_score (opportunity : pydict) : result Q :=
  let risk_factors := [] in
  let tokens := get opportunity "tokens" (PList []) in
  toks <- py_iter tokens ;;
  let risk_factors :=
    fold_left
      (fun acc token =>
         match _get_token_volatility token with
         | Some volatility =>
             if negb (Qeq_bool volatility 0) && Qltb 0.1 volatility
             then acc ++ [0.3] else acc
         | None => acc
         end)
      toks risk_factors in
  let liquidity_score := _assess_liquidity_risk opportunity in
  let risk_factors := risk_factors ++ [liquidity_score] in
  let slippage := get opportunity "slippage_estimate" (PNum 0.01) in
  high_slippage <- py_gt slippage 0.05 ;;
  let risk_factors :=
    if high_slippage then risk_factors ++ [0.4] else risk_factors in
  competition_level <- _get_competition_level opportunity ;;
  let risk_factors := risk_factors ++ [competition_level * 0.3] in
  strategy_risk <- _get_strategy_risk (get opportunity "type" (PStr "arbitrage")) ;;
  let risk_factors := risk_factors ++ [strategy_risk] in
  Ok (py_min 1.0 (py_sum risk_factors)).

Definition _calculate_execution_probability
    (self : AdvancedAnalytics) (opportunity : pydict) : result Q :=
  let strategy_type := get opportunity "type" (PStr "arbitrage") in
  success_rate <- get_any (_success_rates self) strategy_type 0.5 ;;
  let market_conditions := _get_market_conditions in
  let gas_stability := _assess_gas_stability in
  let liquidity_availability := _assess_liquidity_availability opportunity in
  Ok (np_mean [success_rate; market_conditions; gas_stability;
               liquidity_availability]).

(** The [try] block of [score_opportunity]. *)
Definition score_opportunity_try
    (self : AdvancedAnalytics) (opportunity : pydict) : result OpportunityScore :=
  let opportunity_type := get opportunity "type" (PStr "arbitrage") in
  expected_profit <- py_float (get opportunity "expected_profit_eth" (PNum 0)) ;;
  amount_in <- py_float (get opportunity "amount_in" (PNum 0)) ;;
  gas_estimate <- py_float (get opportunity "gas_estimate_eth" (PNum 0)) ;;
  let profit_score := _calculate_profit_score expected_profit amount_in gas_estimate in
  risk_score <- _calculate_risk_score opportunity ;;
  execution_score <- _calculate_execution_probability self opportunity ;;
  let market_score := _calculate_market_conditions_score opportunity in
  let gas_score := _calculate_gas_efficiency_score expected_profit gas_estimate in
  let competition_score := _calculate_competition_score opportunity in
  let weights := _get_opportunity_weights opportunity_type in
  let total_score :=
    profit_score * profit weights +
    risk_score * risk weights +
    execution_score * execution weights +
    market_score * market weights +
    gas_score * gas weights +
    competition_score * competition weights in
  let confidence_interval :=
    _calculate_confidence_interval self opportunity total_score in
  Ok {| total_score := total_score;
        profit_potential := profit_score;
        risk_score := risk_score;
        execution_probability := execution_score;
        market_conditions := market_score;
        gas_efficiency := gas_score;
        competition_level := competition_score;
        confidence_interval := confidence_interval |}.

Definition score_opportunity
    (self : AdvancedAnalytics) (opportunity : pydict) : OpportunityScore :=
  match score_opportunity_try self opportunity with
  | Ok score => score
  | Raise _ => failed_score
  end.
End Scoring.

(** What calling a method that the class does not define does. *)
Definition undefined_method : pydict -> result Q :=
  fun _ => Raise AttributeError.

(** ** StrategySelector *)

Record StrategySelector : Type := {
  gas_threshold_high : Q;
  gas_threshold_medium : Q;
  volatility_threshold : Q;
  mempool_volume_high : Q
}.

(** [StrategySelector.__init__] *)
Definition selector_init : StrategySelector := {|
  gas_threshold_high := 100;
  gas_threshold_medium := 60;
  volatility_threshold := 10.0;
  mempool_volume_high := 1000
|}.

(** The [try] block of [select_strategy]; [a or b] and [a and b] evaluate
    [b] only when [a] does not decide. *)
Definition select_strategy_try
    (self : StrategySelector)
    (mempool_tx_rate gas_price_gwei token_price_volatility : pyval)
  : result string :=
  gas_high <- py_ge gas_price_gwei (gas_threshold_high self) ;;
  too_risky <-
    (if gas_high then Ok true
     else py_ge token_price_volatility (volatility_threshold self)) ;;
  if too_risky then Ok "skip"
  else
    busy <- py_ge mempool_tx_rate (mempool_volume_high self) ;;
    favourable <-
      (if busy then py_lt gas_price_gwei (gas_threshold_medium self)
       else Ok false) ;;
    if favourable then Ok "multi_hop" else Ok "simple".

Definition select_strategy
    (self : StrategySelector)
    (mempool_tx_rate gas_price_gwei token_price_volatility : pyval) : string :=
  match select_strategy_try self mempool_tx_rate gas_price_gwei
          token_price_volatility with
  | Ok strategy => strategy
  | Raise _ => "skip"
  end.

(** The [try] block of [get_strategy_confidence]. *)
Definition get_strategy_confidence_try
    (strategy : string) (market_conditions : pyval) : result Q :=
  if String.eqb strategy "skip" then Ok 0.0
  else if negb (truthy market_conditions) then Ok 0.5
  else
    let confidence := 0.5 in
    gas_price <- py_get market_conditions "gas_price_gwei" (PNum 0) ;;
    gas_low <- py_lt gas_price 30 ;;
    gas_high <- (if gas_low then Ok false else py_gt gas_price 80) ;;
    let confidence :=
      if gas_low then confidence + 0.2
      else if gas_high then confidence - 0.2
      else confidence in
    volatility <- py_get market_conditions "token_price_volatility" (PNum 0) ;;
    vol_low <- py_lt volatility 5.0 ;;
    vol_high <- (if vol_low then Ok false else py_gt volatility 15.0) ;;
    let confidence :=
      if vol_low then confidence + 0.2
      else if vol_high then confidence - 0.2
      else confidence in
    mempool_volume <- py_get market_conditions "mempool_tx_rate" (PNum 0) ;;
    busy <- py_gt mempool_volume 500 ;;
    let confidence := if busy then confidence + 0.1 else confidence in
    Ok (py_max 0.0 (py_min 1.0 confidence)).

Definition get_strategy_confidence
    (strategy : string) (market_conditions : pyval) : Q :=
  match get_strategy_confidence_try strategy market_conditions with
  | Ok confidence => confidence
  | Raise _ => 0.0
  end.

(** ** Performance tracking *)

Definition with_performance
    (self : AdvancedAnalytics)
    (success_rates avg_profits risk_adjusted_returns : list (string * Q))
  : AdvancedAnalytics := {|
  _volatility_regime := _volatility_regime self;
  _success_rates := success_rates;
  _avg_profits := avg_profits;
  _risk_adjusted_returns := risk_adjusted_returns
|}.

(** [update_performance_metrics].  The method has no handler: a subscript
    on a key that is absent raises [KeyError] and leaves the assignments
    already made in place. *)
Definition update_performance_metrics
    (self : AdvancedAnalytics) (strategy_type : string) (success : bool) (profit : Q)
  : AdvancedAnalytics * result unit :=
  let self :=
    if negb (dict_mem String.eqb (_success_rates self) strategy_type) then
      with_performance self
        (dict_set String.eqb (_success_rates self) strategy_type 0.0)
        (dict_set String.eqb (_avg_profits self) strategy_type 0.0)
        (dict_set String.eqb (_risk_adjusted_returns self) strategy_type 0.0)
    else self in
  match dict_lookup String.eqb (_success_rates self) strategy_type with
  | None => (self, Raise KeyError)
  | Some current_rate =>
      let self :=
        with_performance self
          (dict_set String.eqb (_success_rates self) strategy_type
             (current_rate * 0.9 + (if success then 1.0 else 0.0) * 0.1))
          (_avg_profits self) (_risk_adjusted_returns self) in
      match dict_lookup String.eqb (_avg_profits self) strategy_type with
      | None => (self, Raise KeyError)
      | Some current_avg =>
          (with_performance self (_success_rates self)
             (dict_set String.eqb (_avg_profits self) strategy_type
                (current_avg * 0.9 + profit * 0.1))
             (_risk_adjusted_returns self),
           Ok tt)
      end
  end.

End Analytics.

(* ================================================================== *)
(** * engines/opportunity_detector.py *)
(* ================================================================== *)

Module Detector.
Import Analytics.

(** The dataclass.  Fields that [_score_opportunities] copies out of the raw
    opportunity dict hold whatever the dict held. *)
Record DetectedOpportunity : Type := {
  id : string;
  type : pyval;
  chain_id : Z;
  tokens : pyval;
  expected_profit_eth : pyval;
  amount_in : pyval;
  gas_estimate_eth : pyval;
  confidence_score : Q;
  risk_level : string;
  execution_priority : Z;
  timestamp : pyval;
  metadata : pydict;
  analytics_score : option OpportunityScore
}.

Record DetectionStats : Type := {
  total_detected : Z;
  total_executed : Z;
  total_profitable : Z;
  avg_detection_time_ms : Q;
  false_positives : Z
}.

Record OpportunityDetector : Type := {
  _chain_id : Z;
  _analytics : AdvancedAnalytics;
  _detected_opportunities : list (string * DetectedOpportunity);
  _opportunity_history : list DetectedOpportunity;
  _blacklisted_opportunities : set string;
  _detection_stats : DetectionStats;
  _min_profit_threshold : Q;
  _min_confidence_score : Q;
  _max_opportunities_per_cycle : Z;
  _is_running : bool
}.

(** [OpportunityDetector.__init__]; [min_profit_eth] is
    [settings.min_profit_eth]. *)
Definition init (chain_id : Z) (min_profit_eth : Q) : OpportunityDetector := {|
  _chain_id := chain_id;
  _analytics := Analytics.init;
  _detected_opportunities := [];
  _opportunity_history := [];
  _blacklisted_opportunities := empty_set string;
  _detection_stats :=
    {| total_detected := 0; total_executed := 0; total_profitable := 0;
       avg_detection_time_ms := 0; false_positives := 0 |};
  _min_profit_threshold := min_profit_eth;
  _min_confidence_score := 0.6;
  _max_opportunities_per_cycle := 50;
  _is_running := false
|}.

Definition with_store
    (self : OpportunityDetector)
    (detected : list (string * DetectedOpportunity))
    (history : list DetectedOpportunity)
    (blacklisted : set string)
    (stats : DetectionStats) : OpportunityDetector := {|
  _chain_id := _chain_id self;
  _analytics := _analytics self;
  _detected_opportunities := detected;
  _opportunity_history := history;
  _blacklisted_opportunities := blacklisted;
  _detection_stats := stats;
  _min_profit_threshold := _min_profit_threshold self;
  _min_confidence_score := _min_confidence_score self;
  _max_opportunities_per_cycle := _max_opportunities_per_cycle self;
  _is_running := _is_running self
|}.

(** The condition of the list comprehension in [get_best_opportunities]. *)
Definition is_valid (self : OpportunityDetector) (opp : DetectedOpportunity)
  : result bool :=
  enough_profit <- py_ge (expected_profit_eth opp) (_min_profit_threshold self) ;;
  Ok (enough_profit
      && Qle_bool (_min_confidence_score self) (confidence_score opp)
      && negb (set_mem string_dec (id opp) (_blacklisted_opportunities self))).

(** The sort key, [lambda x: x.expected_profit_eth * x.confidence_score]. *)
Definition priority_key (x : DetectedOpportunity) : result Q :=
  py_mul (expected_profit_eth x) (confidence_score x).

Definition get_best_opportunities (self : OpportunityDetector) (limit : Z)
  : result (list DetectedOpportunity) :=
  let opportunities := dict_values (_detected_opportunities self) in
  valid_opportunities <- filter_m (is_valid self) opportunities ;;
  keyed <- map_m (fun x => k <- priority_key x ;; Ok (k, x)) valid_opportunities ;;
  let valid_opportunities := map snd (sort_desc keyed) in
  Ok (slice_to valid_opportunities limit).

Definition _get_risk_level (risk_score : Q) : string :=
  if Qltb risk_score 0.25 then "low"
  else if Qltb risk_score 0.5 then "medium"
  else if Qltb risk_score 0.75 then "high"
  else "extreme".

Definition py_min_Z (a b : Z) : Z := if (b <? a)%Z then b else a.
Definition py_max_Z (a b : Z) : Z := if (a <? b)%Z then b else a.

Definition _calculate_execution_priority
    (opp_data : pydict) (analytics_score : OpportunityScore) : Z :=
  let base_priority := py_int (total_score analytics_score * 10) in
  let strategy_type := get opp_data "type" (PStr "arbitrage") in
  let base_priority :=
    if py_eq_str strategy_type "flashloan_arbitrage" then (base_priority + 2)%Z
    else if py_eq_str strategy_type "sandwich" then (base_priority - 1)%Z
    else base_priority in
  let base_priority :=
    if truthy (get opp_data "time_sensitive" (PBool false))
    then (base_priority + 1)%Z else base_priority in
  py_max_Z 1 (py_min_Z 10 base_priority).

Section Scoring.
Context {builtins : Builtins}.
Variable _get_competition_level : pydict -> result Q.

(** [now] stands for the [datetime.now()] default of the format string.
    Rendering a value and encoding the string can raise. *)
Definition _generate_opportunity_id
    (self : OpportunityDetector) (opp_data : pydict) (now : Z) : result string :=
  type_text <- py_str (get opp_data "type" PNone) ;;
  chain_text <- py_str (PNum (inject_Z (_chain_id self))) ;;
  tokens_text <- py_str (get opp_data "tokens" (PList [])) ;;
  timestamp_text <- py_str (get opp_data "timestamp" (PTime now)) ;;
  let unique_string :=
    (type_text ++ "_" ++ chain_text ++ "_" ++ tokens_text ++ "_" ++
     timestamp_text)%string in
  digest <- md5_hexdigest unique_string ;;
  Ok (String.substring 0 16 digest).

(** The [try] block of the loop of [_score_opportunities].
    [score_opportunity] handles its own exceptions and the dataclass
    constructor stores what it is given; only the id can fail. *)
Definition score_one
    (self : OpportunityDetector) (now : Z) (opp_data : pydict)
  : result DetectedOpportunity :=
  let analytics_score :=
    score_opportunity _get_competition_level (_analytics self) opp_data in
  id <- _generate_opportunity_id self opp_data now ;;
  Ok
  {| id := id;
     type := get opp_data "type" (PStr "unknown");
     chain_id := _chain_id self;
     tokens := get opp_data "tokens" (PList []);
     expected_profit_eth := get opp_data "expected_profit_eth" (PNum 0);
     amount_in := get opp_data "amount_in" (PNum 0);
     gas_estimate_eth := get opp_data "gas_estimate_eth" (PNum 0);
     confidence_score := total_score analytics_score;
     risk_level := _get_risk_level (risk_score analytics_score);
     execution_priority := _calculate_execution_priority opp_data analytics_score;
     timestamp := get opp_data "timestamp" (PTime now);
     metadata := opp_data;
     analytics_score := Some analytics_score |}.

(** [_score_opportunities]: an opportunity whose [try] block raises is
    logged and skipped. *)
Fixpoint _score_opportunities
    (self : OpportunityDetector) (now : Z) (opportunities : list pydict)
  : list DetectedOpportunity :=
  match opportunities with
  | [] => []
  | opp_data :: opportunities =>
      match score_one self now opp_data with
      | Ok opportunity =>
          opportunity :: _score_opportunities self now opportunities
      | Raise _ => _score_opportunities self now opportunities
      end
  end.
End Scoring.

(** [(current_time - opp.timestamp).total_seconds() > 300]; subtracting
    anything but a [datetime] from a [datetime] raises. *)
Definition is_stale (current_time : Z) (opp : DetectedOpportunity) : result bool :=
  match timestamp opp with
  | PTime t => Ok (Qltb 300 (inject_Z (current_time - t) / 1000000))
  | _ => Raise TypeError
  end.

Definition upsert_all
    (detected : list (string * DetectedOpportunity))
    (new_opportunities : list DetectedOpportunity)
  : list (string * DetectedOpportunity) :=
  fold_left (fun d opp => dict_set String.eqb d (id opp) opp)
            new_opportunities detected.

(** [_update_detected_opportunities].  The method has no handler of its own:
    when the staleness scan raises, the insertions already made stay and the
    exception goes to the caller. *)
Definition _update_detected_opportunities
    (self : OpportunityDetector) (current_time : Z)
    (new_opportunities : list DetectedOpportunity)
  : OpportunityDetector * result unit :=
  let detected := upsert_all (_detected_opportunities self) new_opportunities in
  match filter_m (fun kv => is_stale current_time (snd kv)) detected with
  | Raise e =>
      (with_store self detected (_opportunity_history self)
         (_blacklisted_opportunities self) (_detection_stats self),
       Raise e)
  | Ok stale =>
      let stale_ids := map fst stale in
      let detected := fold_left (dict_del String.eqb) stale_ids detected in
      let stats := _detection_stats self in
      let stats :=
        {| total_detected :=
             (total_detected stats + Z.of_nat (List.length new_opportunities))%Z;
           total_executed := total_executed stats;
           total_profitable := total_profitable stats;
           avg_detection_time_ms := avg_detection_time_ms stats;
           false_positives := false_positives stats |} in
      let history := _opportunity_history self ++ new_opportunities in
      let history :=
        if (1000 <? List.length history)%nat then last_n 1000 history
        else history in
      (with_store self detected history (_blacklisted_opportunities self) stats,
       Ok tt)
  end.

Definition blacklist_opportunity
    (self : OpportunityDetector) (opportunity_id : string) : OpportunityDetector :=
  let blacklisted :=
    set_add string_dec opportunity_id (_blacklisted_opportunities self) in
  let detected :=
    if dict_mem String.eqb (_detected_opportunities self) opportunity_id
    then dict_del String.eqb (_detected_opportunities self) opportunity_id
    else _detected_opportunities self in
  with_store self detected (_opportunity_history self) blacklisted
    (_detection_stats self).

(** [record_execution_result].  Its last statement calls the coroutine
    function [update_performance_metrics] without awaiting it, so the
    coroutine never runs and the analytics are left as they were. *)
Definition record_execution_result
    (self : OpportunityDetector) (opportunity_id : string)
    (success : bool) (profit : Q) : OpportunityDetector :=
  let stats := _detection_stats self in
  let stats :=
    {| total_detected := total_detected stats;
       total_executed := (total_executed stats + 1)%Z;
       total_profitable :=
         if success then (total_profitable stats + 1)%Z
         else total_profitable stats;
       avg_detection_time_ms := avg_detection_time_ms stats;
       false_positives :=
         if success then false_positives stats
         else (false_positives stats + 1)%Z |} in
  with_store self (_detected_opportunities self) (_opportunity_history self)
    (_blacklisted_opportunities self) stats.

(** The public operations that change the store, and a run of them.  The
    class has no operation that takes an id off the blacklist. *)
Inductive op : Type :=
| Update (current_time : Z) (new_opportunities : list DetectedOpportunity)
| Blacklist (opportunity_id : string)
| RecordResult (opportunity_id : string) (success : bool) (profit : Q).

Definition step (self : OpportunityDetector) (o : op) : OpportunityDetector :=
  match o with
  | Update current_time new_opportunities =>
      fst (_update_detected_opportunities self current_time new_opportunities)
  | Blacklist opportunity_id => blacklist_opportunity self opportunity_id
  | RecordResult opportunity_id success profit =>
      record_execution_result self opportunity_id success profit
  end.

Definition run (self : OpportunityDetector) (ops : list op) : OpportunityDetector :=
  fold_left step ops self.

(** Whether [opportunity_id] is a key of the stored opportunity map. *)
Definition stored (self : OpportunityDetector) (opportunity_id : string) : bool :=
  dict_mem String.eqb (_detected_opportunities self) opportunity_id.

(** ** Detection *)

(** [settings], the entries the detector reads. *)
Record DetectorSettings : Type := {
  mev_strategies_enabled : bool;
  front_running_enabled : bool;
  back_running_enabled : bool;
  sandwich_attacks_enabled : bool;
  arbitrage_scan_interval : Q
}.

Definition _get_supported_token_pairs : list (string * string) :=
  [ ("WETH", "USDC"); ("WETH", "USDT"); ("WETH", "DAI");
    ("USDC", "USDT"); ("USDC", "DAI") ].

Definition _get_dex_prices (token_a token_b : string) : list (string * Q) :=
  [] ++ [ ("uniswap_v2", 1800.0); ("sushiswap", 1798.0); ("uniswap_v3", 1802.0) ].

Definition gas_estimates : list (string * Q) :=
  [ ("arbitrage", 0.01); ("front_run", 0.015); ("back_run", 0.015);
    ("sandwich", 0.025); ("flashloan_arbitrage", 0.02) ].

Definition _estimate_gas_cost (strategy_type : string) : Q :=
  match dict_lookup String.eqb gas_estimates strategy_type with
  | Some estimate => estimate
  | None => 0.02
  end.

(** The body of the innermost loop of [_detect_arbitrage_opportunities]:
    one pair of venues of one token pair.  It returns the list of
    opportunities as the body leaves it, and whether the body raised. *)
Definition compare_venues
    (self : OpportunityDetector) (now : Z) (token_a token_b : string)
    (venue1 venue2 : string * Q) (opportunities : list pydict)
  : list pydict * result unit :=
  let '(dex1, price1) := venue1 in
  let '(dex2, price2) := venue2 in
  if String.eqb dex1 dex2 then (opportunities, Ok tt)
  else
    let price_diff := Qabs (price1 - price2) in
    match py_div price_diff (py_min price1 price2) with
    | Raise e => (opportunities, Raise e)
    | Ok price_ratio =>
        if Qltb 0.005 price_ratio then
          let amount_in := 1.0 in
          let expected_profit := amount_in * price_ratio in
          if Qle_bool (_min_profit_threshold self) expected_profit then
            let opportunity :=
              [ ("type", PStr "arbitrage");
                ("chain_id", PNum (inject_Z (_chain_id self)));
                ("tokens", PList [PStr token_a; PStr token_b]);
                ("dex_buy", PStr (if Qltb price1 price2 then dex1 else dex2));
                ("dex_sell", PStr (if Qltb price1 price2 then dex2 else dex1));
                ("price_buy", PNum (py_min price1 price2));
                ("price_sell", PNum (py_max price1 price2));
                ("expected_profit_eth", PNum expected_profit);
                ("amount_in", PNum amount_in);
                ("spread_percentage", PNum (price_ratio * 100));
                ("gas_estimate_eth", PNum (_estimate_gas_cost "arbitrage"));
                ("timestamp", PTime now) ] in
            (opportunities ++ [opportunity], Ok tt)
          else (opportunities, Ok tt)
        else (opportunities, Ok tt)
    end.

(** [for dex2, price2 in prices[i+1:]] *)
Fixpoint against_later_venues
    (self : OpportunityDetector) (now : Z) (token_a token_b : string)
    (venue1 : string * Q) (later : list (string * Q)) (opportunities : list pydict)
  : list pydict * result unit :=
  match later with
  | [] => (opportunities, Ok tt)
  | venue2 :: later' =>
      match compare_venues self now token_a token_b venue1 venue2 opportunities with
      | (opportunities, Raise e) => (opportunities, Raise e)
      | (opportunities, Ok _) =>
          against_later_venues self now token_a token_b venue1 later' opportunities
      end
  end.

(** [for i, (dex1, price1) in enumerate(prices)] *)
Fixpoint scan_venues
    (self : OpportunityDetector) (now : Z) (token_a token_b : string)
    (prices : list (string * Q)) (opportunities : list pydict)
  : list pydict * result unit :=
  match prices with
  | [] => (opportunities, Ok tt)
  | venue1 :: later =>
      match against_later_venues self now token_a token_b venue1 later
              opportunities with
      | (opportunities, Raise e) => (opportunities, Raise e)
      | (opportunities, Ok _) =>
          scan_venues self now token_a token_b later opportunities
      end
  end.

(** The body of the loop over the token pairs, for the prices that
    [_get_dex_prices] returned for the pair. *)
Definition scan_pair
    (self : OpportunityDetector) (now : Z) (token_a token_b : string)
    (prices : list (string * Q)) (opportunities : list pydict)
  : list pydict * result unit :=
  if (List.length prices <? 2)%nat then (opportunities, Ok tt)
  else scan_venues self now token_a token_b prices opportunities.

Fixpoint scan_pairs
    (self : OpportunityDetector) (now : Z)
    (token_pairs : list (string * string)) (opportunities : list pydict)
  : list pydict * result unit :=
  match token_pairs with
  | [] => (opportunities, Ok tt)
  | (token_a, token_b) :: rest =>
      match scan_pair self now token_a token_b
              (_get_dex_prices token_a token_b) opportunities with
      | (opportunities, Raise e) => (opportunities, Raise e)
      | (opportunities, Ok _) => scan_pairs self now rest opportunities
      end
  end.

(** [_detect_arbitrage_opportunities]: an exception ends the scan, and the
    opportunities found before it are returned.  [now] is [datetime.now()]. *)
Definition _detect_arbitrage_opportunities
    (self : OpportunityDetector) (now : Z) : list pydict :=
  fst (scan_pairs self now _get_supported_token_pairs []).

Definition _is_front_runnable (tx : pyval) : bool := false.
Definition _is_back_runnable (tx : pyval) : bool := false.
Definition _is_sandwichable (tx : pyval) : bool := false.
Definition _create_front_run_opportunity (tx : pyval) : option pydict := None.
Definition _create_back_run_opportunity (tx : pyval) : option pydict := None.
Definition _create_sandwich_opportunity (tx : pyval) : option pydict := None.

(** The loop the three mempool detectors share: every pending transaction
    that [is_target] accepts and [create] turns into an opportunity. *)
Definition scan_pending
    (is_target : pyval -> bool) (create : pyval -> option pydict)
    (pending_txs : list pyval) : list pydict :=
  fold_left
    (fun opportunities tx =>
       if is_target tx then
         match create tx with
         | Some opportunity => opportunities ++ [opportunity]
         | None => opportunities
         end
       else opportunities)
    pending_txs [].

(** [pending] is what [self._tx_scanner.get_pending_transactions()]
    returns or raises. *)
Definition _detect_front_running_opportunities
    (pending : result (list pyval)) : list pydict :=
  match pending with
  | Ok pending_txs =>
      scan_pending _is_front_runnable _create_front_run_opportunity pending_txs
  | Raise _ => []
  end.

Definition _detect_back_running_opportunities
    (pending : result (list pyval)) : list pydict :=
  match pending with
  | Ok pending_txs =>
      scan_pending _is_back_runnable _create_back_run_opportunity pending_txs
  | Raise _ => []
  end.

Definition _detect_sandwich_opportunities
    (pending : result (list pyval)) : list pydict :=
  match pending with
  | Ok pending_txs =>
      scan_pending _is_sandwichable _create_sandwich_opportunity pending_txs
  | Raise _ => []
  end.

Definition _detect_liquidation_opportunities : list pydict := [].

Definition _detect_all_opportunities
    (settings : DetectorSettings) (self : OpportunityDetector) (now : Z)
    (pending : result (list pyval)) : list pydict :=
  let opportunities := [] in
  let opportunities :=
    if mev_strategies_enabled settings
    then opportunities ++ _detect_arbitrage_opportunities self now
    else opportunities in
  let opportunities :=
    if front_running_enabled settings
    then opportunities ++ _detect_front_running_opportunities pending
    else opportunities in
  let opportunities :=
    if back_running_enabled settings
    then opportunities ++ _detect_back_running_opportunities pending
    else opportunities in
  let opportunities :=
    if sandwich_attacks_enabled settings
    then opportunities ++ _detect_sandwich_opportunities pending
    else opportunities in
  opportunities ++ _detect_liquidation_opportunities.

End Detector.

(* ================================================================== *)
(** * utils/profit_optimizer.py *)
(* ================================================================== *)

Module Optimizer.

(** The dataclass [analyze_profitability] returns. *)
Record ProfitAnalysis : Type := {
  gross_profit_eth : Q;
  gas_cost_eth : Q;
  net_profit_eth : Q;
  roi_percentage : Q;
  profitable : bool;
  confidence_score : Q;
  risk_level : string;
  recommended_gas_price_gwei : Z;
  simulation_success : bool;
  execution_probability : Q
}.

(** web3's [TxParams]: the [gas] entry, which the optimizer reads, and the
    other entries, which only the node sees. *)
Record TxParams : Type := {
  tx_gas : option Z;
  tx_rest : pydict
}.

(** The [AsyncWeb3] object handed to the constructor, as far as the
    optimizer calls it. *)
Record Web3 : Type := {
  eth_call : TxParams -> result (option string);
  eth_estimate_gas : TxParams -> result Z;
  eth_gas_price : result Z;
  (** [float(web3.from_wei(n, unit))] *)
  from_wei : Z -> string -> result Q;
  to_wei : Q -> string -> result Z
}.

(** [on1builder.config.loaders.settings], the entries read here. *)
Record Settings : Type := {
  min_profit_eth : Q;
  max_gas_fee_percentage : Q;
  default_gas_limit : Z
}.

Record OptimizationStats : Type := {
  total_analyses : Z;
  profitable_opportunities : Z;
  executed_opportunities : Z;
  total_profit_eth : Q;
  total_gas_spent_eth : Q;
  avg_roi_percentage : Q
}.

Record ProfitOptimizer : Type := {
  _web3 : Web3;
  _min_roi_percentage : Q;
  _min_profit_eth : Q;
  _max_gas_fee_percentage : Q;
  _optimization_stats : OptimizationStats;
  _gas_price_history : list (Z * Q);
  _max_history_size : nat
}.

(** The dict [_simulate_transaction] returns. *)
Record Simulation : Type := {
  sim_success : bool;
  sim_gas_estimate : Z;
  sim_simulation_result : option string;
  sim_execution_probability : Q
}.

(** The dict [_analyze_gas_costs] returns. *)
Record GasAnalysis : Type := {
  ga_current_gas_price_gwei : Q;
  ga_optimized_gas_price_gwei : Q;
  ga_gas_estimate : Z;
  ga_current_gas_cost_eth : Q;
  ga_optimized_gas_cost_eth : Q;
  ga_gas_savings_eth : Q;
  ga_market_conditions : string
}.

(** The dict [_calculate_profitability] returns. *)
Record Profitability : Type := {
  pr_gross_profit_eth : Q;
  pr_gas_cost_eth : Q;
  pr_net_profit_eth : Q;
  pr_roi_percentage : Q;
  pr_profitable : bool;
  pr_confidence_score : Q;
  pr_risk_level : string;
  pr_execution_probability : Q
}.

(** The dict [_optimize_gas_price] returns. *)
Record GasOptimization : Type := {
  go_recommended_gas_price_gwei : Z;
  go_gas_optimization_strategy : string;
  go_potential_savings_eth : Q
}.

(** The [ProfitAnalysis] of every handler that gives up. *)
Definition failed_analysis : ProfitAnalysis := {|
  gross_profit_eth := 0.0;
  gas_cost_eth := 0.0;
  net_profit_eth := 0.0;
  roi_percentage := 0.0;
  profitable := false;
  confidence_score := 0.0;
  risk_level := "high";
  recommended_gas_price_gwei := 0;
  simulation_success := false;
  execution_probability := 0.0
|}.

Definition with_history (self : ProfitOptimizer) (history : list (Z * Q))
  : ProfitOptimizer := {|
  _web3 := _web3 self;
  _min_roi_percentage := _min_roi_percentage self;
  _min_profit_eth := _min_profit_eth self;
  _max_gas_fee_percentage := _max_gas_fee_percentage self;
  _optimization_stats := _optimization_stats self;
  _gas_price_history := history;
  _max_history_size := _max_history_size self
|}.

Definition with_stats (self : ProfitOptimizer) (stats : OptimizationStats)
  : ProfitOptimizer := {|
  _web3 := _web3 self;
  _min_roi_percentage := _min_roi_percentage self;
  _min_profit_eth := _min_profit_eth self;
  _max_gas_fee_percentage := _max_gas_fee_percentage self;
  _optimization_stats := stats;
  _gas_price_history := _gas_price_history self;
  _max_history_size := _max_history_size self
|}.

Section WithSettings.
Context {builtins : Builtins}.
Variable settings : Settings.

(** [ProfitOptimizer.__init__] *)
Definition init (web3 : Web3) : ProfitOptimizer := {|
  _web3 := web3;
  _min_roi_percentage := 5.0;
  _min_profit_eth := min_profit_eth settings;
  _max_gas_fee_percentage := max_gas_fee_percentage settings;
  _optimization_stats :=
    {| total_analyses := 0; profitable_opportunities := 0;
       executed_opportunities := 0; total_profit_eth := 0.0;
       total_gas_spent_eth := 0.0; avg_roi_percentage := 0.0 |};
  _gas_price_history := [];
  _max_history_size := 1000
|}.

Definition _simulate_transaction (self : ProfitOptimizer) (tx_params : TxParams)
  : Simulation :=
  match (simulation_result <- eth_call (_web3 self) tx_params ;;
         gas_estimate <- eth_estimate_gas (_web3 self) tx_params ;;
         Ok (simulation_result, gas_estimate)) with
  | Ok (simulation_result, gas_estimate) =>
      let simulation_success :=
        match simulation_result with Some _ => true | None => false end in
      {| sim_success := simulation_success;
         sim_gas_estimate := gas_estimate;
         sim_simulation_result := simulation_result;
         sim_execution_probability := if simulation_success then 0.9 else 0.1 |}
  | Raise _ =>
      {| sim_success := false;
         sim_gas_estimate :=
           match tx_gas tx_params with
           | Some g => g
           | None => default_gas_limit settings
           end;
         sim_simulation_result := None;
         sim_execution_probability := 0.3 |}
  end.

Definition _calculate_optimal_gas_price
    (self : ProfitOptimizer) (current_gas_price_gwei : Q) (gas_estimate : Z) : Q :=
  if (10 <? List.length (_gas_price_history self))%nat then
    let recent_prices := map snd (last_n 10 (_gas_price_history self)) in
    let avg_recent_price :=
      py_sum recent_prices / inject_Z (Z.of_nat (List.length recent_prices)) in
    if Qltb (avg_recent_price * 1.2) current_gas_price_gwei then
      current_gas_price_gwei * 0.9
    else if Qltb current_gas_price_gwei (avg_recent_price * 0.8) then
      current_gas_price_gwei * 1.1
    else current_gas_price_gwei
  else current_gas_price_gwei.

Definition _assess_gas_market_conditions (self : ProfitOptimizer) : string :=
  if (List.length (_gas_price_history self) <? 5)%nat then "unknown"
  else
    let recent_prices := map snd (last_n 5 (_gas_price_history self)) in
    let n := inject_Z (Z.of_nat (List.length recent_prices)) in
    let price_variance :=
      py_sum (map (fun p => (p - py_sum recent_prices / n) ^ 2) recent_prices) / n in
    if Qltb 100 price_variance then "volatile"
    else if Qltb 25 price_variance then "moderate"
    else "stable".

(** [now] is [time.time()]. *)
Definition _update_gas_price_history
    (self : ProfitOptimizer) (gas_price_gwei : Q) (now : Q) : ProfitOptimizer :=
  let current_time := py_int now in
  let history := _gas_price_history self ++ [(current_time, gas_price_gwei)] in
  let history :=
    if (_max_history_size self <? List.length history)%nat
    then last_n (_max_history_size self) history
    else history in
  with_history self history.

Definition _analyze_gas_costs
    (self : ProfitOptimizer) (tx_params : TxParams)
    (simulation_result : Simulation) (now : Q)
  : GasAnalysis * ProfitOptimizer :=
  match
    (current_gas_price <- eth_gas_price (_web3 self) ;;
     current_gas_price_gwei <- from_wei (_web3 self) current_gas_price "gwei" ;;
     let gas_estimate := sim_gas_estimate simulation_result in
     let gas_cost_wei := (gas_estimate * current_gas_price)%Z in
     gas_cost_eth <- from_wei (_web3 self) gas_cost_wei "ether" ;;
     let optimized_gas_price_gwei :=
       _calculate_optimal_gas_price self current_gas_price_gwei gas_estimate in
     optimized_gas_price_wei <- to_wei (_web3 self) optimized_gas_price_gwei "gwei" ;;
     let optimized_gas_cost_wei := (gas_estimate * optimized_gas_price_wei)%Z in
     optimized_gas_cost_eth <- from_wei (_web3 self) optimized_gas_cost_wei "ether" ;;
     let self := _update_gas_price_history self current_gas_price_gwei now in
     Ok ({| ga_current_gas_price_gwei := current_gas_price_gwei;
            ga_optimized_gas_price_gwei := optimized_gas_price_gwei;
            ga_gas_estimate := gas_estimate;
            ga_current_gas_cost_eth := gas_cost_eth;
            ga_optimized_gas_cost_eth := optimized_gas_cost_eth;
            ga_gas_savings_eth := gas_cost_eth - optimized_gas_cost_eth;
            ga_market_conditions := _assess_gas_market_conditions self |},
         self))
  with
  | Ok r => r
  | Raise _ =>
      ({| ga_current_gas_price_gwei := 50;
          ga_optimized_gas_price_gwei := 50;
          ga_gas_estimate := default_gas_limit settings;
          ga_current_gas_cost_eth := 0.02;
          ga_optimized_gas_cost_eth := 0.02;
          ga_gas_savings_eth := 0.0;
          ga_market_conditions := "unknown" |},
       self)
  end.

Definition _calculate_profit_confidence
    (opportunity : pydict) (gas_analysis : GasAnalysis)
    (simulation_result : Simulation) (net_profit : Q) : Q :=
  let confidence := 0.5 in
  let confidence :=
    if sim_success simulation_result then confidence + 0.2 else confidence in
  let confidence :=
    if Qltb 0.01 net_profit then confidence + 0.15
    else if Qltb 0.005 net_profit then confidence + 0.1
    else confidence in
  let market_conditions := ga_market_conditions gas_analysis in
  let confidence :=
    if String.eqb market_conditions "stable" then confidence + 0.1
    else if String.eqb market_conditions "volatile" then confidence - 0.1
    else confidence in
  let opportunity_type := get opportunity "type" (PStr "unknown") in
  let confidence :=
    if py_eq_str opportunity_type "arbitrage"
       || py_eq_str opportunity_type "flashloan_arbitrage"
    then confidence + 0.05
    else if py_eq_str opportunity_type "sandwich"
            || py_eq_str opportunity_type "front_run"
    then confidence - 0.1
    else confidence in
  py_max 0.1 (py_min 1.0 confidence).

Definition _assess_profit_risk
    (net_profit roi_percentage : Q) (simulation_result : Simulation) : string :=
  let risk_score := 0%Z in
  let risk_score :=
    if Qltb net_profit 0.005 then (risk_score + 3)%Z
    else if Qltb net_profit 0.01 then (risk_score + 2)%Z
    else if Qltb net_profit 0.02 then (risk_score + 1)%Z
    else risk_score in
  let risk_score :=
    if Qltb roi_percentage 5 then (risk_score + 2)%Z
    else if Qltb roi_percentage 10 then (risk_score + 1)%Z
    else risk_score in
  let risk_score :=
    if negb (sim_success simulation_result) then (risk_score + 2)%Z
    else risk_score in
  if (5 <=? risk_score)%Z then "high"
  else if (3 <=? risk_score)%Z then "medium"
  else "low".

Definition _calculate_profitability
    (self : ProfitOptimizer) (opportunity : pydict)
    (gas_analysis : GasAnalysis) (simulation_result : Simulation)
  : Profitability :=
  match
    (expected_profit <- py_float (get opportunity "expected_profit_eth" (PNum 0)) ;;
     amount_in <- py_float (get opportunity "amount_in" (PNum 1.0)) ;;
     let gas_cost := ga_optimized_gas_cost_eth gas_analysis in
     let net_profit := expected_profit - gas_cost in
     let roi_percentage :=
       if Qltb 0 amount_in then (net_profit / amount_in) * 100 else 0 in
     let profitable :=
       Qle_bool (_min_profit_eth self) net_profit
       && Qle_bool (_min_roi_percentage self) roi_percentage
       && sim_success simulation_result in
     let confidence_score :=
       _calculate_profit_confidence opportunity gas_analysis
         simulation_result net_profit in
     let risk_level :=
       _assess_profit_risk net_profit roi_percentage simulation_result in
     Ok {| pr_gross_profit_eth := expected_profit;
           pr_gas_cost_eth := gas_cost;
           pr_net_profit_eth := net_profit;
           pr_roi_percentage := roi_percentage;
           pr_profitable := profitable;
           pr_confidence_score := confidence_score;
           pr_risk_level := risk_level;
           pr_execution_probability :=
             sim_execution_probability simulation_result |})
  with
  | Ok r => r
  | Raise _ =>
      {| pr_gross_profit_eth := 0.0;
         pr_gas_cost_eth := 0.0;
         pr_net_profit_eth := 0.0;
         pr_roi_percentage := 0.0;
         pr_profitable := false;
         pr_confidence_score := 0.0;
         pr_risk_level := "high";
         pr_execution_probability := 0.0 |}
  end.

(** One turn of the loop over the gas price strategies. *)
Definition try_strategy
    (self : ProfitOptimizer) (profit_analysis : Profitability)
    (gas_analysis : GasAnalysis)
    (best : option (string * Q) * Q) (strategy : string * Q)
  : result (option (string * Q) * Q) :=
  let '(best_strategy, best_profit) := best in
  let '(strategy_name, gas_price) := strategy in
  gas_price_wei <- to_wei (_web3 self) gas_price "gwei" ;;
  let gas_cost_wei := (ga_gas_estimate gas_analysis * gas_price_wei)%Z in
  gas_cost_eth <- from_wei (_web3 self) gas_cost_wei "ether" ;;
  let net_profit := pr_gross_profit_eth profit_analysis - gas_cost_eth in
  if Qltb best_profit net_profit
  then Ok (Some (strategy_name, gas_price), net_profit)
  else Ok (best_strategy, best_profit).

Fixpoint try_strategies
    (self : ProfitOptimizer) (profit_analysis : Profitability)
    (gas_analysis : GasAnalysis)
    (best : option (string * Q) * Q) (strategies : list (string * Q))
  : result (option (string * Q) * Q) :=
  match strategies with
  | [] => Ok best
  | strategy :: rest =>
      best <- try_strategy self profit_analysis gas_analysis best strategy ;;
      try_strategies self profit_analysis gas_analysis best rest
  end.

Definition _optimize_gas_price
    (self : ProfitOptimizer) (profit_analysis : Profitability)
    (gas_analysis : GasAnalysis) : GasOptimization :=
  match
    (let current_gas_price := ga_current_gas_price_gwei gas_analysis in
     let optimized_gas_price := ga_optimized_gas_price_gwei gas_analysis in
     optimized_gas_price <-
       (if negb (pr_profitable profit_analysis) then
          let strategies :=
            [ ("aggressive", current_gas_price * 0.8);
              ("conservative", current_gas_price * 0.9);
              ("market", current_gas_price);
              ("premium", current_gas_price * 1.1) ] in
          best <- try_strategies self profit_analysis gas_analysis
                    (None, pr_net_profit_eth profit_analysis) strategies ;;
          match fst best with
          | Some best_strategy => Ok (snd best_strategy)
          | None => Ok optimized_gas_price
          end
        else Ok optimized_gas_price) ;;
     Ok {| go_recommended_gas_price_gwei := py_int optimized_gas_price;
           go_gas_optimization_strategy := "dynamic";
           go_potential_savings_eth := ga_gas_savings_eth gas_analysis |})
  with
  | Ok r => r
  | Raise _ =>
      {| go_recommended_gas_price_gwei :=
           py_int (ga_current_gas_price_gwei gas_analysis);
         go_gas_optimization_strategy := "fallback";
         go_potential_savings_eth := 0.0 |}
  end.

Definition _finalize_profit_analysis
    (self : ProfitOptimizer) (profit_analysis : Profitability)
    (gas_optimization : GasOptimization) (simulation_result : Simulation)
  : ProfitAnalysis :=
  match
    (let gas_cost_eth := pr_gas_cost_eth profit_analysis in
     let recommended :=
       inject_Z (go_recommended_gas_price_gwei gas_optimization) in
     divisor <- py_div (gas_cost_eth * ten_pow_18) gas_cost_eth ;;
     optimized_gas_cost_wei <-
       py_div (gas_cost_eth * ten_pow_18 * recommended) divisor ;;
     optimized_gas_cost_eth <-
       from_wei (_web3 self) (py_int optimized_gas_cost_wei) "ether" ;;
     let final_net_profit :=
       pr_gross_profit_eth profit_analysis - optimized_gas_cost_eth in
     let final_roi := (final_net_profit / 1.0) * 100 in
     let final_profitable :=
       Qle_bool (_min_profit_eth self) final_net_profit
       && Qle_bool (_min_roi_percentage self) final_roi
       && sim_success simulation_result in
     Ok {| gross_profit_eth := pr_gross_profit_eth profit_analysis;
           gas_cost_eth := optimized_gas_cost_eth;
           net_profit_eth := final_net_profit;
           roi_percentage := final_roi;
           profitable := final_profitable;
           confidence_score := pr_confidence_score profit_analysis;
           risk_level := pr_risk_level profit_analysis;
           recommended_gas_price_gwei :=
             go_recommended_gas_price_gwei gas_optimization;
           simulation_success := sim_success simulation_result;
           execution_probability := pr_execution_probability profit_analysis |})
  with
  | Ok r => r
  | Raise _ => failed_analysis
  end.

(** [analyze_profitability].  Each of the five steps handles its own
    exceptions, so nothing reaches the handler of this method; its
    fallback is [failed_analysis] as well. *)
Definition analyze_profitability
    (self : ProfitOptimizer) (opportunity : pydict) (tx_params : TxParams)
    (now : Q)
  : ProfitAnalysis * ProfitOptimizer :=
  let simulation_result := _simulate_transaction self tx_params in
  let '(gas_analysis, self) :=
    _analyze_gas_costs self tx_params simulation_result now in
  let profit_analysis :=
    _calculate_profitability self opportunity gas_analysis simulation_result in
  let optimized_gas := _optimize_gas_price self profit_analysis gas_analysis in
  let final_analysis :=
    _finalize_profit_analysis self profit_analysis optimized_gas
      simulation_result in
  let stats := _optimization_stats self in
  let stats :=
    {| total_analyses := (total_analyses stats + 1)%Z;
       profitable_opportunities :=
         if profitable final_analysis
         then (profitable_opportunities stats + 1)%Z
         else profitable_opportunities stats;
       executed_opportunities := executed_opportunities stats;
       total_profit_eth := total_profit_eth stats;
       total_gas_spent_eth := total_gas_spent_eth stats;
       avg_roi_percentage := avg_roi_percentage stats |} in
  (final_analysis, with_stats self stats).
End WithSettings.

(** [is_profitable_trade], on numbers.  With [input_amt > 0] established
    nothing in its [try] block raises. *)
Definition is_profitable_trade
    (input_amt output_amt gas_cost_eth roi_threshold_pct : Q) : bool :=
  if Qle_bool input_amt 0 then false
  else
    let net_profit := output_amt - input_amt - gas_cost_eth in
    let roi_percentage := (net_profit / input_amt) * 100 in
    Qle_bool roi_threshold_pct roi_percentage.

(** [record_execution_result] *)
Definition record_execution_result
    (self : ProfitOptimizer) (profit_analysis : ProfitAnalysis)
    (success : bool) (actual_profit : Q) : ProfitOptimizer :=
  let stats := _optimization_stats self in
  let executed := (executed_opportunities stats + 1)%Z in
  if success then
    let total_analyses := total_analyses stats in
    with_stats self
      {| total_analyses := total_analyses;
         profitable_opportunities := profitable_opportunities stats;
         executed_opportunities := executed;
         total_profit_eth := total_profit_eth stats + actual_profit;
         total_gas_spent_eth :=
           total_gas_spent_eth stats + gas_cost_eth profit_analysis;
         avg_roi_percentage :=
           if (0 <? total_analyses)%Z then
             (avg_roi_percentage stats * inject_Z (total_analyses - 1)
              + roi_percentage profit_analysis) / inject_Z total_analyses
           else avg_roi_percentage stats |}
  else
    with_stats self
      {| total_analyses := total_analyses stats;
         profitable_opportunities := profitable_opportunities stats;
         executed_opportunities := executed;
         total_profit_eth := total_profit_eth stats;
         total_gas_spent_eth := total_gas_spent_eth stats;
         avg_roi_percentage := avg_roi_percentage stats |}.

(** The three entries that [get_optimization_stats] adds to the counters. *)
Record DerivedStats : Type := {
  success_rate_percentage : Q;
  execution_rate_percentage : Q;
  stats_net_profit_eth : Q
}.

Definition get_optimization_stats (self : ProfitOptimizer)
  : OptimizationStats * DerivedStats :=
  let stats := _optimization_stats self in
  let success_rate :=
    if (0 <? total_analyses stats)%Z then
      inject_Z (profitable_opportunities stats) / inject_Z (total_analyses stats)
      * 100
    else 0.0 in
  let execution_rate :=
    if (0 <? profitable_opportunities stats)%Z then
      inject_Z (executed_opportunities stats)
      / inject_Z (profitable_opportunities stats) * 100
    else 0.0 in
  (stats,
   {| success_rate_percentage := success_rate;
      execution_rate_percentage := execution_rate;
      stats_net_profit_eth :=
        total_profit_eth stats - total_gas_spent_eth stats |}).

End Optimizer.

(* ================================================================== *)
(** * monitoring/flashbots_relay.py *)
(* ================================================================== *)

Module Relay.

(** An element of the [transactions] argument: a signed transaction, which
    has a [rawTransaction] attribute, or any other object, which has not. *)
Inductive transaction : Type :=
| Signed (rawTransaction : string)
| Unsigned (v : pyval).

Record ClientSession : Type := { timeout_total : Q }.

Record SubmissionStats : Type := {
  total_submissions : Z;
  successful_bundles : Z;
  failed_submissions : Z;
  avg_latency_ms : Q;
  total_profit_eth : Q
}.

(** A value of [_pending_bundles]. *)
Record PendingBundle : Type := {
  pb_transactions : list transaction;
  pb_target_block : Z;
  pb_submission_time : Q;
  pb_status : string
}.

Record FlashbotsRelay : Type := {
  _session : option ClientSession;
  _relay_url : string;
  _mev_share_url : string;
  _submission_stats : SubmissionStats;
  _pending_bundles : list (pyval * PendingBundle);
  _bundle_timeout : Q
}.

(** [FlashbotsRelay.__init__] *)
Definition init : FlashbotsRelay := {|
  _session := None;
  _relay_url := "https://relay.flashbots.net";
  _mev_share_url := "https://mev-share.flashbots.net";
  _submission_stats :=
    {| total_submissions := 0; successful_bundles := 0;
       failed_submissions := 0; avg_latency_ms := 0; total_profit_eth := 0.0 |};
  _pending_bundles := [];
  _bundle_timeout := 12
|}.

Definition start (self : FlashbotsRelay) : FlashbotsRelay := {|
  _session :=
    match _session self with
    | None => Some {| timeout_total := 10 |}
    | Some session => Some session
    end;
  _relay_url := _relay_url self;
  _mev_share_url := _mev_share_url self;
  _submission_stats := _submission_stats self;
  _pending_bundles := _pending_bundles self;
  _bundle_timeout := _bundle_timeout self
|}.

Definition with_pending
    (self : FlashbotsRelay) (pending : list (pyval * PendingBundle))
  : FlashbotsRelay := {|
  _session := _session self;
  _relay_url := _relay_url self;
  _mev_share_url := _mev_share_url self;
  _submission_stats := _submission_stats self;
  _pending_bundles := pending;
  _bundle_timeout := _bundle_timeout self
|}.

Definition with_stats (self : FlashbotsRelay) (stats : SubmissionStats)
  : FlashbotsRelay := {|
  _session := _session self;
  _relay_url := _relay_url self;
  _mev_share_url := _mev_share_url self;
  _submission_stats := stats;
  _pending_bundles := _pending_bundles self;
  _bundle_timeout := _bundle_timeout self
|}.

(** The dict [submit_bundle] returns; a key that a branch leaves out is
    [None] here. *)
Record Submission : Type := {
  sub_success : bool;
  sub_bundle_hash : option pyval;
  sub_latency_ms : Q;
  sub_target_block : option Z;
  sub_error : option string
}.

(** The dict [simulate_bundle] returns. *)
Record SimulationResult : Type := {
  success : bool;
  error : option pyval;
  gas_used : Z;
  estimated_profit : Q;
  bundle_hash : option pyval
}.

Definition opt_num (x : option Z) : pyval :=
  match x with
  | Some n => PNum (inject_Z n)
  | None => PNone
  end.

(** The JSON-RPC document of [eth_sendBundle]. *)
Definition send_bundle_request
    (txs : list pyval) (target_block : Z) (min_timestamp max_timestamp : option Z)
  : pyval :=
  PDict [ ("jsonrpc", PStr "2.0");
          ("id", PNum 1);
          ("method", PStr "eth_sendBundle");
          ("params",
           PList [ PDict [ ("txs", PList txs);
                           ("blockNumber", PStr (HexString.of_Z target_block));
                           ("minTimestamp", opt_num min_timestamp);
                           ("maxTimestamp", opt_num max_timestamp) ] ]) ].

(** The JSON-RPC document of [eth_callBundle]. *)
Definition call_bundle_request (bundle : pyval) : pyval :=
  PDict [ ("jsonrpc", PStr "2.0");
          ("id", PNum 1);
          ("method", PStr "eth_callBundle");
          ("params", PList [bundle; PStr "latest"]) ].

Section WithNetwork.
Context {builtins : Builtins} {network : Network}.

(** [tx.rawTransaction.hex()] *)
Definition raw_hex (tx : transaction) : result pyval :=
  match tx with
  | Signed raw => Ok (PStr (bytes_hex raw))
  | Unsigned _ => Raise AttributeError
  end.

(** [self._session.post(url, json=body)] and [await response.json()]. *)
Definition session_post (self : FlashbotsRelay) (url : string) (body : pyval)
  : result pyval :=
  match _session self with
  | None => Raise AttributeError
  | Some _ => http_post url body
  end.

(** [self._pending_bundles[bundle_id] = {...}] *)
Definition track
    (self : FlashbotsRelay) (bundle_id : pyval) (entry : PendingBundle)
  : result FlashbotsRelay :=
  if hashable bundle_id
  then Ok (with_pending self
             (dict_set py_key_eqb (_pending_bundles self) bundle_id entry))
  else Raise TypeError.

(** The part of the [try] block of [submit_bundle] that talks to the
    relay: it returns the bundle hash and touches no field of [self]. *)
Definition request_bundle_hash
    (self : FlashbotsRelay) (transactions : list transaction)
    (target_block : Z) (min_timestamp max_timestamp : option Z)
  : result pyval :=
  txs <- map_m raw_hex transactions ;;
  let bundle :=
    send_bundle_request txs target_block min_timestamp max_timestamp in
  result <- session_post self (_relay_url self) bundle ;;
  has_error <- py_contains result "error" ;;
  if has_error then
    err <- py_getitem result "error" ;;
    message <- py_str err ;;
    Raise (FlashbotsError ("Flashbots relay error: " ++ message))
  else
    bundle_hash <- py_get result "result" PNone ;;
    if negb (truthy bundle_hash)
    then Raise (FlashbotsError "No bundle hash returned from relay")
    else Ok bundle_hash.

(** The [try] block of [submit_bundle]: the relay as the block leaves it,
    and what the block returns or raises.  [start_time] and [end_time]
    are the two readings of [time.time()]. *)
Definition submit_bundle_try
    (self : FlashbotsRelay) (transactions : list transaction)
    (target_block : Z) (min_timestamp max_timestamp : option Z)
    (start_time end_time : Q)
  : FlashbotsRelay * result Submission :=
  match request_bundle_hash self transactions target_block
          min_timestamp max_timestamp with
  | Raise e => (self, Raise e)
  | Ok bundle_hash =>
      let bundle_id := bundle_hash in
      match track self bundle_id
              {| pb_transactions := transactions;
                 pb_target_block := target_block;
                 pb_submission_time := start_time;
                 pb_status := "pending" |} with
      | Raise e => (self, Raise e)
      | Ok self =>
          let latency := (end_time - start_time) * 1000 in
          let stats := _submission_stats self in
          let stats :=
            {| total_submissions := (total_submissions stats + 1)%Z;
               successful_bundles := successful_bundles stats;
               failed_submissions := failed_submissions stats;
               avg_latency_ms := avg_latency_ms stats * 0.9 + latency * 0.1;
               total_profit_eth := total_profit_eth stats |} in
          (with_stats self stats,
           Ok {| sub_success := true;
                 sub_bundle_hash := Some bundle_hash;
                 sub_latency_ms := latency;
                 sub_target_block := Some target_block;
                 sub_error := None |})
      end
  end.

Definition submit_bundle
    (self : FlashbotsRelay) (transactions : list transaction)
    (target_block : Z) (min_timestamp max_timestamp : option Z)
    (start_time end_time : Q)
  : Submission * FlashbotsRelay :=
  match submit_bundle_try self transactions target_block
          min_timestamp max_timestamp start_time end_time with
  | (self, Ok submission) => (submission, self)
  | (self, Raise e) =>
      let stats := _submission_stats self in
      let stats :=
        {| total_submissions := total_submissions stats;
           successful_bundles := successful_bundles stats;
           failed_submissions := (failed_submissions stats + 1)%Z;
           avg_latency_ms := avg_latency_ms stats;
           total_profit_eth := total_profit_eth stats |} in
      ({| sub_success := false;
          sub_bundle_hash := None;
          sub_latency_ms := (end_time - start_time) * 1000;
          sub_target_block := None;
          sub_error := Some (str_exn e) |},
       with_stats self stats)
  end.

(** The loop over [simulation_data["results"]]. *)
Fixpoint sum_gas_used (gas_used : Z) (results : list pyval) : result Z :=
  match results with
  | [] => Ok gas_used
  | tx_result :: rest =>
      gas <- py_get tx_result "gasUsed" (PStr "0x0") ;;
      n <- py_int16 gas ;;
      sum_gas_used (gas_used + n)%Z rest
  end.

(** The [try] block of [simulate_bundle]. *)
Definition simulate_bundle_try (self : FlashbotsRelay) (bundle : pyval)
  : result SimulationResult :=
  match _session self with
  | None => Raise (PlainException "Flashbots relay not connected")
  | Some _ =>
      let simulation_request := call_bundle_request bundle in
      result <- http_post (_relay_url self) simulation_request ;;
      has_error <- py_contains result "error" ;;
      if has_error then
        err <- py_getitem result "error" ;;
        message <- py_get err "message" (PStr "Unknown error") ;;
        Ok {| success := false;
              error := Some message;
              gas_used := 0;
              estimated_profit := 0;
              bundle_hash := None |}
      else
        simulation_data <- py_get result "result" (PDict []) ;;
        let gas_used := 0%Z in
        has_results <- py_contains simulation_data "results" ;;
        gas_used <-
          (if has_results then
             results <- py_getitem simulation_data "results" ;;
             tx_results <- py_iter results ;;
             sum_gas_used gas_used tx_results
           else Ok gas_used) ;;
        let estimated_profit := 0 in
        has_diff <- py_contains simulation_data "coinbaseDiff" ;;
        estimated_profit <-
          (if has_diff then
             diff <- py_getitem simulation_data "coinbaseDiff" ;;
             n <- py_int16 diff ;;
             Ok (inject_Z n / ten_pow_18)
           else Ok estimated_profit) ;;
        hash <- py_get simulation_data "bundleHash" PNone ;;
        let success :=
          match hash with PNone => false | _ => true end in
        Ok {| success := success;
              error := None;
              gas_used := gas_used;
              estimated_profit := estimated_profit;
              bundle_hash := Some hash |}
  end.

Definition simulate_bundle (self : FlashbotsRelay) (bundle : pyval)
  : SimulationResult :=
  match simulate_bundle_try self bundle with
  | Ok r => r
  | Raise e =>
      {| success := false;
         error := Some (PStr (str_exn e));
         gas_used := 0;
         estimated_profit := 0;
         bundle_hash := None |}
  end.
End WithNetwork.

(** [cleanup_expired_bundles]; [current_time] is [time.time()]. *)
Definition cleanup_expired_bundles (self : FlashbotsRelay) (current_time : Q)
  : FlashbotsRelay :=
  let expired_bundles :=
    map fst
      (filter (fun kv =>
                 Qltb (_bundle_timeout self)
                      (current_time - pb_submission_time (snd kv)))
              (_pending_bundles self)) in
  with_pending self
    (fold_left (dict_del py_key_eqb) expired_bundles (_pending_bundles self)).

(** ** Inclusion *)

(** The dict [get_bundle_status] returns. *)
Record BundleStatus : Type := {
  status : string;
  st_block_number : option Z;
  st_bundle_index : option pyval;
  st_error : option pyval
}.

(** The dict [monitor_bundle_inclusion] returns. *)
Record Inclusion : Type := {
  included : bool;
  inc_block_number : option Z;
  inc_bundle_index : option pyval;
  blocks_waited : Z
}.

Definition bundle_by_hash_request (bundle_hash : string) : pyval :=
  PDict [ ("jsonrpc", PStr "2.0");
          ("id", PNum 1);
          ("method", PStr "eth_getBundleByHash");
          ("params", PList [PStr bundle_hash]) ].

Definition count_included (self : FlashbotsRelay) : FlashbotsRelay :=
  let stats := _submission_stats self in
  with_stats self
    {| total_submissions := total_submissions stats;
       successful_bundles := (successful_bundles stats + 1)%Z;
       failed_submissions := failed_submissions stats;
       avg_latency_ms := avg_latency_ms stats;
       total_profit_eth := total_profit_eth stats |}.

Section Inclusion.
Context {builtins : Builtins}.

(** The [try] block of [get_bundle_status]: the relay as the block leaves
    it, and what the block returns or raises.  The counter of included
    bundles is raised before the answer is decoded. *)
Definition get_bundle_status_try
    {network : Network} (self : FlashbotsRelay) (bundle_hash : string)
  : FlashbotsRelay * result BundleStatus :=
  match session_post self (_relay_url self) (bundle_by_hash_request bundle_hash) with
  | Raise e => (self, Raise e)
  | Ok result =>
      match py_contains result "error" with
      | Raise e => (self, Raise e)
      | Ok true =>
          (self,
           err <- py_getitem result "error" ;;
           Ok {| status := "unknown";
                 st_block_number := None;
                 st_bundle_index := None;
                 st_error := Some err |})
      | Ok false =>
          match py_get result "result" PNone with
          | Raise e => (self, Raise e)
          | Ok bundle_data =>
              if truthy bundle_data then
                let self := count_included self in
                (self,
                 block <- py_get bundle_data "blockNumber" (PStr "0x0") ;;
                 block_number <- py_int16 block ;;
                 bundle_index <- py_get bundle_data "bundleIndex" (PNum 0) ;;
                 Ok {| status := "included";
                       st_block_number := Some block_number;
                       st_bundle_index := Some bundle_index;
                       st_error := None |})
              else
                (self,
                 Ok {| status := "not_included";
                       st_block_number := None;
                       st_bundle_index := None;
                       st_error := None |})
          end
      end
  end.

Definition get_bundle_status
    {network : Network} (self : FlashbotsRelay) (bundle_hash : string)
  : BundleStatus * FlashbotsRelay :=
  match get_bundle_status_try self bundle_hash with
  | (self, Ok bundle_status) => (bundle_status, self)
  | (self, Raise e) =>
      ({| status := "error";
          st_block_number := None;
          st_bundle_index := None;
          st_error := Some (PStr (str_exn e)) |},
       self)
  end.

(** The loop of [monitor_bundle_inclusion], with [remaining] polls left
    after [polled] polls made.  [relay_at i] is the relay as poll [i] finds
    it and [block_at i] what [self._web3.eth.block_number] gives after
    poll [i]. *)
Fixpoint monitor_loop
    (relay_at : nat -> Network) (block_at : nat -> result Z)
    (self : FlashbotsRelay) (bundle_hash : string)
    (start_block timeout_blocks : Z) (polled remaining : nat)
  : FlashbotsRelay * result Inclusion :=
  match remaining with
  | O =>
      (self,
       Ok {| included := false;
             inc_block_number := None;
             inc_bundle_index := None;
             blocks_waited := timeout_blocks |})
  | S remaining' =>
      let '(bundle_status, self) :=
        get_bundle_status (network := relay_at polled) self bundle_hash in
      if String.eqb (status bundle_status) "included" then
        (self,
         current_block <- block_at polled ;;
         Ok {| included := true;
               inc_block_number := st_block_number bundle_status;
               inc_bundle_index := st_bundle_index bundle_status;
               blocks_waited := (current_block - start_block)%Z |})
      else
        monitor_loop relay_at block_at self bundle_hash start_block
          timeout_blocks (S polled) remaining'
  end.

(** [monitor_bundle_inclusion]; [start_block] is the first reading of
    [self._web3.eth.block_number].  The method has no handler: a failing
    read of the block number goes to the caller. *)
Definition monitor_bundle_inclusion
    (relay_at : nat -> Network) (block_at : nat -> result Z)
    (self : FlashbotsRelay) (bundle_hash : string)
    (start_block : result Z) (timeout_blocks : Z)
  : FlashbotsRelay * result Inclusion :=
  match start_block with
  | Raise e => (self, Raise e)
  | Ok start_block =>
      monitor_loop relay_at block_at self bundle_hash start_block
        timeout_blocks 0 (Z.to_nat timeout_blocks)
  end.
End Inclusion.

(** [get_performance_stats]: the counters, the success rate and the number
    of pending bundles. *)
Definition get_performance_stats (self : FlashbotsRelay)
  : SubmissionStats * Q * nat :=
  let stats := _submission_stats self in
  let success_rate :=
    if (0 <? total_submissions stats)%Z then
      inject_Z (successful_bundles stats) / inject_Z (total_submissions stats) * 100
    else 0.0 in
  (stats, success_rate, List.length (_pending_bundles self)).

End Relay.

(* ================================================================== *)
(** * The spec's reading of two rules *)
(* ================================================================== *)

Module Spec.

(** The additive adjustments of the strategy confidence, per field. *)
Definition gas_adjustment (gas_price : Q) : Q :=
  if Qltb gas_price 30 then 0.2 else if Qltb 80 gas_price then - 0.2 else 0.
Definition volatility_adjustment (volatility : Q) : Q :=
  if Qltb volatility 5.0 then 0.2 else if Qltb 15.0 volatility then - 0.2 else 0.
Definition mempool_adjustment (mempool_volume : Q) : Q :=
  if Qltb 500 mempool_volume then 0.1 else 0.

Definition clamp01 (x : Q) : Q := py_max 0.0 (py_min 1.0 x).

(** The spec's sentence on the strategy confidence: 0 for [skip]; otherwise
    0.5 plus the adjustments of the fields that are present, clamped to
    [0, 1]; a field that is missing is neutral and adjusts nothing. *)
Definition neutral_adjustment (d : pydict) (k : string) (adj : Q -> Q) : Q :=
  match dict_lookup String.eqb d k with
  | None => 0
  | Some v => match as_number v with Some x => adj x | None => 0 end
  end.

Definition strategy_confidence_missing_neutral (strategy : string) (d : pydict) : Q :=
  if String.eqb strategy "skip" then 0
  else clamp01 (0.5
                + neutral_adjustment d "gas_price_gwei" gas_adjustment
                + neutral_adjustment d "token_price_volatility" volatility_adjustment
                + neutral_adjustment d "mempool_tx_rate" mempool_adjustment).

(** What the code does with a field: [d.get(k, 0)], so a missing field
    reads as the number 0. *)
Definition field_or_zero (d : pydict) (k : string) : option Q :=
  as_number (get d k (PNum 0)).

(** A simulation result that reports failure and no estimates. *)
Definition failed_simulation (r : Relay.SimulationResult) : Prop :=
  Relay.success r = false /\ Relay.gas_used r = 0%Z /\
  Relay.estimated_profit r == 0.


(** A relay answer that is cut short: its [result] object carries no
    [bundleHash]. *)
Definition cut_short (response : result pyval) : Prop :=
  match response with
  | Ok (PDict d) =>
      match dict_lookup String.eqb d "result" with
      | Some (PDict data) => get data "bundleHash" PNone = PNone
      | _ => False
      end
  | _ => False
  end.


(** The number a stored opportunity is ranked by, [expected_profit_eth *
    confidence_score], for an opportunity whose expected profit is a
    number. *)
Definition priority (opp : Detector.DetectedOpportunity) : Q :=
  match as_number (Detector.expected_profit_eth opp) with
  | Some profit => profit * Detector.confidence_score opp
  | None => 0
  end.

(** [a] ranks at least as high as [b]. *)
Definition outranks (a b : Detector.DetectedOpportunity) : Prop :=
  priority b <= priority a.

(** An opportunity passes the thresholds of the detector. *)
Definition meets_thresholds
    (self : Detector.OpportunityDetector) (opp : Detector.DetectedOpportunity)
  : Prop :=
  exists profit : Q,
    as_number (Detector.expected_profit_eth opp) = Some profit /\
    Detector._min_profit_threshold self <= profit /\
    Detector._min_confidence_score self <= Detector.confidence_score opp.

Definition blacklisted
    (self : Detector.OpportunityDetector) (opportunity_id : string) : Prop :=
  In opportunity_id (Detector._blacklisted_opportunities self).

(** Every stored opportunity has a number as its expected profit. *)
Definition numeric_profits (self : Detector.OpportunityDetector) : Prop :=
  Forall (fun opp => exists profit : Q,
            as_number (Detector.expected_profit_eth opp) = Some profit)
         (dict_values (Detector._detected_opportunities self)).

(** ** Predicates of the further properties *)

(** Every success rate is a frequency. *)
Definition rates_in_unit (rates : list (string * Q)) : Prop :=
  Forall (fun kv => 0 <= snd kv <= 1) rates.

(** The success rate on record for a strategy type, 0 when there is none. *)
Definition rate_of (self : Analytics.AdvancedAnalytics) (strategy_type : string) : Q :=
  match dict_lookup String.eqb (Analytics._success_rates self) strategy_type with
  | Some rate => rate
  | None => 0.0
  end.

(** The opportunity that a run of upserts leaves under [id]: the last of
    the new ones that has this id, or else what was there before. *)
Definition latest_with_id
    (id : string) (new_opportunities : list Detector.DetectedOpportunity)
    (before : option Detector.DetectedOpportunity)
  : option Detector.DetectedOpportunity :=
  fold_left (fun found opp =>
               if String.eqb id (Detector.id opp) then Some opp else found)
            new_opportunities before.

(** No two entries of a dict have equal keys. *)
Definition distinct_keys {K V} (eqb : K -> K -> bool) (d : list (K * V)) : Prop :=
  ForallOrdPairs
    (fun a b => eqb (fst a) (fst b) = false /\ eqb (fst b) (fst a) = false) d.

(** The execution counters add up. *)
Definition counts_balance (self : Detector.OpportunityDetector) : Prop :=
  let stats := Detector._detection_stats self in
  Detector.total_executed stats
  = (Detector.total_profitable stats + Detector.false_positives stats)%Z.

(** What an arbitrage opportunity says about the two venues it was built
    from. *)
Definition sound_arbitrage
    (self : Detector.OpportunityDetector) (prices : list (string * Q))
    (opportunity : pydict) : Prop :=
  exists (dex_buy dex_sell : string) (price_buy price_sell profit : Q),
    In (dex_buy, price_buy) prices /\ In (dex_sell, price_sell) prices /\
    dex_buy <> dex_sell /\
    0 < price_buy /\ price_buy < price_sell /\
    profit == (price_sell - price_buy) / price_buy /\
    0.005 < profit /\ Detector._min_profit_threshold self <= profit /\
    get opportunity "dex_buy" PNone = PStr dex_buy /\
    get opportunity "dex_sell" PNone = PStr dex_sell /\
    get opportunity "price_buy" PNone = PNum price_buy /\
    get opportunity "price_sell" PNone = PNum price_sell /\
    get opportunity "expected_profit_eth" PNone = PNum profit /\
    get opportunity "amount_in" PNone = PNum 1.0.

(** A pending-bundle map as [submit_bundle] builds it: hashable keys, no two
    of them equal. *)
Definition valid_pending (pending : list (pyval * Relay.PendingBundle)) : Prop :=
  distinct_keys py_key_eqb pending /\
  Forall (fun kv => hashable (fst kv) = true) pending.

(** [current_time - bundle_data["submission_time"] > self._bundle_timeout] *)
Definition expired
    (self : Relay.FlashbotsRelay) (current_time : Q)
    (entry : pyval * Relay.PendingBundle) : bool :=
  Qltb (Relay._bundle_timeout self)
       (current_time - Relay.pb_submission_time (snd entry)).

(** The status that poll number [i] of a monitoring run reports. *)
Definition status_at
    {builtins : Builtins} (relay_at : nat -> Network)
    (self : Relay.FlashbotsRelay) (bundle_hash : string) (i : nat) : string :=
  Relay.status
    (fst (Relay.get_bundle_status (network := relay_at i) self bundle_hash)).

(** Two relays with the same session and endpoint. *)
Definition same_link (a b : Relay.FlashbotsRelay) : Prop :=
  Relay._session a = Relay._session b /\ Relay._relay_url a = Relay._relay_url b.

(** What a monitoring run that polls [first], [first + 1], ... for [count]
    polls may end in: inclusion reported at the first poll that says
    included, with the block number read after it; or no inclusion, when no
    poll says included; or the error of the block-number read that follows
    the first poll that says included. *)
Definition monitored
    {builtins : Builtins} (relay_at : nat -> Network)
    (block_at : nat -> result Z) (self : Relay.FlashbotsRelay)
    (bundle_hash : string) (start_block timeout_blocks : Z)
    (first count : nat) (outcome : result Relay.Inclusion) : Prop :=
  let says_included i := status_at relay_at self bundle_hash i = "included" in
  let first_included i :=
    (first <= i < first + count)%nat /\ says_included i /\
    (forall j, (first <= j < i)%nat -> ~ says_included j) in
  match outcome with
  | Ok inclusion =>
      if Relay.included inclusion then
        exists i block,
          first_included i /\ block_at i = Ok block /\
          Relay.blocks_waited inclusion = (block - start_block)%Z
      else
        (forall i, (first <= i < first + count)%nat -> ~ says_included i) /\
        Relay.blocks_waited inclusion = timeout_blocks /\
        Relay.inc_block_number inclusion = None
  | Raise e => exists i, first_included i /\ block_at i = Raise e
  end.

(** The counters of the optimizer are consistent. *)
Definition analyses_cover_profitable (self : Optimizer.ProfitOptimizer) : Prop :=
  let stats := Optimizer._optimization_stats self in
  (0 <= Optimizer.profitable_opportunities stats
   <= Optimizer.total_analyses stats)%Z.

End Spec.

(* ================================================================== *)
(** * Concrete collaborators and inputs *)
(* ================================================================== *)

Module Examples.
Import Analytics.

Definition hex_digit (c : ascii) : option Z :=
  let n := Z.of_nat (nat_of_ascii c) in
  if ((48 <=? n) && (n <=? 57))%Z then Some (n - 48)%Z
  else if ((97 <=? n) && (n <=? 102))%Z then Some (n - 87)%Z
  else if ((65 <=? n) && (n <=? 70))%Z then Some (n - 55)%Z
  else None.

Fixpoint hex_digits (acc : Z) (s : string) : option Z :=
  match s with
  | EmptyString => Some acc
  | String c s' =>
      match hex_digit c with
      | Some d => hex_digits (16 * acc + d)%Z s'
      | None => None
      end
  end.

(** Hexadecimal numerals with an optional [0x] prefix. *)
Definition parse_hex (s : string) : option Z :=
  let body :=
    if String.prefix "0x" s || String.prefix "0X" s
    then String.substring 2 (String.length s - 2) s else s in
  match body with
  | EmptyString => None
  | _ => hex_digits 0 body
  end.

Fixpoint dec_digits (acc : Z) (s : string) : option Z :=
  match s with
  | EmptyString => Some acc
  | String c s' =>
      let n := Z.of_nat (nat_of_ascii c) in
      if ((48 <=? n) && (n <=? 57))%Z then dec_digits (10 * acc + (n - 48))%Z s'
      else None
  end.

(** Unsigned decimal integers. *)
Definition parse_dec (s : string) : option Q :=
  match s with
  | EmptyString => None
  | _ => option_map inject_Z (dec_digits 0 s)
  end.

(** A small interpreter: it reads plain hexadecimal and decimal numerals
    and renders only what the examples below look at. *)
#[export] Instance builtins : Builtins := {|
  float_of_str := parse_dec;
  int_base16 := parse_hex;
  py_str := fun v =>
    Ok match v with
       | PStr s => s
       | PNone => "None"
       | PBool true => "True"
       | PBool false => "False"
       | _ => "<object>"
       end;
  md5_hexdigest := fun s => Ok s;
  bytes_hex := fun s => s;
  str_exn := fun e =>
    match e with
    | FlashbotsError msg => msg
    | PlainException msg => msg
    | TypeError => "TypeError"
    | ValueError => "ValueError"
    | AttributeError => "AttributeError"
    | KeyError => "KeyError"
    | ZeroDivisionError => "division by zero"
    | TransportError => "transport error"
    end
|}.

(** ** Strategy confidence *)

(** The partial input of [test_get_strategy_confidence_partial_conditions]:
    only the gas price is given. *)
Definition only_gas : pydict := [("gas_price_gwei", PNum 50)].

(** ** The opportunity store *)

Definition stored_opportunity
    (id : string) (expected_profit_eth confidence_score : Q)
  : Detector.DetectedOpportunity := {|
  Detector.id := id;
  Detector.type := PStr "arbitrage";
  Detector.chain_id := 1;
  Detector.tokens := PList [PStr "WETH"; PStr "USDC"];
  Detector.expected_profit_eth := PNum expected_profit_eth;
  Detector.amount_in := PNum 1.0;
  Detector.gas_estimate_eth := PNum 0.01;
  Detector.confidence_score := confidence_score;
  Detector.risk_level := "low";
  Detector.execution_priority := 7;
  Detector.timestamp := PTime 1700000000000000;
  Detector.metadata := [];
  Detector.analytics_score := None
|}.

Definition opp_a := stored_opportunity "a" 0.5 0.7.
Definition opp_b := stored_opportunity "b" 0.25 0.75.
Definition opp_c := stored_opportunity "c" 1 0.65.
Definition opp_d := stored_opportunity "d" 0.125 0.875.

(** A detector with minimum profit 0.01 that has seen four opportunities
    one second ago and has blacklisted the last one. *)
Definition detector : Detector.OpportunityDetector :=
  Detector.run (Detector.init 1 0.01)
    [ Detector.Update 1700000001000000 [opp_d; opp_b; opp_c; opp_a];
      Detector.Blacklist "d" ].

(** ** The relay *)

(** A relay that rejects every request with a JSON-RPC error. *)
Definition rejecting_relay : Network := {|
  http_post := fun _ _ =>
    Ok (PDict [ ("jsonrpc", PStr "2.0"); ("id", PNum 1);
                ("error", PDict [ ("code", PNum (-32000));
                                  ("message", PStr "bundle rejected") ]) ])
|}.

(** A relay that answers [eth_sendBundle] with a bundle hash. *)
Definition accepting_relay : Network := {|
  http_post := fun _ _ =>
    Ok (PDict [ ("jsonrpc", PStr "2.0"); ("id", PNum 1);
                ("result", PStr "0xb0b") ])
|}.

(** A relay whose answer to [eth_callBundle] is cut short: it has the gas
    figures but no bundle hash. *)
Definition truncating_relay : Network := {|
  http_post := fun _ _ =>
    Ok (PDict [ ("jsonrpc", PStr "2.0"); ("id", PNum 1);
                ("result",
                 PDict [ ("results", PList [PDict [("gasUsed", PStr "0x5208")]]);
                         ("coinbaseDiff", PStr "0xde0b6b3a7640000") ]) ])
|}.

(** A relay that is unreachable. *)
Definition unreachable_relay : Network := {|
  http_post := fun _ _ => Raise TransportError
|}.

Definition connected_relay : Relay.FlashbotsRelay := Relay.start Relay.init.

Definition one_transaction : list Relay.transaction := [Relay.Signed "02f8"].

(** ** The profit optimizer *)

Definition unit_value (unit : string) : option Z :=
  if String.eqb unit "gwei" then Some (10 ^ 9)%Z
  else if String.eqb unit "ether" then Some (10 ^ 18)%Z
  else None.

Definition max_wei : Z := (2 ^ 256 - 1)%Z.

(** A node on which the candidate transaction succeeds with 21000 gas at a
    gas price of 50 gwei; [from_wei] and [to_wei] convert as web3 does, on
    exact numbers. *)
Definition node : Optimizer.Web3 := {|
  Optimizer.eth_call := fun _ => Ok (Some "0x");
  Optimizer.eth_estimate_gas := fun _ => Ok 21000%Z;
  Optimizer.eth_gas_price := Ok 50000000000%Z;
  Optimizer.from_wei := fun number unit =>
    match unit_value unit with
    | None => Raise ValueError
    | Some value =>
        if (number =? 0)%Z then Ok 0
        else if ((number <? 0) || (max_wei <? number))%Z then Raise ValueError
        else Ok (inject_Z number / inject_Z value)
    end;
  Optimizer.to_wei := fun number unit =>
    match unit_value unit with
    | None => Raise ValueError
    | Some value =>
        let result_value := number * inject_Z value in
        if Qltb result_value 0 || Qltb (inject_Z max_wei) result_value
        then Raise ValueError
        else Ok (py_int result_value)
    end
|}.

Definition settings : Optimizer.Settings := {|
  Optimizer.min_profit_eth := 0.01;
  Optimizer.max_gas_fee_percentage := 10;
  Optimizer.default_gas_limit := 500000
|}.

Definition optimizer : Optimizer.ProfitOptimizer :=
  Optimizer.init settings node.

(** An opportunity that commits 2 ETH for an expected profit of 0.5 ETH. *)
Definition two_eth_opportunity : pydict :=
  [ ("type", PStr "arbitrage");
    ("expected_profit_eth", PNum 0.5);
    ("amount_in", PNum 2) ].

Definition plain_transaction : Optimizer.TxParams := {|
  Optimizer.tx_gas := None;
  Optimizer.tx_rest := [("to", PStr "0x00000000000000000000000000000000000000aa")]
|}.

(** The analysis of [two_eth_opportunity], and the gas analysis on the way
    to it. *)
Definition two_eth_analysis : Optimizer.ProfitAnalysis :=
  fst (Optimizer.analyze_profitability (builtins := builtins) settings
         optimizer two_eth_opportunity plain_transaction 1700000000).

Definition two_eth_gas_analysis : Optimizer.GasAnalysis :=
  fst (Optimizer._analyze_gas_costs settings optimizer plain_transaction
         (Optimizer._simulate_transaction settings optimizer plain_transaction)
         1700000000).

(** ** Scoring *)

(** A raw opportunity whose expected profit is the string ["n/a"]. *)
Definition ill_typed_opportunity : pydict :=
  [ ("type", PStr "arbitrage");
    ("tokens", PList [PStr "WETH"; PStr "USDC"]);
    ("expected_profit_eth", PStr "n/a");
    ("amount_in", PNum 1.0);
    ("gas_estimate_eth", PNum 0.01);
    ("timestamp", PTime 1700000000000000) ].

(** A raw opportunity of the shape that [_detect_arbitrage_opportunities]
    builds. *)
Definition arbitrage_opportunity : pydict :=
  [ ("type", PStr "arbitrage");
    ("chain_id", PNum 1);
    ("tokens", PList [PStr "WETH"; PStr "USDC"]);
    ("expected_profit_eth", PNum (4 / 1798));
    ("amount_in", PNum 1.0);
    ("gas_estimate_eth", PNum 0.01);
    ("timestamp", PTime 1700000000000000) ].

(** ** Further examples *)

(** The interpreter of the examples with an encoder that rejects the byte
    237, which stands here for a lone surrogate. *)
Definition strict_builtins : Builtins := {|
  float_of_str := float_of_str (Builtins := builtins);
  int_base16 := int_base16 (Builtins := builtins);
  py_str := py_str (Builtins := builtins);
  md5_hexdigest := fun s =>
    if existsb (Ascii.eqb (ascii_of_nat 237)) (list_ascii_of_string s)
    then Raise ValueError else Ok s;
  bytes_hex := bytes_hex (Builtins := builtins);
  str_exn := str_exn (Builtins := builtins)
|}.

(** A raw opportunity whose type cannot be encoded. *)
Definition unencodable_opportunity : pydict :=
  [ ("type", PStr (String (ascii_of_nat 237) "arbitrage"));
    ("tokens", PList [PStr "WETH"; PStr "USDC"]);
    ("expected_profit_eth", PNum 0.02);
    ("timestamp", PTime 1700000000000000) ].

(** Two venues whose prices differ by 1%. *)
Definition two_venues : list (string * Q) :=
  [ ("uniswap_v2", 2000); ("sushiswap", 2020) ].

(** An opportunity stamped ten minutes before [1700000600000000]. *)
Definition old_opportunity : Detector.DetectedOpportunity :=
  stored_opportunity "old" 0.5 0.7.

Definition fresh_opportunity : Detector.DetectedOpportunity := {|
  Detector.id := "fresh";
  Detector.type := PStr "arbitrage";
  Detector.chain_id := 1;
  Detector.tokens := PList [PStr "WETH"; PStr "DAI"];
  Detector.expected_profit_eth := PNum 0.25;
  Detector.amount_in := PNum 1.0;
  Detector.gas_estimate_eth := PNum 0.01;
  Detector.confidence_score := 0.75;
  Detector.risk_level := "low";
  Detector.execution_priority := 7;
  Detector.timestamp := PTime 1700000590000000;
  Detector.metadata := [];
  Detector.analytics_score := None
|}.

(** A relay that knows the bundle from the second poll on. *)
Definition relay_finding_at_second_poll (i : nat) : Network :=
  match i with
  | O => {| http_post := fun _ _ => Ok (PDict [("result", PNone)]) |}
  | _ => {| http_post := fun _ _ =>
              Ok (PDict [("result",
                          PDict [ ("blockNumber", PStr "0x121eac1");
                                  ("bundleIndex", PNum 3) ])]) |}
  end.

(** A relay with two tracked bundles, filed at times 100 and 110. *)
Definition relay_with_two_bundles : Relay.FlashbotsRelay :=
  Relay.with_pending connected_relay
    [ (PStr "0xaaa",
       {| Relay.pb_transactions := one_transaction; Relay.pb_target_block := 1;
          Relay.pb_submission_time := 100; Relay.pb_status := "pending" |});
      (PStr "0xbbb",
       {| Relay.pb_transactions := one_transaction; Relay.pb_target_block := 2;
          Relay.pb_submission_time := 110; Relay.pb_status := "pending" |}) ].

(** A node whose simulation call reverts. *)
Definition reverting_node : Optimizer.Web3 := {|
  Optimizer.eth_call := fun _ => Raise TransportError;
  Optimizer.eth_estimate_gas := Optimizer.eth_estimate_gas node;
  Optimizer.eth_gas_price := Optimizer.eth_gas_price node;
  Optimizer.from_wei := Optimizer.from_wei node;
  Optimizer.to_wei := Optimizer.to_wei node
|}.

End Examples.

(* ================================================================== *)
(** * Properties *)
(* ================================================================== *)

(** ** Comparisons on [Q] *)

Lemma Qltb_true (x y : Q) : Qltb x y = true <-> x < y.
Proof.
  unfold Qltb. rewrite negb_true_iff. split; intro Hxy.
  - apply Qnot_le_lt. intro Hle. apply Qle_bool_iff in Hle. congruence.
  - destruct (Qle_bool y x) eqn:E; [|reflexivity].
    apply Qle_bool_iff in E. exfalso. exact (Qlt_not_le _ _ Hxy E).
Qed.

Lemma Qltb_false (x y : Q) : Qltb x y = false <-> y <= x.
Proof.
  unfold Qltb. rewrite negb_false_iff. apply Qle_bool_iff.
Qed.

Lemma Qle_bool_false (x y : Q) : Qle_bool x y = false <-> y < x.
Proof.
  split; intro Hxy.
  - apply Qnot_le_lt. intro Hle. apply Qle_bool_iff in Hle. congruence.
  - destruct (Qle_bool x y) eqn:E; [|reflexivity].
    apply Qle_bool_iff in E. exfalso. exact (Qlt_not_le _ _ Hxy E).
Qed.

(** Turn the boolean comparisons of the context into propositions. *)
Ltac reflect_cmp :=
  repeat match goal with
  | Hc : Qltb _ _ = true |- _ => apply Qltb_true in Hc
  | Hc : Qltb _ _ = false |- _ => apply Qltb_false in Hc
  | Hc : Qle_bool _ _ = true |- _ => apply Qle_bool_iff in Hc
  | Hc : Qle_bool _ _ = false |- _ => apply Qle_bool_false in Hc
  end.

(** ** StrategySelector *)

(** C3.  On numeric inputs and the thresholds of the constructor,
    [select_strategy] answers "skip" when the gas price is at least 100 or
    the volatility at least 10 (both inclusive); otherwise "multi_hop" when
    the mempool rate is at least 1000 and the gas price strictly below 60;
    otherwise "simple".  In particular a gas price of exactly 60 gives
    "simple". *)
Theorem select_strategy_rules (mempool_tx_rate gas_price_gwei volatility : Q) :
  let strategy :=
    Analytics.select_strategy Analytics.selector_init
      (PNum mempool_tx_rate) (PNum gas_price_gwei) (PNum volatility) in
  (100 <= gas_price_gwei \/ 10 <= volatility -> strategy = "skip") /\
  (gas_price_gwei < 100 -> volatility < 10 ->
   1000 <= mempool_tx_rate -> gas_price_gwei < 60 -> strategy = "multi_hop") /\
  (gas_price_gwei < 100 -> volatility < 10 ->
   mempool_tx_rate < 1000 \/ 60 <= gas_price_gwei -> strategy = "simple") /\
  Analytics.select_strategy Analytics.selector_init
    (PNum 1200) (PNum 60) (PNum 5) = "simple".
Proof.
  cbv zeta.
  unfold Analytics.select_strategy, Analytics.select_strategy_try,
    py_ge, py_lt, py_cmp; cbn [as_number bind Analytics.selector_init
    Analytics.gas_threshold_high Analytics.gas_threshold_medium
    Analytics.volatility_threshold Analytics.mempool_volume_high].
  destruct (Qle_bool 100 gas_price_gwei) eqn:G100;
  destruct (Qle_bool 10.0 volatility) eqn:V10;
  destruct (Qle_bool 1000 mempool_tx_rate) eqn:M1000;
  destruct (Qltb gas_price_gwei 60) eqn:G60;
  cbn [bind]; reflect_cmp;
  (split; [|split; [|split]]); intros;
  try reflexivity; exfalso; lra.
Qed.

Lemma py_cmp_number (op : Q -> Q -> bool) (v : pyval) (x q : Q) :
  as_number v = Some x -> py_cmp op v q = Ok (op x q).
Proof. intro Hv. unfold py_cmp. now rewrite Hv. Qed.

Lemma select_strategy_rules_witness :
  Analytics.select_strategy Analytics.selector_init
    (PNum 1200) (PNum 40) (PNum 5) = "multi_hop" /\
  Analytics.select_strategy Analytics.selector_init
    (PNum 500) (PNum 100) (PNum 5) = "skip".
Proof.
  split.
  - apply (proj1 (proj2 (select_strategy_rules 1200 40 5))); lra.
  - apply (proj1 (select_strategy_rules 500 100 5)). left. lra.
Defined.

(** C8, as the spec words it, fails on the partial input that gives only a
    gas price of 50: the code reads the missing volatility as 0, which is
    below 5 and earns +0.2, and returns 0.7; with missing fields neutral the
    answer would be 0.5. *)
Lemma strategy_confidence_missing_not_neutral :
  Analytics.get_strategy_confidence "simple" (PDict Examples.only_gas) == 0.7 /\
  Spec.strategy_confidence_missing_neutral "simple" Examples.only_gas == 0.5 /\
  ~ (Analytics.get_strategy_confidence "simple" (PDict Examples.only_gas)
     == Spec.strategy_confidence_missing_neutral "simple" Examples.only_gas).
Proof.
  repeat split; try reflexivity. vm_compute. discriminate.
Qed.

(** C8, amended.  [get_strategy_confidence] returns 0 for "skip" whatever the
    market conditions are.  For any other strategy it returns 0.5 when the
    dict is empty; otherwise it starts at 0.5, reads each of the three
    fields with default 0 (so a missing gas price or volatility falls in
    the low band and earns +0.2, a missing mempool rate adds nothing),
    applies the additive adjustments and clamps the sum to [0, 1]. *)
Theorem strategy_confidence_rules
    (strategy : string) (d : pydict) (gas_price volatility mempool_volume : Q) :
  Spec.field_or_zero d "gas_price_gwei" = Some gas_price ->
  Spec.field_or_zero d "token_price_volatility" = Some volatility ->
  Spec.field_or_zero d "mempool_tx_rate" = Some mempool_volume ->
  let confidence := Analytics.get_strategy_confidence strategy (PDict d) in
  (forall market_conditions : pyval,
     Analytics.get_strategy_confidence "skip" market_conditions == 0) /\
  (strategy <> "skip" -> d = [] -> confidence == 0.5) /\
  (strategy <> "skip" -> d <> [] ->
   confidence ==
     Spec.clamp01 (0.5 + Spec.gas_adjustment gas_price
                   + Spec.volatility_adjustment volatility
                   + Spec.mempool_adjustment mempool_volume)) /\
  0 <= confidence <= 1.
Proof.
  unfold Spec.field_or_zero. intros Hg Hv Hm. cbv zeta.
  split; [intro mc; reflexivity|].
  unfold Analytics.get_strategy_confidence,
    Analytics.get_strategy_confidence_try.
  destruct (String.eqb strategy "skip") eqn:Hskip.
  { apply String.eqb_eq in Hskip.
    repeat split; try (intros; congruence); vm_compute; discriminate. }
  destruct d as [|kv d'].
  { repeat split; try (intros; congruence); try reflexivity;
      vm_compute; discriminate. }
  set (d := kv :: d') in *.
  assert (Ht : truthy (PDict d) = true) by reflexivity.
  rewrite Ht. cbn [negb py_get bind].
  unfold py_lt, py_gt.
  rewrite !(py_cmp_number _ _ _ _ Hg), !(py_cmp_number _ _ _ _ Hv),
    !(py_cmp_number _ _ _ _ Hm).
  unfold Spec.clamp01, Spec.gas_adjustment, Spec.volatility_adjustment,
    Spec.mempool_adjustment.
  destruct (Qltb gas_price 30); destruct (Qltb 80 gas_price);
  destruct (Qltb volatility 5.0); destruct (Qltb 15.0 volatility);
  destruct (Qltb 500 mempool_volume); cbn [bind];
  (repeat split; try (intros; congruence); try (intros; reflexivity);
   vm_compute; discriminate).
Qed.

Lemma strategy_confidence_rules_witness :
  Analytics.get_strategy_confidence "simple" (PDict Examples.only_gas)
  == Spec.clamp01 (0.5 + Spec.gas_adjustment 50
                   + Spec.volatility_adjustment 0
                   + Spec.mempool_adjustment 0).
Proof.
  refine (proj1 (proj2 (proj2
    (strategy_confidence_rules "simple" Examples.only_gas 50 0 0
       eq_refl eq_refl eq_refl))) _ _).
  - discriminate.
  - discriminate.
Defined.

(** ** Scoring weights *)

(** C2, as stated, fails for each of the three adjusted strategy types: the
    adjusted entries are overwritten and nothing is renormalised. *)
Lemma sandwich_weights_do_not_sum_to_one :
  ~ (Analytics.weights_sum (Analytics._get_opportunity_weights (PStr "sandwich"))
     == 1).
Proof. vm_compute. discriminate. Qed.

(** C2, amended.  The default weights are profit 0.30, risk 0.20, execution
    0.20, market 0.15, gas 0.10, competition 0.05, and they sum to 1.
    flashloan_arbitrage sets profit to 0.40 and risk to 0.15, sandwich sets
    risk to 0.30 and competition to 0.15, arbitrage sets execution to 0.25;
    in each adjusted case the other weights keep their default values, so
    the sums are 1.05, 1.20 and 1.05. *)
Theorem opportunity_weights_table :
  (forall t : pyval,
     py_eq_str t "flashloan_arbitrage" = false ->
     py_eq_str t "sandwich" = false ->
     py_eq_str t "arbitrage" = false ->
     Analytics._get_opportunity_weights t = Analytics.base_weights) /\
  Analytics.base_weights =
    Analytics.Build_Weights 0.3 0.2 0.2 0.15 0.1 0.05 /\
  Analytics.weights_sum Analytics.base_weights == 1 /\
  Analytics._get_opportunity_weights (PStr "flashloan_arbitrage") =
    Analytics.Build_Weights 0.4 0.15 0.2 0.15 0.1 0.05 /\
  Analytics.weights_sum
    (Analytics._get_opportunity_weights (PStr "flashloan_arbitrage")) == 1.05 /\
  Analytics._get_opportunity_weights (PStr "sandwich") =
    Analytics.Build_Weights 0.3 0.3 0.2 0.15 0.1 0.15 /\
  Analytics.weights_sum
    (Analytics._get_opportunity_weights (PStr "sandwich")) == 1.2 /\
  Analytics._get_opportunity_weights (PStr "arbitrage") =
    Analytics.Build_Weights 0.3 0.2 0.25 0.15 0.1 0.05 /\
  Analytics.weights_sum
    (Analytics._get_opportunity_weights (PStr "arbitrage")) == 1.05.
Proof.
  split.
  - intros t Hf Hs Ha. unfold Analytics._get_opportunity_weights.
    now rewrite Hf, Hs, Ha.
  - repeat split.
Qed.

(** ** score_opportunity *)

(** C5.  Whatever the opportunity, when the body of [score_opportunity]
    raises, the score returned has total 0, risk 1 and confidence interval
    (0, 0): the exception does not propagate and the score is the most
    pessimistic one. *)
Theorem score_opportunity_fails_closed
    (B : Builtins) (_get_competition_level : pydict -> result Q)
    (self : Analytics.AdvancedAnalytics) (opportunity : pydict) (e : exn) :
  Analytics.score_opportunity_try _get_competition_level self opportunity = Raise e ->
  let score := Analytics.score_opportunity _get_competition_level self opportunity in
  Analytics.total_score score == 0 /\
  Analytics.risk_score score == 1 /\
  fst (Analytics.confidence_interval score) == 0 /\
  snd (Analytics.confidence_interval score) == 0.
Proof.
  intro Hraise. cbv zeta. unfold Analytics.score_opportunity.
  rewrite Hraise. repeat split.
Qed.

Lemma score_opportunity_fails_closed_witness :
  let score :=
    Analytics.score_opportunity (builtins := Examples.builtins)
      Analytics.undefined_method Analytics.init
      Examples.ill_typed_opportunity in
  Analytics.total_score score == 0 /\
  Analytics.risk_score score == 1 /\
  fst (Analytics.confidence_interval score) == 0 /\
  snd (Analytics.confidence_interval score) == 0.
Proof.
  exact (score_opportunity_fails_closed Examples.builtins
           Analytics.undefined_method Analytics.init
           Examples.ill_typed_opportunity ValueError eq_refl).
Defined.

(** With the class as it stands, [_calculate_risk_score] cannot get past
    the call of the method that is not defined, so every opportunity is
    scored with [failed_score]. *)
Lemma score_opportunity_as_it_stands
    (B : Builtins) (self : Analytics.AdvancedAnalytics) (opportunity : pydict) :
  Analytics.score_opportunity Analytics.undefined_method self opportunity
  = Analytics.failed_score.
Proof.
  unfold Analytics.score_opportunity, Analytics.score_opportunity_try.
  destruct (py_float (get opportunity "expected_profit_eth" (PNum 0)));
    [|reflexivity].
  destruct (py_float (get opportunity "amount_in" (PNum 0))); [|reflexivity].
  destruct (py_float (get opportunity "gas_estimate_eth" (PNum 0)));
    [|reflexivity].
  cbn [bind]. unfold Analytics._calculate_risk_score.
  destruct (py_iter (get opportunity "tokens" (PList []))); [|reflexivity].
  cbn [bind].
  destruct (py_gt (get opportunity "slippage_estimate" (PNum 0.01)) 0.05);
    reflexivity.
Qed.

(** ** Risk level *)

Lemma _get_risk_level_thresholds (risk_score : Q) :
  (risk_score < 0.25 -> Detector._get_risk_level risk_score = "low") /\
  (0.25 <= risk_score -> risk_score < 0.5 ->
   Detector._get_risk_level risk_score = "medium") /\
  (0.5 <= risk_score -> risk_score < 0.75 ->
   Detector._get_risk_level risk_score = "high") /\
  (0.75 <= risk_score -> Detector._get_risk_level risk_score = "extreme").
Proof.
  unfold Detector._get_risk_level.
  destruct (Qltb risk_score 0.25) eqn:E1;
  destruct (Qltb risk_score 0.5) eqn:E2;
  destruct (Qltb risk_score 0.75) eqn:E3;
  reflect_cmp; repeat split; intros; try reflexivity; exfalso; lra.
Qed.

Section ScoringFacts.
Context {builtins : Builtins} (_get_competition_level : pydict -> result Q).

(** Every scored opportunity comes out of the [try] block of one turn of
    the loop. *)
Lemma _score_opportunities_In
    (self : Detector.OpportunityDetector) (now : Z)
    (opportunities : list pydict) (opp : Detector.DetectedOpportunity) :
  In opp (Detector._score_opportunities _get_competition_level self now
            opportunities) ->
  exists opp_data : pydict,
    In opp_data opportunities /\
    Detector.score_one _get_competition_level self now opp_data = Ok opp.
Proof.
  induction opportunities as [|opp_data opportunities IH]; cbn; [tauto|].
  destruct (Detector.score_one _get_competition_level self now opp_data)
    as [scored|] eqn:Hone; cbn.
  - intros [<-|Hin].
    + exists opp_data. auto.
    + destruct (IH Hin) as [d [Hd Hs]]. exists d. auto.
  - intro Hin. destruct (IH Hin) as [d [Hd Hs]]. exists d. auto.
Qed.

(** What one turn of the loop stores when its [try] block completes. *)
Lemma score_one_fields
    (self : Detector.OpportunityDetector) (now : Z) (opp_data : pydict)
    (opp : Detector.DetectedOpportunity) :
  Detector.score_one _get_competition_level self now opp_data = Ok opp ->
  let score :=
    Analytics.score_opportunity _get_competition_level
      (Detector._analytics self) opp_data in
  Detector.analytics_score opp = Some score /\
  Detector.risk_level opp = Detector._get_risk_level (Analytics.risk_score score) /\
  Detector.confidence_score opp = Analytics.total_score score /\
  Detector.execution_priority opp
  = Detector._calculate_execution_priority opp_data score /\
  Detector.metadata opp = opp_data /\
  Detector.chain_id opp = Detector._chain_id self /\
  Detector._generate_opportunity_id self opp_data now = Ok (Detector.id opp).
Proof.
  unfold Detector.score_one.
  destruct (Detector._generate_opportunity_id self opp_data now) as [id|];
    cbn [bind]; [|discriminate].
  intro Hopp. injection Hopp as <-. cbn. repeat split.
Qed.
End ScoringFacts.

(** C10.  Every [DetectedOpportunity] that the scoring pass produces carries
    its analytics score, and its risk level is fixed by the risk sub-score
    of that score: "low" below 0.25, "medium" from 0.25 to below 0.5,
    "high" from 0.5 to below 0.75, "extreme" from 0.75 on; so it is always
    one of these four strings. *)
Theorem scored_risk_level_by_thresholds
    (B : Builtins) (_get_competition_level : pydict -> result Q)
    (self : Detector.OpportunityDetector) (now : Z)
    (opportunities : list pydict) (opp : Detector.DetectedOpportunity) :
  In opp (Detector._score_opportunities _get_competition_level self now opportunities) ->
  exists score : Analytics.OpportunityScore,
    Detector.analytics_score opp = Some score /\
    let r := Analytics.risk_score score in
    (r < 0.25 -> Detector.risk_level opp = "low") /\
    (0.25 <= r -> r < 0.5 -> Detector.risk_level opp = "medium") /\
    (0.5 <= r -> r < 0.75 -> Detector.risk_level opp = "high") /\
    (0.75 <= r -> Detector.risk_level opp = "extreme") /\
    (Detector.risk_level opp = "low" \/ Detector.risk_level opp = "medium" \/
     Detector.risk_level opp = "high" \/ Detector.risk_level opp = "extreme").
Proof.
  intro Hin.
  apply _score_opportunities_In in Hin. destruct Hin as [opp_data [_ Hone]].
  apply score_one_fields in Hone. destruct Hone as [Hscore [Hrisk _]].
  eexists. split; [exact Hscore|]. cbv zeta. rewrite Hrisk.
  set (r := Analytics.risk_score _).
  destruct (_get_risk_level_thresholds r) as [Hlow [Hmed [Hhigh Hext]]].
  repeat split; try assumption.
  destruct (Qlt_le_dec r 0.25) as [L1|L1]; [left; auto|].
  destruct (Qlt_le_dec r 0.5) as [L2|L2]; [right; left; auto|].
  destruct (Qlt_le_dec r 0.75) as [L3|L3]; [right; right; left; auto|].
  right; right; right; auto.
Qed.

Lemma scored_risk_level_by_thresholds_witness :
  exists (opp : Detector.DetectedOpportunity) (score : Analytics.OpportunityScore),
    Detector._score_opportunities (builtins := Examples.builtins)
      Analytics.undefined_method (Detector.init 1 0.01) 1700000000000000
      [Examples.arbitrage_opportunity] = [opp] /\
    Detector.analytics_score opp = Some score /\
    Detector.risk_level opp = "extreme".
Proof.
  eexists.
  destruct (scored_risk_level_by_thresholds Examples.builtins
              Analytics.undefined_method (Detector.init 1 0.01)
              1700000000000000 [Examples.arbitrage_opportunity] _
              (or_introl eq_refl))
    as [score [Hscore [_ [_ [_ [Hextreme _]]]]]].
  exists score. split; [reflexivity|]. split; [exact Hscore|].
  apply Hextreme.
  cbn in Hscore. injection Hscore as <-.
  vm_compute. discriminate.
Defined.

(** ** The stable descending sort *)

Section SortDesc.
Context {A : Type}.

Lemma insert_desc_In (x : Q * A) (l : list (Q * A)) (z : Q * A) :
  In z (insert_desc x l) <-> z = x \/ In z l.
Proof.
  induction l as [|y l IH]; cbn.
  - intuition.
  - destruct (Qltb (fst x) (fst y)); cbn; rewrite ?IH; intuition.
Qed.

Lemma insert_desc_perm (x : Q * A) (l : list (Q * A)) :
  Permutation (x :: l) (insert_desc x l).
Proof.
  induction l as [|y l IH]; cbn.
  - reflexivity.
  - destruct (Qltb (fst x) (fst y)).
    + rewrite perm_swap. now apply perm_skip.
    + reflexivity.
Qed.

Lemma insert_desc_sorted (x : Q * A) (l : list (Q * A)) :
  StronglySorted ge_key l -> StronglySorted ge_key (insert_desc x l).
Proof.
  induction 1 as [|y l Hsorted IH Hall]; cbn.
  - repeat constructor.
  - destruct (Qltb (fst x) (fst y)) eqn:Hcmp; reflect_cmp.
    + constructor; [exact IH|].
      apply Forall_forall. intros z Hz.
      apply insert_desc_In in Hz.
      destruct Hz as [->|Hz]; [now apply Qlt_le_weak|].
      rewrite Forall_forall in Hall. now apply Hall.
    + constructor; [now constructor|].
      constructor; [exact Hcmp|].
      eapply Forall_impl; [|exact Hall].
      intros z Hz. unfold ge_key in *.
      now apply Qle_trans with (fst y).
Qed.

(** The sort is stable: elements with equal keys keep their order. *)
Example sort_desc_stable :
  map snd (sort_desc [(1, "a"); (2, "b"); (1, "c"); (2, "d")])
  = ["b"; "d"; "a"; "c"].
Proof. reflexivity. Qed.

Lemma sort_desc_perm (l : list (Q * A)) : Permutation l (sort_desc l).
Proof.
  induction l as [|x l IH]; cbn; [reflexivity|].
  rewrite <- insert_desc_perm. now apply perm_skip.
Qed.

Lemma sort_desc_sorted (l : list (Q * A)) : StronglySorted ge_key (sort_desc l).
Proof.
  induction l as [|x l IH]; cbn; [constructor|now apply insert_desc_sorted].
Qed.

(** Sorting the pairs sorts the elements, when each key is the key of its
    element. *)
Lemma sorted_by_key (key : A -> Q) (l : list (Q * A)) :
  Forall (fun p => fst p == key (snd p)) l ->
  StronglySorted ge_key l ->
  StronglySorted (fun a b => key b <= key a) (map snd l).
Proof.
  intros Hkey Hsorted.
  induction Hsorted as [|p l Hsorted IH Hall]; cbn; [constructor|].
  inversion Hkey as [|? ? Hp Hl]; subst.
  constructor; [now apply IH|].
  apply Forall_forall. intros b Hb.
  apply in_map_iff in Hb. destruct Hb as [q [<- Hq]].
  rewrite Forall_forall in Hall, Hl.
  specialize (Hall q Hq). specialize (Hl q Hq). unfold ge_key in Hall.
  now rewrite <- Hp, <- Hl.
Qed.
End SortDesc.

Lemma firstn_In {A} (n : nat) (l : list A) (x : A) :
  In x (firstn n l) -> In x l.
Proof.
  intro Hin. rewrite <- (firstn_skipn n l). apply in_or_app. now left.
Qed.

Lemma StronglySorted_firstn {A} (R : A -> A -> Prop) (n : nat) (l : list A) :
  StronglySorted R l -> StronglySorted R (firstn n l).
Proof.
  intro Hsorted. revert n.
  induction Hsorted as [|x l Hsorted IH Hall]; intros [|n]; cbn;
    try constructor.
  - apply IH.
  - apply Forall_forall. intros y Hy.
    rewrite Forall_forall in Hall. apply Hall.
    now apply firstn_In in Hy.
Qed.

Lemma slice_to_incl {A} (l : list A) (n : Z) (x : A) :
  In x (slice_to l n) -> In x l.
Proof.
  unfold slice_to. destruct (0 <=? n)%Z; apply firstn_In.
Qed.

Lemma slice_to_sorted {A} (R : A -> A -> Prop) (l : list A) (n : Z) :
  StronglySorted R l -> StronglySorted R (slice_to l n).
Proof.
  unfold slice_to. destruct (0 <=? n)%Z; apply StronglySorted_firstn.
Qed.

Lemma slice_to_length {A} (l : list A) (n : Z) :
  (0 <= n)%Z -> (Z.of_nat (List.length (slice_to l n)) <= n)%Z.
Proof.
  intro Hn. unfold slice_to.
  destruct (0 <=? n)%Z eqn:E; [|apply Z.leb_gt in E; lia].
  pose proof (firstn_le_length (Z.to_nat n) l). rewrite length_firstn. lia.
Qed.

(** ** Monadic traversals *)

Lemma filter_m_Ok {A} (f : A -> result bool) (l r : list A) :
  filter_m f l = Ok r ->
  forall x, In x r -> In x l /\ f x = Ok true.
Proof.
  revert r. induction l as [|a l IH]; cbn; intros r Hr x Hx.
  - injection Hr as <-. destruct Hx.
  - destruct (f a) as [b|] eqn:Hfa; cbn in Hr; [|discriminate].
    destruct (filter_m f l) as [ys|] eqn:Hys; cbn in Hr; [|discriminate].
    injection Hr as <-. specialize (IH ys eq_refl).
    destruct b.
    + destruct Hx as [<-|Hx]; [now split; [left|]|].
      destruct (IH x Hx). split; [now right|assumption].
    + destruct (IH x Hx). split; [now right|assumption].
Qed.

Lemma filter_m_total {A} (f : A -> result bool) (l : list A) :
  Forall (fun x => exists b, f x = Ok b) l -> exists r, filter_m f l = Ok r.
Proof.
  induction 1 as [|a l [b Hb] _ [r Hr]]; cbn.
  - now eexists.
  - rewrite Hb, Hr. cbn. now eexists.
Qed.

Lemma map_m_Ok {A B} (f : A -> result B) (l : list A) (r : list B) :
  map_m f l = Ok r -> Forall2 (fun x y => f x = Ok y) l r.
Proof.
  revert r. induction l as [|a l IH]; cbn; intros r Hr.
  - injection Hr as <-. constructor.
  - destruct (f a) as [b|] eqn:Hfa; cbn in Hr; [|discriminate].
    destruct (map_m f l) as [ys|] eqn:Hys; cbn in Hr; [|discriminate].
    injection Hr as <-. constructor; [assumption|now apply IH].
Qed.

Lemma map_m_total {A B} (f : A -> result B) (l : list A) :
  Forall (fun x => exists b, f x = Ok b) l -> exists r, map_m f l = Ok r.
Proof.
  induction 1 as [|a l [b Hb] _ [r Hr]]; cbn.
  - now eexists.
  - rewrite Hb, Hr. cbn. now eexists.
Qed.

(** ** The opportunity store *)

Lemma is_valid_true
    (self : Detector.OpportunityDetector) (opp : Detector.DetectedOpportunity) :
  Detector.is_valid self opp = Ok true ->
  Spec.meets_thresholds self opp /\ ~ Spec.blacklisted self (Detector.id opp).
Proof.
  unfold Detector.is_valid, py_ge, py_cmp, Spec.meets_thresholds,
    Spec.blacklisted.
  destruct (as_number (Detector.expected_profit_eth opp)) as [profit|];
    cbn [bind]; [|discriminate].
  intro Hvalid. injection Hvalid as Hvalid.
  apply andb_true_iff in Hvalid. destruct Hvalid as [Hvalid Hnot].
  apply andb_true_iff in Hvalid. destruct Hvalid as [Hprofit Hconf].
  reflect_cmp. split.
  - exists profit. auto.
  - apply negb_true_iff in Hnot. now apply set_mem_complete1 in Hnot.
Qed.

Lemma keyed_pairs
    (valid : list Detector.DetectedOpportunity)
    (keyed : list (Q * Detector.DetectedOpportunity)) :
  map_m (fun x => k <- Detector.priority_key x ;; Ok (k, x)) valid = Ok keyed ->
  forall p, In p keyed -> In (snd p) valid /\ fst p = Spec.priority (snd p).
Proof.
  revert keyed. induction valid as [|x valid IH]; cbn; intros keyed Hk p Hp.
  - injection Hk as <-. destruct Hp.
  - destruct (Detector.priority_key x) as [k|] eqn:Hkey; cbn in Hk;
      [|discriminate].
    unfold Detector.priority_key, py_mul in Hkey.
    destruct (as_number (Detector.expected_profit_eth x)) as [profit|] eqn:Hx;
      [|discriminate].
    injection Hkey as <-.
    destruct (map_m _ valid) as [ys|] eqn:Hys; cbn in Hk; [|discriminate].
    injection Hk as <-. destruct Hp as [<-|Hp].
    + cbn. split; [now left|]. unfold Spec.priority. now rewrite Hx.
    + destruct (IH ys eq_refl p Hp). split; [now right|assumption].
Qed.

(** What [get_best_opportunities] returns, element by element and as a
    list. *)
Lemma get_best_opportunities_Ok
    (self : Detector.OpportunityDetector) (limit : Z)
    (best : list Detector.DetectedOpportunity) :
  Detector.get_best_opportunities self limit = Ok best ->
  (forall opp, In opp best ->
     In opp (dict_values (Detector._detected_opportunities self)) /\
     Detector.is_valid self opp = Ok true) /\
  StronglySorted Spec.outranks best /\
  ((0 <= limit)%Z -> (Z.of_nat (List.length best) <= limit)%Z).
Proof.
  unfold Detector.get_best_opportunities.
  destruct (filter_m _ _) as [valid|] eqn:Hvalid; cbn [bind]; [|discriminate].
  destruct (map_m _ valid) as [keyed|] eqn:Hkeyed; cbn [bind]; [|discriminate].
  intro Hbest. injection Hbest as <-.
  pose proof (keyed_pairs _ _ Hkeyed) as Hpairs.
  assert (Hsorted_pairs : forall p, In p (sort_desc keyed) -> In p keyed).
  { intros p Hp. eapply Permutation_in; [|exact Hp].
    symmetry. apply sort_desc_perm. }
  split; [|split].
  - intros opp Hopp. apply slice_to_incl in Hopp.
    apply in_map_iff in Hopp. destruct Hopp as [p [<- Hp]].
    destruct (Hpairs p (Hsorted_pairs p Hp)) as [Hin _].
    exact (filter_m_Ok _ _ _ Hvalid _ Hin).
  - apply slice_to_sorted. apply sorted_by_key; [|apply sort_desc_sorted].
    apply Forall_forall. intros p Hp.
    destruct (Hpairs p (Hsorted_pairs p Hp)) as [_ ->]. reflexivity.
  - apply slice_to_length.
Qed.

Lemma get_best_opportunities_total
    (self : Detector.OpportunityDetector) (limit : Z) :
  Spec.numeric_profits self ->
  exists best, Detector.get_best_opportunities self limit = Ok best.
Proof.
  unfold Spec.numeric_profits, Detector.get_best_opportunities. intro Hnum.
  destruct (filter_m_total (Detector.is_valid self)
              (dict_values (Detector._detected_opportunities self)))
    as [valid Hvalid].
  { eapply Forall_impl; [|exact Hnum]. intros opp [profit Hp].
    unfold Detector.is_valid, py_ge, py_cmp. rewrite Hp. cbn. now eexists. }
  rewrite Hvalid. cbn [bind].
  destruct (map_m_total (fun x => k <- Detector.priority_key x ;; Ok (k, x)) valid)
    as [keyed Hkeyed].
  { apply Forall_forall. intros opp Hopp.
    destruct (filter_m_Ok _ _ _ Hvalid _ Hopp) as [Hin _].
    rewrite Forall_forall in Hnum. destruct (Hnum _ Hin) as [profit Hp].
    unfold Detector.priority_key, py_mul. rewrite Hp. cbn. now eexists. }
  rewrite Hkeyed. cbn [bind]. now eexists.
Qed.

(** C4.  In every state of the detector, the list that
    [get_best_opportunities] returns has at most [limit] elements (for a
    limit that is a count, [0 <= limit]); each element is a stored
    opportunity whose id is not blacklisted, whose expected profit is at
    least the minimum-profit threshold and whose confidence is at least the
    minimum-confidence threshold; and the list is sorted descending by
    expected profit times confidence.  The call does return a list whenever
    the stored expected profits are numbers. *)
Theorem get_best_opportunities_ranked
    (self : Detector.OpportunityDetector) (limit : Z) :
  (forall best : list Detector.DetectedOpportunity,
     Detector.get_best_opportunities self limit = Ok best ->
     ((0 <= limit)%Z -> (Z.of_nat (List.length best) <= limit)%Z) /\
     Forall (fun opp =>
               In opp (dict_values (Detector._detected_opportunities self)) /\
               ~ Spec.blacklisted self (Detector.id opp) /\
               Spec.meets_thresholds self opp) best /\
     StronglySorted Spec.outranks best) /\
  (Spec.numeric_profits self ->
   exists best, Detector.get_best_opportunities self limit = Ok best).
Proof.
  split; [|apply get_best_opportunities_total].
  intros best Hbest.
  destruct (get_best_opportunities_Ok self limit best Hbest)
    as [Helems [Hsorted Hlen]].
  split; [exact Hlen|]. split; [|exact Hsorted].
  apply Forall_forall. intros opp Hopp.
  destruct (Helems opp Hopp) as [Hin Hvalid].
  destruct (is_valid_true self opp Hvalid). auto.
Qed.

Lemma get_best_opportunities_ranked_witness :
  Detector.get_best_opportunities Examples.detector 2
    = Ok [Examples.opp_c; Examples.opp_a] /\
  StronglySorted Spec.outranks [Examples.opp_c; Examples.opp_a] /\
  ~ Spec.blacklisted Examples.detector "c".
Proof.
  assert (Hbest : Detector.get_best_opportunities Examples.detector 2
                  = Ok [Examples.opp_c; Examples.opp_a])
    by (vm_compute; reflexivity).
  destruct (proj1 (get_best_opportunities_ranked Examples.detector 2) _ Hbest)
    as [_ [Hall Hsorted]].
  split; [exact Hbest|]. split; [exact Hsorted|].
  inversion Hall as [|? ? [_ [Hnot _]] _]. exact Hnot.
Defined.

Lemma dict_del_lookup {V} (d : list (string * V)) (k : string) :
  dict_lookup String.eqb (dict_del String.eqb d k) k = None.
Proof.
  unfold dict_del. induction d as [|[k' v] d IH]; cbn; [reflexivity|].
  destruct (String.eqb k k') eqn:E; cbn; [exact IH|].
  now rewrite E.
Qed.

Lemma blacklist_removes (self : Detector.OpportunityDetector) (id : string) :
  Detector.stored (Detector.blacklist_opportunity self id) id = false.
Proof.
  unfold Detector.stored, Detector.blacklist_opportunity, dict_mem.
  cbn [Detector._detected_opportunities Detector.with_store].
  destruct (dict_lookup String.eqb (Detector._detected_opportunities self) id)
    eqn:E.
  - now rewrite dict_del_lookup.
  - now rewrite E.
Qed.

Lemma step_keeps_blacklist
    (self : Detector.OpportunityDetector) (o : Detector.op) (id : string) :
  Spec.blacklisted self id -> Spec.blacklisted (Detector.step self o) id.
Proof.
  unfold Spec.blacklisted. intro Hin. destruct o as [t new|other|other ok p]; cbn.
  - unfold Detector._update_detected_opportunities.
    destruct (filter_m _ _); exact Hin.
  - now apply set_add_intro1.
  - exact Hin.
Qed.

Lemma run_keeps_blacklist
    (ops : list Detector.op) (self : Detector.OpportunityDetector) (id : string) :
  Spec.blacklisted self id -> Spec.blacklisted (Detector.run self ops) id.
Proof.
  unfold Detector.run. revert self.
  induction ops as [|o ops IH]; cbn; intros self Hin; [exact Hin|].
  apply IH. now apply step_keeps_blacklist.
Qed.

(** C7, as stated, fails: an update that carries an opportunity with a
    blacklisted id stores it again.  Here "a" is stored, blacklisted (and so
    removed), and then comes back with the next update. *)
Lemma blacklisted_id_is_stored_again :
  let seen :=
    Detector.run (Detector.init 1 0.01)
      [Detector.Update 1700000001000000 [Examples.opp_a]] in
  let banned := Detector.blacklist_opportunity seen "a" in
  let later :=
    Detector.run banned [Detector.Update 1700000002000000 [Examples.opp_a]] in
  Detector.stored seen "a" = true /\
  Detector.stored banned "a" = false /\
  Spec.blacklisted later "a" /\
  Detector.stored later "a" = true.
Proof.
  cbv zeta. repeat split; try (vm_compute; reflexivity).
  vm_compute. now left.
Qed.

(** C7, amended.  [blacklist_opportunity] removes the id from the stored
    opportunity map at once and puts it on the blacklist, where it stays
    through every later sequence of updates, blacklistings and execution
    reports (no operation takes an id off the blacklist); therefore
    [get_best_opportunities] never returns an opportunity with that id.
    Updates are not filtered by the blacklist. *)
Theorem blacklist_is_permanent
    (self : Detector.OpportunityDetector) (id : string)
    (ops : list Detector.op) (limit : Z) :
  let banned := Detector.blacklist_opportunity self id in
  let later := Detector.run banned ops in
  Detector.stored banned id = false /\
  Spec.blacklisted later id /\
  (forall best : list Detector.DetectedOpportunity,
     Detector.get_best_opportunities later limit = Ok best ->
     ~ In id (map Detector.id best)).
Proof.
  cbv zeta. split; [apply blacklist_removes|].
  assert (Hlater : Spec.blacklisted
                     (Detector.run (Detector.blacklist_opportunity self id) ops) id).
  { apply run_keeps_blacklist. unfold Spec.blacklisted.
    cbn. apply set_add_intro2. reflexivity. }
  split; [exact Hlater|].
  intros best Hbest Hin.
  apply in_map_iff in Hin. destruct Hin as [opp [Hid Hopp]].
  destruct (get_best_opportunities_Ok _ _ _ Hbest) as [Helems _].
  destruct (Helems opp Hopp) as [_ Hvalid].
  destruct (is_valid_true _ _ Hvalid) as [_ Hnot].
  apply Hnot. now rewrite Hid.
Qed.

(** ** Bundle submission and simulation *)

Section RelayFacts.
Context {builtins : Builtins} {network : Network}.

Lemma request_bundle_hash_Ok
    (self : Relay.FlashbotsRelay) (transactions : list Relay.transaction)
    (target_block : Z) (min_timestamp max_timestamp : option Z)
    (bundle_hash : pyval) :
  Relay.request_bundle_hash self transactions target_block
    min_timestamp max_timestamp = Ok bundle_hash ->
  exists (body response : pyval),
    Relay.session_post self (Relay._relay_url self) body = Ok response /\
    py_contains response "error" = Ok false /\
    py_get response "result" PNone = Ok bundle_hash /\
    truthy bundle_hash = true.
Proof.
  unfold Relay.request_bundle_hash.
  destruct (map_m Relay.raw_hex transactions) as [txs|]; cbn [bind];
    [|discriminate].
  destruct (Relay.session_post _ _ _) as [response|] eqn:Hpost; cbn [bind];
    [|discriminate].
  destruct (py_contains response "error") as [[|]|] eqn:Herr; cbn [bind];
    try discriminate.
  { destruct (py_getitem response "error") as [err|]; cbn [bind];
      [|discriminate].
    destruct (py_str err); discriminate. }
  destruct (py_get response "result" PNone) as [h|] eqn:Hget; cbn [bind];
    [|discriminate].
  destruct (truthy h) eqn:Htruthy; cbn [negb]; [|discriminate].
  intro Hh. injection Hh as <-. eauto 6.
Qed.


End RelayFacts.

(** C9.  [submit_bundle] leaves the pending-bundle map exactly as it was
    whenever it reports [success = false], whether the relay answered with
    an error, the answer had no bundle hash, or an exception was raised on
    the way; the map changes only in a call that reports success, and then
    by the one entry filed under the bundle hash that the relay returned in
    an answer without an [error] member. *)
Theorem submit_bundle_atomic_on_failure
    (builtins : Builtins) (network : Network)
    (self : Relay.FlashbotsRelay) (transactions : list Relay.transaction)
    (target_block : Z) (min_timestamp max_timestamp : option Z)
    (start_time end_time : Q) :
  let outcome :=
    Relay.submit_bundle self transactions target_block
      min_timestamp max_timestamp start_time end_time in
  let submission := fst outcome in
  let after := snd outcome in
  (Relay.sub_success submission = false ->
   Relay._pending_bundles after = Relay._pending_bundles self) /\
  (Relay._pending_bundles after <> Relay._pending_bundles self ->
   Relay.sub_success submission = true) /\
  (Relay.sub_success submission = true ->
   exists (body response bundle_hash : pyval),
     Relay.session_post self (Relay._relay_url self) body = Ok response /\
     py_contains response "error" = Ok false /\
     py_get response "result" PNone = Ok bundle_hash /\
     truthy bundle_hash = true /\
     Relay.sub_bundle_hash submission = Some bundle_hash /\
     Relay._pending_bundles after =
       dict_set py_key_eqb (Relay._pending_bundles self) bundle_hash
         {| Relay.pb_transactions := transactions;
            Relay.pb_target_block := target_block;
            Relay.pb_submission_time := start_time;
            Relay.pb_status := "pending" |}).
Proof.
  cbv zeta.
  assert (Hfail :
    Relay.sub_success (fst (Relay.submit_bundle self transactions target_block
                              min_timestamp max_timestamp start_time end_time))
      = false ->
    Relay._pending_bundles
      (snd (Relay.submit_bundle self transactions target_block
              min_timestamp max_timestamp start_time end_time))
      = Relay._pending_bundles self).
  { unfold Relay.submit_bundle, Relay.submit_bundle_try.
    destruct (Relay.request_bundle_hash _ _ _ _ _) as [h|]; [|reflexivity].
    unfold Relay.track. destruct (hashable h); [|reflexivity].
    cbn. discriminate. }
  split; [exact Hfail|]. split.
  - intro Hchanged.
    destruct (Relay.sub_success _) eqn:Hs; [reflexivity|].
    exfalso. apply Hchanged. now apply Hfail.
  - unfold Relay.submit_bundle, Relay.submit_bundle_try.
    destruct (Relay.request_bundle_hash _ _ _ _ _) as [h|] eqn:Hh;
      [|cbn; discriminate].
    unfold Relay.track. destruct (hashable h); [|cbn; discriminate].
    cbn. intros _.
    destruct (request_bundle_hash_Ok _ _ _ _ _ _ Hh)
      as [body [response [Hpost [Herr [Hget Htruthy]]]]].
    exists body, response, h. repeat split; assumption.
Qed.

Lemma submit_bundle_atomic_on_failure_witness :
  let rejected :=
    Relay.submit_bundle (builtins := Examples.builtins)
      (network := Examples.rejecting_relay)
      Examples.connected_relay Examples.one_transaction 19000000 None None
      1700000000 1700000000.25 in
  Relay.sub_success (fst rejected) = false /\
  Relay._pending_bundles (snd rejected)
    = Relay._pending_bundles Examples.connected_relay.
Proof.
  cbv zeta. split; [vm_compute; reflexivity|].
  apply (submit_bundle_atomic_on_failure Examples.builtins
           Examples.rejecting_relay).
  vm_compute. reflexivity.
Defined.

(** A submission that the relay accepts does file the bundle. *)
Lemma accepted_bundle_is_tracked :
  let accepted :=
    Relay.submit_bundle (builtins := Examples.builtins)
      (network := Examples.accepting_relay)
      Examples.connected_relay Examples.one_transaction 19000000 None None
      1700000000 1700000000.25 in
  Relay.sub_success (fst accepted) = true /\
  dict_keys (Relay._pending_bundles (snd accepted)) = [PStr "0xb0b"].
Proof. cbv zeta. split; vm_compute; reflexivity. Qed.

(** Take the next decision of a computation apart. *)
Ltac split_result :=
  cbn [bind py_get py_getitem py_contains py_iter];
  match goal with
  | |- context [if ?b then _ else _] => destruct b eqn:?
  | |- context [bind ?m _] => destruct m eqn:?
  end.

Section SimulationFacts.
Context {builtins : Builtins} {network : Network}.


End SimulationFacts.




(** The four relays of the examples: an error answer and an unreachable
    relay give the failed result; an answer that has gas figures but no
    bundle hash is not a success, and its figures are reported. *)
Lemma simulate_bundle_examples :
  Spec.failed_simulation
    (Relay.simulate_bundle (builtins := Examples.builtins)
       (network := Examples.rejecting_relay) Examples.connected_relay (PDict [])) /\
  Spec.failed_simulation
    (Relay.simulate_bundle (builtins := Examples.builtins)
       (network := Examples.unreachable_relay) Examples.connected_relay (PDict [])) /\
  Spec.failed_simulation
    (Relay.simulate_bundle (builtins := Examples.builtins)
       (network := Examples.accepting_relay) Examples.connected_relay (PDict [])) /\
  let cut_short :=
    Relay.simulate_bundle (builtins := Examples.builtins)
      (network := Examples.truncating_relay) Examples.connected_relay (PDict []) in
  Relay.success cut_short = false /\
  Relay.gas_used cut_short = 21000%Z /\
  Relay.estimated_profit cut_short == 1.
Proof.
  cbv zeta. repeat split; vm_compute; reflexivity.
Qed.

(** ** The profit optimizer *)

Section OptimizerFacts.
Context {builtins : Builtins} (settings : Optimizer.Settings).

Lemma _analyze_gas_costs_thresholds
    (self : Optimizer.ProfitOptimizer) (tx_params : Optimizer.TxParams)
    (simulation_result : Optimizer.Simulation) (now : Q) :
  let after :=
    snd (Optimizer._analyze_gas_costs settings self tx_params
           simulation_result now) in
  Optimizer._min_profit_eth after = Optimizer._min_profit_eth self /\
  Optimizer._min_roi_percentage after = Optimizer._min_roi_percentage self /\
  Optimizer._web3 after = Optimizer._web3 self.
Proof.
  cbv zeta. unfold Optimizer._analyze_gas_costs.
  repeat split_result; cbn; auto.
Qed.

(** What [_finalize_profit_analysis] puts into the [ProfitAnalysis], on
    both of its paths. *)
Lemma _finalize_profit_analysis_verdict
    (self : Optimizer.ProfitOptimizer) (profit_analysis : Optimizer.Profitability)
    (gas_optimization : Optimizer.GasOptimization)
    (simulation_result : Optimizer.Simulation) :
  let a :=
    Optimizer._finalize_profit_analysis self profit_analysis
      gas_optimization simulation_result in
  Optimizer.net_profit_eth a
    == Optimizer.gross_profit_eth a - Optimizer.gas_cost_eth a /\
  Optimizer.roi_percentage a == Optimizer.net_profit_eth a * 100 /\
  (Optimizer.profitable a = true <->
   Optimizer._min_profit_eth self <= Optimizer.net_profit_eth a /\
   Optimizer._min_roi_percentage self <= Optimizer.roi_percentage a /\
   Optimizer.simulation_success a = true).
Proof.
  cbv zeta. unfold Optimizer._finalize_profit_analysis.
  repeat split_result; cbn.
  - split; [reflexivity|]. split; [field|].
    rewrite !andb_true_iff, !Qle_bool_iff. tauto.
  - split; [reflexivity|]. split; [reflexivity|]. intuition discriminate.
  - split; [reflexivity|]. split; [reflexivity|]. intuition discriminate.
  - split; [reflexivity|]. split; [reflexivity|]. intuition discriminate.
Qed.

(** The two paths of [_finalize_profit_analysis]: the handler's all-zero
    analysis, or an analysis that carries the success of the simulation it
    was handed and the gross profit of the first calculation. *)
Lemma _finalize_profit_analysis_paths
    (self : Optimizer.ProfitOptimizer) (profit_analysis : Optimizer.Profitability)
    (gas_optimization : Optimizer.GasOptimization)
    (simulation_result : Optimizer.Simulation) :
  let a :=
    Optimizer._finalize_profit_analysis self profit_analysis
      gas_optimization simulation_result in
  a = Optimizer.failed_analysis \/
  (Optimizer.simulation_success a = Optimizer.sim_success simulation_result /\
   Optimizer.gross_profit_eth a = Optimizer.pr_gross_profit_eth profit_analysis).
Proof.
  cbv zeta. unfold Optimizer._finalize_profit_analysis.
  repeat split_result; cbn; auto.
Qed.

(** The gross profit of the first calculation is the expected profit of the
    opportunity, read as a float; when that or the input amount cannot be
    read, the handler's gas cost of zero makes the final step fail. *)
Lemma _calculate_profitability_gross
    (self : Optimizer.ProfitOptimizer) (opportunity : pydict)
    (gas_analysis : Optimizer.GasAnalysis)
    (simulation_result : Optimizer.Simulation)
    (gas_optimization : Optimizer.GasOptimization) :
  let profit_analysis :=
    Optimizer._calculate_profitability self opportunity gas_analysis
      simulation_result in
  Optimizer._finalize_profit_analysis self profit_analysis gas_optimization
    simulation_result = Optimizer.failed_analysis \/
  py_float (get opportunity "expected_profit_eth" (PNum 0))
  = Ok (Optimizer.pr_gross_profit_eth profit_analysis).
Proof.
  cbv zeta. unfold Optimizer._calculate_profitability.
  destruct (py_float (get opportunity "expected_profit_eth" (PNum 0)))
    as [expected_profit|]; cbn [bind].
  - destruct (py_float (get opportunity "amount_in" (PNum 1.0)))
      as [amount_in|]; cbn [bind].
    + right. reflexivity.
    + left. reflexivity.
  - left. reflexivity.
Qed.
End OptimizerFacts.

(** C1, as stated, fails.  For an opportunity that commits 2 ETH for an
    expected profit of 0.5 ETH, on a node where the transaction takes 21000
    gas at 50 gwei, the emitted ROI is 50 (net profit over one ETH), not
    net profit over the input amount times 100, which is 25.  On the same
    input the emitted gas cost is 0 although the optimized gas cost of the
    gas analysis is 0.00105 ETH. *)
Lemma roi_ignores_input_amount :
  Optimizer.gross_profit_eth Examples.two_eth_analysis == 0.5 /\
  Optimizer.net_profit_eth Examples.two_eth_analysis == 0.5 /\
  Optimizer.roi_percentage Examples.two_eth_analysis == 50 /\
  Optimizer.ga_optimized_gas_cost_eth Examples.two_eth_gas_analysis == 0.00105 /\
  Optimizer.gas_cost_eth Examples.two_eth_analysis == 0 /\
  ~ (Optimizer.roi_percentage Examples.two_eth_analysis
     == Optimizer.net_profit_eth Examples.two_eth_analysis / 2 * 100).
Proof.
  repeat split; try (vm_compute; reflexivity).
  vm_compute. discriminate.
Qed.

(** C1, amended.  In the [ProfitAnalysis] that [analyze_profitability]
    emits, net profit is gross profit minus the gas cost reported in the
    same analysis; [roi_percentage] is net profit times 100, that is, net
    profit relative to an assumed input of one ETH rather than to the
    opportunity's input amount; and [profitable] is true exactly when net
    profit is at least the minimum-profit floor, [roi_percentage] is at
    least the minimum-ROI floor and the simulation succeeded.  The last
    holds with the simulation flag of the analysis for every optimizer, and
    with the outcome of [_simulate_transaction] itself for every optimizer
    with a positive floor, as the constructor's ROI floor of 5.0 is.  Unless
    the analysis is the all-zero fallback, its simulation flag is the
    outcome of the simulation and its gross profit is the expected profit
    of the opportunity. *)
Theorem analyze_profitability_verdict
    (builtins : Builtins) (settings : Optimizer.Settings)
    (self : Optimizer.ProfitOptimizer) (opportunity : pydict)
    (tx_params : Optimizer.TxParams) (now : Q) :
  let a :=
    fst (Optimizer.analyze_profitability settings self opportunity
           tx_params now) in
  let simulation := Optimizer._simulate_transaction settings self tx_params in
  Optimizer.net_profit_eth a
    == Optimizer.gross_profit_eth a - Optimizer.gas_cost_eth a /\
  Optimizer.roi_percentage a == Optimizer.net_profit_eth a * 100 /\
  (Optimizer.profitable a = true <->
   Optimizer._min_profit_eth self <= Optimizer.net_profit_eth a /\
   Optimizer._min_roi_percentage self <= Optimizer.roi_percentage a /\
   Optimizer.simulation_success a = true) /\
  (0 < Optimizer._min_profit_eth self \/
   0 < Optimizer._min_roi_percentage self ->
   (Optimizer.profitable a = true <->
    Optimizer._min_profit_eth self <= Optimizer.net_profit_eth a /\
    Optimizer._min_roi_percentage self <= Optimizer.roi_percentage a /\
    Optimizer.sim_success simulation = true)) /\
  (a = Optimizer.failed_analysis \/
   (Optimizer.simulation_success a = Optimizer.sim_success simulation /\
    py_float (get opportunity "expected_profit_eth" (PNum 0))
    = Ok (Optimizer.gross_profit_eth a))).
Proof.
  cbv zeta. unfold Optimizer.analyze_profitability.
  pose proof (_analyze_gas_costs_thresholds settings self tx_params
                (Optimizer._simulate_transaction settings self tx_params) now)
    as Hself.
  destruct (Optimizer._analyze_gas_costs settings self tx_params
              (Optimizer._simulate_transaction settings self tx_params) now)
    as [gas_analysis after].
  cbn [fst snd] in *. destruct Hself as [Hprofit [Hroi _]].
  rewrite <- Hprofit, <- Hroi.
  set (simulation := Optimizer._simulate_transaction settings self tx_params).
  set (profit_analysis :=
         Optimizer._calculate_profitability after opportunity gas_analysis
           simulation).
  set (optimized_gas :=
         Optimizer._optimize_gas_price after profit_analysis gas_analysis).
  pose proof (_finalize_profit_analysis_verdict after profit_analysis
                optimized_gas simulation) as [Hnet [Hpct Hiff]].
  pose proof (_finalize_profit_analysis_paths after profit_analysis
                optimized_gas simulation) as Hpaths.
  pose proof (_calculate_profitability_gross after opportunity gas_analysis
                simulation optimized_gas) as Hgross.
  cbv zeta in Hnet, Hpct, Hiff, Hpaths, Hgross.
  fold profit_analysis in Hgross.
  set (a := Optimizer._finalize_profit_analysis after profit_analysis
              optimized_gas simulation) in *.
  split; [exact Hnet|]. split; [exact Hpct|]. split; [exact Hiff|].
  split.
  - intro Hfloor. destruct Hpaths as [Hfailed|[Hflag _]].
    + rewrite Hfailed. cbn. split; [discriminate|].
      intros [Hp [Hr _]]. exfalso. destruct Hfloor; lra.
    + rewrite <- Hflag. exact Hiff.
  - destruct Hpaths as [Hfailed|[Hflag Hg]]; [now left|].
    destruct Hgross as [Hfailed|Hexpected]; [now left|].
    right. split; [exact Hflag|]. now rewrite Hg.
Qed.

Lemma analyze_profitability_verdict_witness :
  Optimizer.roi_percentage Examples.two_eth_analysis
    == Optimizer.net_profit_eth Examples.two_eth_analysis * 100 /\
  Optimizer.profitable Examples.two_eth_analysis = true.
Proof.
  destruct (analyze_profitability_verdict Examples.builtins Examples.settings
              Examples.optimizer Examples.two_eth_opportunity
              Examples.plain_transaction 1700000000)
    as [_ [Hroi [_ [Hprofitable _]]]].
  split; [exact Hroi|].
  apply Hprofitable.
  - right. vm_compute. reflexivity.
  - repeat split; vm_compute; congruence.
Defined.

Lemma blacklist_is_permanent_witness :
  Detector.stored (Detector.blacklist_opportunity Examples.detector "a") "a"
    = false /\
  ~ In "a" (map Detector.id [Examples.opp_c; Examples.opp_b]).
Proof.
  destruct (blacklist_is_permanent Examples.detector "a"
              [Detector.Update 1700000002000000 [Examples.opp_a]] 5)
    as [Hremoved [_ Hnever]].
  split; [exact Hremoved|].
  apply Hnever. vm_compute. reflexivity.
Defined.

(* ================================================================== *)
(** * Further properties of the scorer and the selector *)
(* ================================================================== *)

Lemma py_min_le_l (a b : Q) : py_min a b <= a.
Proof.
  unfold py_min. destruct (Qltb b a) eqn:E; reflect_cmp; lra.
Qed.

Lemma py_min_cases (a b : Q) :
  (b < a /\ py_min a b = b) \/ (a <= b /\ py_min a b = a).
Proof.
  unfold py_min. destruct (Qltb b a) eqn:E; reflect_cmp; auto.
Qed.

Lemma py_max_cases (a b : Q) :
  (a < b /\ py_max a b = b) \/ (b <= a /\ py_max a b = a).
Proof.
  unfold py_max. destruct (Qltb a b) eqn:E; reflect_cmp; auto.
Qed.

Lemma Qdiv_le_compat_pos (x y d : Q) : 0 < d -> x <= y -> x / d <= y / d.
Proof.
  intros Hd Hxy. unfold Qdiv. apply Qmult_le_compat_r; [exact Hxy|].
  apply Qlt_le_weak. now apply Qinv_lt_0_compat.
Qed.

(** X1.  The profit sub-score lies in [0, 1]; it is 0 whenever the expected
    profit does not exceed the gas estimate (no net profit) and whenever
    the input amount is not positive. *)
Theorem profit_score_range (expected_profit amount_in gas_estimate : Q) :
  let score :=
    Analytics._calculate_profit_score expected_profit amount_in gas_estimate in
  0 <= score <= 1 /\
  (expected_profit - gas_estimate <= 0 -> score == 0) /\
  (amount_in <= 0 -> score == 0).
Proof.
  cbv zeta. unfold Analytics._calculate_profit_score.
  set (roi := (expected_profit - gas_estimate) / amount_in).
  destruct (py_min_cases 1.0 (0.8 + (roi - 0.1) * 2)) as [[Hm ->]|[Hm ->]];
  destruct (Qle_bool expected_profit 0) eqn:E1;
  destruct (Qle_bool amount_in 0) eqn:E2;
  destruct (Qle_bool (expected_profit - gas_estimate) 0) eqn:E3;
  destruct (Qltb roi 0.001) eqn:R1; destruct (Qltb roi 0.01) eqn:R2;
  destruct (Qltb roi 0.05) eqn:R3; destruct (Qltb roi 0.1) eqn:R4;
  cbn [orb]; reflect_cmp; repeat split; intros; lra.
Qed.

(** X2.  For a positive input amount and a fixed gas estimate, the profit
    sub-score never decreases when the expected profit increases. *)
Theorem profit_score_monotone
    (profit1 profit2 amount_in gas_estimate : Q) :
  0 < amount_in -> profit1 <= profit2 ->
  Analytics._calculate_profit_score profit1 amount_in gas_estimate
  <= Analytics._calculate_profit_score profit2 amount_in gas_estimate.
Proof.
  intros Hin Hle. unfold Analytics._calculate_profit_score.
  assert (Hroi : (profit1 - gas_estimate) / amount_in
                 <= (profit2 - gas_estimate) / amount_in)
    by (apply Qdiv_le_compat_pos; lra).
  set (roi1 := (profit1 - gas_estimate) / amount_in) in *.
  set (roi2 := (profit2 - gas_estimate) / amount_in) in *.
  destruct (py_min_cases 1.0 (0.8 + (roi1 - 0.1) * 2)) as [[Hm1 ->]|[Hm1 ->]];
  destruct (py_min_cases 1.0 (0.8 + (roi2 - 0.1) * 2)) as [[Hm2 ->]|[Hm2 ->]];
  destruct (Qle_bool profit1 0) eqn:A1; destruct (Qle_bool profit2 0) eqn:A2;
  destruct (Qle_bool amount_in 0) eqn:A3;
  destruct (Qle_bool (profit1 - gas_estimate) 0) eqn:B1;
  destruct (Qle_bool (profit2 - gas_estimate) 0) eqn:B2;
  cbn [orb]; reflect_cmp; try lra;
  destruct (Qltb roi1 0.001) eqn:R1; destruct (Qltb roi1 0.01) eqn:R2;
  destruct (Qltb roi1 0.05) eqn:R3; destruct (Qltb roi1 0.1) eqn:R4;
  reflect_cmp; try lra;
  destruct (Qltb roi2 0.001) eqn:S1; destruct (Qltb roi2 0.01) eqn:S2;
  destruct (Qltb roi2 0.05) eqn:S3; destruct (Qltb roi2 0.1) eqn:S4;
  reflect_cmp; lra.
Qed.

Lemma profit_score_monotone_witness :
  Analytics._calculate_profit_score 0.02 1 0.01
  <= Analytics._calculate_profit_score 0.2 1 0.01.
Proof.
  apply profit_score_monotone; lra.
Defined.

(** X3.  The gas-efficiency sub-score lies in [0, 1] for every expected
    profit and every gas estimate.  It is 0 whenever the gas estimate is
    zero or negative (free gas is not rewarded), whenever the expected
    profit is zero or negative, and whenever gas is at least half of the
    profit.  Among positive gas estimates the score never increases when
    the gas estimate grows. *)
Theorem gas_efficiency_score_antitone (expected_profit gas1 gas2 : Q) :
  let score := Analytics._calculate_gas_efficiency_score expected_profit in
  0 <= score gas1 <= 1 /\
  (gas1 <= 0 -> score gas1 == 0) /\
  (expected_profit <= 0 -> score gas1 == 0) /\
  (expected_profit * 0.5 <= gas1 -> score gas1 == 0) /\
  (0 < gas1 -> gas1 <= gas2 -> score gas2 <= score gas1).
Proof.
  cbv zeta. unfold Analytics._calculate_gas_efficiency_score.
  destruct (Qle_bool expected_profit 0) eqn:A1; reflect_cmp; cbn [orb].
  { repeat split; try lra. }
  assert (Hhalf : expected_profit * 0.5 <= gas1 ->
                  0.5 <= gas1 / expected_profit).
  { intro Hh.
    assert (Hd : expected_profit * 0.5 / expected_profit
                 <= gas1 / expected_profit)
      by (apply Qdiv_le_compat_pos; assumption).
    assert (He : expected_profit * 0.5 / expected_profit == 0.5)
      by (field; lra).
    lra. }
  assert (Hratio : gas1 <= gas2 ->
                   gas1 / expected_profit <= gas2 / expected_profit)
    by (intro; apply Qdiv_le_compat_pos; lra).
  set (r1 := gas1 / expected_profit) in *.
  set (r2 := gas2 / expected_profit) in *.
  destruct (Qle_bool gas1 0) eqn:A2; reflect_cmp.
  { repeat split; try lra. }
  destruct (Qltb r1 0.05) eqn:R1; destruct (Qltb r1 0.1) eqn:R2;
  destruct (Qltb r1 0.2) eqn:R3; destruct (Qltb r1 0.5) eqn:R4;
  reflect_cmp; try lra;
  (split; [lra|]; split; [lra|]; split; [lra|];
   split; [intro Hh; specialize (Hhalf Hh); lra|]);
  intros _ Hle; specialize (Hratio Hle);
  (destruct (Qle_bool gas2 0) eqn:A3; reflect_cmp; [lra|]);
  destruct (Qltb r2 0.05) eqn:S1; destruct (Qltb r2 0.1) eqn:S2;
  destruct (Qltb r2 0.2) eqn:S3; destruct (Qltb r2 0.5) eqn:S4;
  reflect_cmp; lra.
Qed.

Lemma gas_efficiency_score_antitone_witness :
  Analytics._calculate_gas_efficiency_score 1 0.3
  <= Analytics._calculate_gas_efficiency_score 1 0.01.
Proof.
  apply (gas_efficiency_score_antitone 1 0.01 0.3); lra.
Defined.

(** X4.  For a base score in [0, 1] the confidence interval brackets it and
    stays inside [0, 1]: 0 <= lower <= score <= upper <= 1.  It reaches at
    least 0.1 to each side of the score, unless it is clipped at 0 or at 1:
    the lower bound is at most [max(0, score - 0.1)] and the upper bound at
    least [min(1, score + 0.1)], with equality when both data-quality flags
    are truthy or absent and the volatility regime is not high. *)
Theorem confidence_interval_brackets_score
    (self : Analytics.AdvancedAnalytics) (opportunity : pydict) (base_score : Q) :
  0 <= base_score <= 1 ->
  let interval :=
    Analytics._calculate_confidence_interval self opportunity base_score in
  0 <= fst interval /\ fst interval <= base_score /\
  base_score <= snd interval /\ snd interval <= 1 /\
  fst interval <= py_max 0.0 (base_score - 0.1) /\
  py_min 1.0 (base_score + 0.1) <= snd interval /\
  (truthy (get opportunity "price_data_quality" (PBool true)) = true ->
   truthy (get opportunity "liquidity_data_quality" (PBool true)) = true ->
   String.eqb (Analytics._volatility_regime self) "high" = false ->
   interval = (py_max 0.0 (base_score - 0.1), py_min 1.0 (base_score + 0.1))).
Proof.
  intros Hb. cbv zeta. unfold Analytics._calculate_confidence_interval.
  destruct (truthy (get opportunity "price_data_quality" (PBool true)));
  destruct (truthy (get opportunity "liquidity_data_quality" (PBool true)));
  destruct (String.eqb (Analytics._volatility_regime self) "high");
  cbn [fst snd negb];
  (repeat match goal with |- _ /\ _ => split end;
   try (intros; first [discriminate | reflexivity]));
  repeat match goal with
         | |- context [py_max 0.0 ?x] =>
             let H := fresh "Hx" in
             destruct (py_max_cases 0.0 x) as [[H ->]|[H ->]]
         end;
  repeat match goal with
         | |- context [py_min 1.0 ?y] =>
             let H := fresh "Hy" in
             destruct (py_min_cases 1.0 y) as [[H ->]|[H ->]]
         end; lra.
Qed.

Lemma confidence_interval_brackets_score_witness :
  let interval :=
    Analytics._calculate_confidence_interval Analytics.init
      Examples.arbitrage_opportunity 0.95 in
  0 <= fst interval /\ fst interval <= 0.95 /\
  0.95 <= snd interval /\ snd interval <= 1.
Proof.
  destruct (confidence_interval_brackets_score Analytics.init
              Examples.arbitrage_opportunity 0.95)
    as [H1 [H2 [H3 [H4 _]]]]; [lra|].
  repeat split; assumption.
Defined.

(** X5.  [select_strategy] answers one of its three strategies whatever it
    is given, and it fails closed: if any of the three inputs is not a
    number the answer is "skip". *)
Theorem select_strategy_fails_closed
    (self : Analytics.StrategySelector)
    (mempool_tx_rate gas_price_gwei token_price_volatility : pyval) :
  let strategy :=
    Analytics.select_strategy self mempool_tx_rate gas_price_gwei
      token_price_volatility in
  (strategy = "simple" \/ strategy = "multi_hop" \/ strategy = "skip") /\
  (as_number mempool_tx_rate = None \/ as_number gas_price_gwei = None \/
   as_number token_price_volatility = None -> strategy = "skip").
Proof.
  cbv zeta.
  unfold Analytics.select_strategy, Analytics.select_strategy_try,
    py_ge, py_lt, py_cmp.
  destruct (as_number mempool_tx_rate) as [m|];
  destruct (as_number gas_price_gwei) as [g|];
  destruct (as_number token_price_volatility) as [v|]; cbn [bind];
  repeat match goal with
         | |- context [if ?b then _ else _] => destruct b; cbn [bind]
         end;
  (split; [auto|intros [H|[H|H]]; congruence || reflexivity]).
Qed.

(** X6.  The strategy confidence lies in [0, 1] for every strategy and every
    market-conditions object, whatever the types of the object and of its
    fields. *)
Theorem strategy_confidence_range (strategy : string) (market_conditions : pyval) :
  0 <= Analytics.get_strategy_confidence strategy market_conditions <= 1.
Proof.
  unfold Analytics.get_strategy_confidence,
    Analytics.get_strategy_confidence_try.
  destruct (String.eqb strategy "skip"); [split; vm_compute; discriminate|].
  destruct (negb (truthy market_conditions));
    [split; vm_compute; discriminate|].
  destruct (py_get market_conditions "gas_price_gwei" (PNum 0)) as [g|];
    cbn [bind]; [|split; vm_compute; discriminate].
  destruct (py_get market_conditions "token_price_volatility" (PNum 0)) as [v|];
    [|repeat split_result; split; vm_compute; discriminate].
  destruct (py_get market_conditions "mempool_tx_rate" (PNum 0)) as [m|];
    [|repeat split_result; split; vm_compute; discriminate].
  unfold py_lt, py_gt, py_cmp.
  destruct (as_number g); cbn [bind]; [|split; vm_compute; discriminate].
  destruct (as_number v);
    [|repeat split_result; split; vm_compute; discriminate].
  destruct (as_number m);
    [|repeat split_result; split; vm_compute; discriminate].
  repeat match goal with
         | |- context [if ?b then _ else _] => destruct b; cbn [bind]
         end; split; vm_compute; discriminate.
Qed.

(** ** Dicts with string keys *)

Lemma dict_lookup_set {V} (d : list (string * V)) (k k' : string) (v : V) :
  dict_lookup String.eqb (dict_set String.eqb d k v) k'
  = if String.eqb k' k then Some v else dict_lookup String.eqb d k'.
Proof.
  induction d as [|[k0 v0] d IH]; cbn; [reflexivity|].
  destruct (String.eqb k k0) eqn:E; cbn.
  - apply String.eqb_eq in E. subst k0.
    now destruct (String.eqb k' k).
  - rewrite IH. destruct (String.eqb k' k0) eqn:E0; [|reflexivity].
    apply String.eqb_eq in E0. subst k0.
    rewrite String.eqb_sym in E. now rewrite E.
Qed.

Lemma dict_set_values {V} (R : V -> Prop) (d : list (string * V)) (k : string) (v : V) :
  Forall (fun kv => R (snd kv)) d -> R v ->
  Forall (fun kv => R (snd kv)) (dict_set String.eqb d k v).
Proof.
  intros Hd Hv. induction Hd as [|[k0 v0] d H0 Hd IH]; cbn.
  - now repeat constructor.
  - destruct (String.eqb k k0); constructor; auto.
Qed.

Lemma dict_lookup_value {V} (R : V -> Prop) (d : list (string * V)) (k : string) (v : V) :
  Forall (fun kv => R (snd kv)) d ->
  dict_lookup String.eqb d k = Some v -> R v.
Proof.
  induction 1 as [|[k0 v0] d H0 Hd IH]; cbn; [discriminate|].
  destruct (String.eqb k k0); [|exact IH].
  intro Hv. injection Hv as <-. exact H0.
Qed.

Lemma dict_set_keys {V} (d : list (string * V)) (k : string) (v : V) :
  dict_keys (dict_set String.eqb d k v)
  = if dict_mem String.eqb d k then dict_keys d else dict_keys d ++ [k].
Proof.
  unfold dict_keys, dict_mem. induction d as [|[k0 v0] d IH]; cbn; [reflexivity|].
  destruct (String.eqb k k0) eqn:E; cbn; [reflexivity|].
  rewrite IH. now destruct (dict_lookup String.eqb d k).
Qed.

Lemma dict_lookup_None {V} (d : list (string * V)) (k : string) :
  dict_lookup String.eqb d k = None <-> ~ In k (dict_keys d).
Proof.
  unfold dict_keys. induction d as [|[k0 v0] d IH]; cbn; [tauto|].
  destruct (String.eqb k k0) eqn:E.
  - apply String.eqb_eq in E. subst. split; [discriminate|tauto].
  - apply String.eqb_neq in E. rewrite IH. intuition congruence.
Qed.

Lemma dict_set_NoDup {V} (d : list (string * V)) (k : string) (v : V) :
  NoDup (dict_keys d) -> NoDup (dict_keys (dict_set String.eqb d k v)).
Proof.
  intro Hd. rewrite dict_set_keys. unfold dict_mem.
  destruct (dict_lookup String.eqb d k) eqn:E; [exact Hd|].
  apply dict_lookup_None in E.
  apply NoDup_rev in Hd. rewrite <- (rev_involutive (dict_keys d ++ [k])).
  apply NoDup_rev. rewrite rev_app_distr. cbn.
  constructor; [|exact Hd]. now rewrite <- in_rev.
Qed.

Lemma dict_lookup_In {V} (d : list (string * V)) (k : string) (v : V) :
  NoDup (dict_keys d) ->
  (dict_lookup String.eqb d k = Some v <-> In (k, v) d).
Proof.
  unfold dict_keys. induction d as [|[k0 v0] d IH]; cbn; intro Hd.
  - split; [discriminate|tauto].
  - inversion Hd as [|? ? Hnot Hd']; subst.
    destruct (String.eqb k k0) eqn:E.
    + apply String.eqb_eq in E. subst k0. split.
      * intro Hv. injection Hv as <-. now left.
      * intros [Heq|Hin]; [now injection Heq as <-|].
        exfalso. apply Hnot. apply in_map_iff. now exists (k, v).
    + apply String.eqb_neq in E. rewrite (IH Hd'). split; [now right|].
      intros [Heq|Hin]; [injection Heq as Hk _; congruence|exact Hin].
Qed.

(** ** Eviction as a filter *)

Section Eviction.
Context {K V : Type} (eqb : K -> K -> bool).

Lemma fold_dict_del (ks : list K) (d : list (K * V)) :
  fold_left (dict_del eqb) ks d
  = filter (fun kv => negb (existsb (fun k => eqb k (fst kv)) ks)) d.
Proof.
  revert d. induction ks as [|k ks IH]; intro d; cbn.
  - induction d as [|a d IHd]; cbn; [reflexivity|now rewrite <- IHd].
  - rewrite IH. unfold dict_del.
    induction d as [|a d IHd]; cbn; [reflexivity|].
    destruct (eqb k (fst a)); cbn; [exact IHd|].
    destruct (existsb (fun k0 => eqb k0 (fst a)) ks); cbn; [exact IHd|].
    now rewrite IHd.
Qed.

Lemma evict_is_filter (P : K * V -> bool) (d : list (K * V)) :
  (forall a, In a d -> eqb (fst a) (fst a) = true) ->
  Spec.distinct_keys eqb d ->
  fold_left (dict_del eqb) (map fst (filter P d)) d
  = filter (fun a => negb (P a)) d.
Proof.
  intros Hrefl Hdistinct. rewrite fold_dict_del.
  apply filter_ext_in. intros a Ha. f_equal.
  destruct (P a) eqn:Pa.
  - apply existsb_exists. exists (fst a). split; [|now apply Hrefl].
    apply in_map. apply filter_In. now split.
  - destruct (existsb _ _) eqn:E; [|reflexivity].
    apply existsb_exists in E. destruct E as [k [Hk Hka]].
    apply in_map_iff in Hk. destruct Hk as [b [<- Hb]].
    apply filter_In in Hb. destruct Hb as [Hb Pb].
    destruct (ForallOrdPairs_In Hdistinct b a Hb Ha) as [->|[[H1 _]|[_ H2]]];
      congruence.
Qed.
End Eviction.

Lemma NoDup_distinct_keys {V} (d : list (string * V)) :
  NoDup (dict_keys d) -> Spec.distinct_keys String.eqb d.
Proof.
  unfold Spec.distinct_keys, dict_keys.
  induction d as [|a d IH]; cbn; intro Hd; [constructor|].
  inversion Hd as [|? ? Hnot Hd']; subst. constructor; [|now apply IH].
  apply Forall_forall. intros b Hb.
  assert (Hne : fst a <> fst b).
  { intros Heq. apply Hnot. rewrite Heq. now apply in_map. }
  split; apply String.eqb_neq; congruence.
Qed.

Lemma filter_m_as_filter {A} (f : A -> result bool) (l r : list A) :
  filter_m f l = Ok r ->
  Forall (fun x => exists b, f x = Ok b) l /\
  r = filter (fun x => match f x with Ok b => b | Raise _ => false end) l.
Proof.
  revert r. induction l as [|a l IH]; cbn; intros r Hr.
  - injection Hr as <-. now split.
  - destruct (f a) as [b|] eqn:Hfa; cbn in Hr; [|discriminate].
    destruct (filter_m f l) as [ys|] eqn:Hys; cbn in Hr; [|discriminate].
    injection Hr as <-. destruct (IH ys eq_refl) as [Hall ->].
    split; [constructor; eauto|reflexivity].
Qed.

(** ** Performance tracking *)

(** X7.  [update_performance_metrics] keeps every success rate a frequency:
    if all rates on record are in [0, 1] they still are after the update.
    The rate of the reported strategy type becomes 0.9 times its old value
    (0 for a type seen for the first time) plus 0.1 for a success, and the
    rates of the other types are untouched.  This holds also when the
    method goes on to raise [KeyError] on the average profits. *)
Theorem success_rate_stays_frequency
    (self : Analytics.AdvancedAnalytics) (strategy_type : string)
    (success : bool) (profit : Q) :
  Spec.rates_in_unit (Analytics._success_rates self) ->
  let after :=
    fst (Analytics.update_performance_metrics self strategy_type success profit) in
  Spec.rates_in_unit (Analytics._success_rates after) /\
  Spec.rate_of after strategy_type
    == Spec.rate_of self strategy_type * 0.9 + (if success then 1 else 0) * 0.1 /\
  (forall other : string,
     other <> strategy_type -> Spec.rate_of after other = Spec.rate_of self other).
Proof.
  intro Hunit. cbv zeta.
  set (rates := Analytics._success_rates self) in *.
  set (rates1 :=
         if dict_mem String.eqb rates strategy_type then rates
         else dict_set String.eqb rates strategy_type 0.0).
  set (old := Spec.rate_of self strategy_type).
  assert (Hlookup1 : dict_lookup String.eqb rates1 strategy_type = Some old
                     /\ 0 <= old <= 1 /\ Spec.rates_in_unit rates1).
  { subst rates1 old. unfold Spec.rate_of, dict_mem. fold rates.
    destruct (dict_lookup String.eqb rates strategy_type) as [r|] eqn:E.
    - split; [exact E|]. split; [|exact Hunit].
      exact (dict_lookup_value (fun r => 0 <= r <= 1) _ _ _ Hunit E).
    - rewrite dict_lookup_set, String.eqb_refl.
      split; [reflexivity|]. split; [lra|].
      apply (dict_set_values (fun r => 0 <= r <= 1)); [exact Hunit|lra]. }
  destruct Hlookup1 as [Hlookup1 [Hold Hunit1]].
  set (new := old * 0.9 + (if success then 1.0 else 0.0) * 0.1).
  assert (Hafter :
    Analytics._success_rates
      (fst (Analytics.update_performance_metrics self strategy_type success profit))
    = dict_set String.eqb rates1 strategy_type new).
  { unfold Analytics.update_performance_metrics. fold rates.
    subst rates1 new. unfold dict_mem in *.
    destruct (dict_lookup String.eqb rates strategy_type) as [r|] eqn:E;
      cbn [negb Analytics.with_performance Analytics._success_rates
           Analytics._avg_profits Analytics._risk_adjusted_returns] in *;
      fold rates; rewrite Hlookup1;
      cbn [Analytics.with_performance Analytics._success_rates
           Analytics._avg_profits Analytics._risk_adjusted_returns];
      match goal with
      | |- context [match dict_lookup String.eqb ?d ?k with _ => _ end] =>
          destruct (dict_lookup String.eqb d k)
      end; reflexivity. }
  split; [|split].
  - rewrite Hafter.
    apply (dict_set_values (fun r => 0 <= r <= 1)); [exact Hunit1|].
    subst new. destruct success; lra.
  - unfold Spec.rate_of at 1. rewrite Hafter, dict_lookup_set, String.eqb_refl.
    subst new. destruct success; lra.
  - intros other Hother. unfold Spec.rate_of. rewrite Hafter, dict_lookup_set.
    apply String.eqb_neq in Hother. rewrite Hother. fold rates.
    subst rates1. unfold dict_mem.
    destruct (dict_lookup String.eqb rates strategy_type); [reflexivity|].
    now rewrite dict_lookup_set, Hother.
Qed.

Lemma success_rate_stays_frequency_witness :
  Spec.rate_of
    (fst (Analytics.update_performance_metrics Analytics.init "arbitrage" true 0.5))
    "arbitrage"
  == Spec.rate_of Analytics.init "arbitrage" * 0.9 + 1 * 0.1.
Proof.
  apply (success_rate_stays_frequency Analytics.init "arbitrage" true 0.5).
  constructor.
Defined.

(** ** The scoring pass *)

Lemma _calculate_execution_priority_range
    (opp_data : pydict) (analytics_score : Analytics.OpportunityScore) :
  (1 <= Detector._calculate_execution_priority opp_data analytics_score <= 10)%Z.
Proof.
  unfold Detector._calculate_execution_priority, Detector.py_max_Z,
    Detector.py_min_Z.
  repeat match goal with
         | |- context [if ?b then _ else _] => destruct b eqn:?
         end; lia.
Qed.

(** X8.  The scoring pass keeps the order of the raw opportunities and
    skips exactly those for which no id can be generated, because rendering
    a value or encoding the string raises; when every id can be generated
    it returns one [DetectedOpportunity] per raw opportunity.  Each one
    carries its raw dict as metadata, the id generated from it, the chain
    id of the detector, an execution priority between 1 and 10, and the
    total of its analytics score as its confidence. *)
Theorem scoring_pass_shape
    (B : Builtins) (_get_competition_level : pydict -> result Q)
    (self : Detector.OpportunityDetector) (now : Z) (opportunities : list pydict) :
  let scored :=
    Detector._score_opportunities _get_competition_level self now opportunities in
  let has_id opp_data :=
    negb (raises (Detector._generate_opportunity_id self opp_data now)) in
  map Detector.metadata scored = filter has_id opportunities /\
  (forallb has_id opportunities = true ->
   map Detector.metadata scored = opportunities) /\
  Forall (fun opp =>
            Detector._generate_opportunity_id self (Detector.metadata opp) now
            = Ok (Detector.id opp) /\
            (1 <= Detector.execution_priority opp <= 10)%Z /\
            Detector.chain_id opp = Detector._chain_id self /\
            exists score : Analytics.OpportunityScore,
              Detector.analytics_score opp = Some score /\
              Detector.confidence_score opp = Analytics.total_score score)
         scored.
Proof.
  cbv zeta.
  assert (Hfilter :
            map Detector.metadata
              (Detector._score_opportunities _get_competition_level self now
                 opportunities)
            = filter (fun opp_data =>
                        negb (raises (Detector._generate_opportunity_id self
                                        opp_data now)))
                     opportunities).
  { induction opportunities as [|opp_data opportunities IH]; cbn;
      [reflexivity|].
    unfold Detector.score_one at 1.
    destruct (Detector._generate_opportunity_id self opp_data now);
      cbn; now rewrite IH. }
  split; [exact Hfilter|]. split.
  - intro Hall. rewrite Hfilter. now apply forallb_filter_id.
  - apply Forall_forall. intros opp Hopp.
    apply _score_opportunities_In in Hopp. destruct Hopp as [opp_data [_ Hone]].
    apply score_one_fields in Hone.
    destruct Hone as [Hscore [_ [Hconf [Hprio [Hmeta [Hchain Hid]]]]]].
    rewrite Hmeta, Hprio.
    split; [exact Hid|].
    split; [apply _calculate_execution_priority_range|].
    split; [exact Hchain|]. eexists. split; [exact Hscore|exact Hconf].
Qed.

(** An opportunity whose type cannot be encoded is skipped, and the ones
    around it are kept. *)
Example scoring_skips_unencodable :
  map Detector.metadata
    (Detector._score_opportunities (builtins := Examples.strict_builtins)
       Analytics.undefined_method (Detector.init 1 0.01) 1700000000000000
       [ Examples.arbitrage_opportunity; Examples.unencodable_opportunity;
         Examples.two_eth_opportunity ])
  = [ Examples.arbitrage_opportunity; Examples.two_eth_opportunity ].
Proof. vm_compute. reflexivity. Qed.

(** X9.  With the class as it stands (no [_get_competition_level]), every
    opportunity that the scoring pass produces has confidence 0 and risk
    level "extreme", and [get_best_opportunities] of a detector whose
    minimum confidence is positive never returns it. *)
Theorem failed_scores_never_surface
    (B : Builtins) (self : Detector.OpportunityDetector) (now : Z)
    (opportunities : list pydict) (opp : Detector.DetectedOpportunity) :
  In opp (Detector._score_opportunities Analytics.undefined_method self now
            opportunities) ->
  Detector.confidence_score opp == 0 /\
  Detector.risk_level opp = "extreme" /\
  (forall (detector : Detector.OpportunityDetector) (limit : Z)
          (best : list Detector.DetectedOpportunity),
     0 < Detector._min_confidence_score detector ->
     Detector.get_best_opportunities detector limit = Ok best ->
     ~ In opp best).
Proof.
  intro Hopp.
  apply _score_opportunities_In in Hopp. destruct Hopp as [opp_data [_ Hone]].
  apply score_one_fields in Hone. cbv zeta in Hone.
  rewrite score_opportunity_as_it_stands in Hone.
  destruct Hone as [_ [Hrisk [Hconf _]]].
  cbn [Analytics.total_score Analytics.risk_score Analytics.failed_score]
    in Hrisk, Hconf.
  split; [rewrite Hconf; reflexivity|]. split; [exact Hrisk|].
  intros detector limit best Hpositive Hbest Hin.
  destruct (get_best_opportunities_Ok _ _ _ Hbest) as [Helems _].
  destruct (Helems _ Hin) as [_ Hvalid].
  destruct (is_valid_true _ _ Hvalid) as [[profit [_ [_ Hconf']]] _].
  rewrite Hconf in Hconf'. cbn in Hconf'. lra.
Qed.

Lemma failed_scores_never_surface_witness :
  exists opp : Detector.DetectedOpportunity,
    Detector._score_opportunities (builtins := Examples.builtins)
      Analytics.undefined_method (Detector.init 1 0.01) 1700000000000000
      [Examples.arbitrage_opportunity] = [opp] /\
    Detector.risk_level opp = "extreme".
Proof.
  eexists. split; [reflexivity|].
  exact (proj1 (proj2 (failed_scores_never_surface Examples.builtins
                         (Detector.init 1 0.01) 1700000000000000
                         [Examples.arbitrage_opportunity] _
                         (or_introl eq_refl)))).
Defined.

(** ** Updates of the store *)

Lemma upsert_all_lookup
    (new_opportunities : list Detector.DetectedOpportunity)
    (detected : list (string * Detector.DetectedOpportunity)) (id : string) :
  dict_lookup String.eqb (Detector.upsert_all detected new_opportunities) id
  = Spec.latest_with_id id new_opportunities (dict_lookup String.eqb detected id).
Proof.
  unfold Detector.upsert_all, Spec.latest_with_id. revert detected.
  induction new_opportunities as [|opp new IH]; intro detected; cbn;
    [reflexivity|].
  now rewrite IH, dict_lookup_set.
Qed.

Lemma upsert_all_NoDup
    (new_opportunities : list Detector.DetectedOpportunity)
    (detected : list (string * Detector.DetectedOpportunity)) :
  NoDup (dict_keys detected) ->
  NoDup (dict_keys (Detector.upsert_all detected new_opportunities)).
Proof.
  unfold Detector.upsert_all. revert detected.
  induction new_opportunities as [|opp new IH]; intros detected Hd; cbn;
    [exact Hd|].
  apply IH. now apply dict_set_NoDup.
Qed.

Lemma filter_keys_NoDup {V} (P : string * V -> bool) (d : list (string * V)) :
  NoDup (dict_keys d) -> NoDup (dict_keys (filter P d)).
Proof.
  unfold dict_keys. induction d as [|a d IH]; cbn; intro Hd; [constructor|].
  inversion Hd as [|? ? Hnot Hd']; subst.
  destruct (P a); cbn; [|now apply IH].
  constructor; [|now apply IH].
  intro Hin. apply Hnot. apply in_map_iff in Hin.
  destruct Hin as [b [Hb Hin]]. apply filter_In in Hin.
  apply in_map_iff. exists b. tauto.
Qed.

(** What a successful update leaves in the store. *)
Lemma update_store
    (self after : Detector.OpportunityDetector) (current_time : Z)
    (new_opportunities : list Detector.DetectedOpportunity) :
  NoDup (dict_keys (Detector._detected_opportunities self)) ->
  Detector._update_detected_opportunities self current_time new_opportunities
    = (after, Ok tt) ->
  let upserted :=
    Detector.upsert_all (Detector._detected_opportunities self) new_opportunities in
  Forall (fun kv => exists stale, Detector.is_stale current_time (snd kv) = Ok stale)
         upserted /\
  Detector._detected_opportunities after
  = filter (fun kv =>
              negb match Detector.is_stale current_time (snd kv) with
                   | Ok stale => stale
                   | Raise _ => false
                   end)
           upserted.
Proof.
  intros Hnodup Hupdate. cbv zeta.
  unfold Detector._update_detected_opportunities in Hupdate.
  destruct (filter_m _ _) as [stale|] eqn:Hstale; [|discriminate].
  injection Hupdate as <-.
  destruct (filter_m_as_filter _ _ _ Hstale) as [Hall ->].
  split; [exact Hall|]. cbn [Detector._detected_opportunities Detector.with_store].
  apply evict_is_filter.
  - intros a _. apply String.eqb_refl.
  - apply NoDup_distinct_keys. now apply upsert_all_NoDup.
Qed.

(** X10.  After an update that succeeds, the store holds under each id the
    opportunity that was written there last (the last new opportunity with
    this id, or else the one stored before), provided it is not stale:
    opportunities stamped more than 300 seconds before the update are
    absent, all others are retained.  Ids stay unique. *)
Theorem update_keeps_latest_fresh
    (self after : Detector.OpportunityDetector) (current_time : Z)
    (new_opportunities : list Detector.DetectedOpportunity) :
  NoDup (dict_keys (Detector._detected_opportunities self)) ->
  Detector._update_detected_opportunities self current_time new_opportunities
    = (after, Ok tt) ->
  NoDup (dict_keys (Detector._detected_opportunities after)) /\
  (forall (id : string) (opp : Detector.DetectedOpportunity),
     dict_lookup String.eqb (Detector._detected_opportunities after) id = Some opp
     <->
     Spec.latest_with_id id new_opportunities
       (dict_lookup String.eqb (Detector._detected_opportunities self) id)
       = Some opp /\
     Detector.is_stale current_time opp = Ok false).
Proof.
  intros Hnodup Hupdate.
  destruct (update_store _ _ _ _ Hnodup Hupdate) as [Hall Hafter].
  pose proof (upsert_all_NoDup new_opportunities _ Hnodup) as Hupserted.
  rewrite Hafter. split; [now apply filter_keys_NoDup|].
  intros id opp.
  rewrite <- upsert_all_lookup.
  rewrite (dict_lookup_In _ _ _ (filter_keys_NoDup _ _ Hupserted)).
  rewrite (dict_lookup_In _ _ _ Hupserted).
  rewrite filter_In. cbn [snd].
  rewrite Forall_forall in Hall. split.
  - intros [Hin Hfresh]. split; [exact Hin|].
    destruct (Hall _ Hin) as [stale Hs]. cbn [snd] in Hs.
    rewrite Hs in Hfresh |- *. now destruct stale.
  - intros [Hin Hfresh]. split; [exact Hin|]. now rewrite Hfresh.
Qed.

Lemma update_keeps_latest_fresh_witness :
  let outcome :=
    Detector._update_detected_opportunities (Detector.init 1 0.01)
      1700000600000000 [Examples.old_opportunity; Examples.fresh_opportunity] in
  dict_lookup String.eqb (Detector._detected_opportunities (fst outcome)) "fresh"
    = Some Examples.fresh_opportunity /\
  dict_lookup String.eqb (Detector._detected_opportunities (fst outcome)) "old"
    = None.
Proof.
  cbv zeta.
  destruct (update_keeps_latest_fresh (Detector.init 1 0.01)
              (fst (Detector._update_detected_opportunities
                      (Detector.init 1 0.01) 1700000600000000
                      [Examples.old_opportunity; Examples.fresh_opportunity]))
              1700000600000000
              [Examples.old_opportunity; Examples.fresh_opportunity])
    as [_ Hlookup].
  - constructor.
  - vm_compute. reflexivity.
  - split.
    + apply Hlookup. split; vm_compute; reflexivity.
    + vm_compute. reflexivity.
Defined.

Lemma last_n_length {A} (n : nat) (l : list A) :
  (n < List.length l)%nat -> List.length (last_n n l) = n.
Proof.
  intro Hn. unfold last_n. rewrite length_skipn. lia.
Qed.

Lemma last_n_app {A} (n : nat) (older newer : list A) :
  (List.length newer <= n)%nat ->
  exists kept, last_n n (older ++ newer) = kept ++ newer.
Proof.
  intro Hn. unfold last_n. rewrite length_app.
  exists (skipn (List.length older + List.length newer - n) older).
  rewrite skipn_app.
  replace (List.length older + List.length newer - n - List.length older)%nat
    with 0%nat by lia.
  reflexivity.
Qed.

(** X11.  After an update that succeeds the opportunity history holds at
    most 1000 entries and, when no more than 1000 opportunities came in,
    ends with them; the detection counter has grown by their number; and
    the blacklist is as before. *)
Theorem update_bounds_history
    (self after : Detector.OpportunityDetector) (current_time : Z)
    (new_opportunities : list Detector.DetectedOpportunity) :
  Detector._update_detected_opportunities self current_time new_opportunities
    = (after, Ok tt) ->
  (List.length (Detector._opportunity_history after) <= 1000)%nat /\
  ((List.length new_opportunities <= 1000)%nat ->
   exists kept, Detector._opportunity_history after = kept ++ new_opportunities) /\
  Detector.total_detected (Detector._detection_stats after)
  = (Detector.total_detected (Detector._detection_stats self)
     + Z.of_nat (List.length new_opportunities))%Z /\
  Detector._blacklisted_opportunities after
  = Detector._blacklisted_opportunities self.
Proof.
  unfold Detector._update_detected_opportunities.
  destruct (filter_m _ _) as [stale|]; [|discriminate].
  intro Hafter. injection Hafter as <-.
  cbn [Detector._opportunity_history Detector._detection_stats
       Detector._blacklisted_opportunities Detector.with_store
       Detector.total_detected].
  set (history := Detector._opportunity_history self ++ new_opportunities).
  destruct (Nat.ltb 1000 (List.length history)) eqn:E.
  - apply Nat.ltb_lt in E. repeat split.
    + now rewrite last_n_length.
    + intro Hn. now apply last_n_app.
  - apply Nat.ltb_ge in E. repeat split; [exact E|].
    intros _. now exists (Detector._opportunity_history self).
Qed.

Lemma update_bounds_history_witness :
  (List.length
     (Detector._opportunity_history
        (fst (Detector._update_detected_opportunities (Detector.init 1 0.01)
                1700000600000000 [Examples.fresh_opportunity])))
   <= 1000)%nat.
Proof.
  apply (update_bounds_history (Detector.init 1 0.01) _ 1700000600000000
           [Examples.fresh_opportunity]).
  vm_compute. reflexivity.
Defined.

(** X12.  Through every sequence of updates, blacklistings and execution
    reports the execution counters add up: the number of executions equals
    the number of profitable ones plus the number of false positives, and
    the detection counter never decreases. *)
Theorem execution_counts_balance
    (self : Detector.OpportunityDetector) (ops : list Detector.op) :
  Spec.counts_balance self ->
  Spec.counts_balance (Detector.run self ops) /\
  (Detector.total_detected (Detector._detection_stats self)
   <= Detector.total_detected (Detector._detection_stats (Detector.run self ops)))%Z.
Proof.
  unfold Detector.run. revert self.
  induction ops as [|o ops IH]; intros self Hself; cbn [fold_left].
  - split; [exact Hself|lia].
  - assert (Hstep : Spec.counts_balance (Detector.step self o) /\
                    (Detector.total_detected (Detector._detection_stats self)
                     <= Detector.total_detected
                          (Detector._detection_stats (Detector.step self o)))%Z).
    { unfold Spec.counts_balance in *.
      destruct o as [t new|id|id success profit]; cbn.
      - unfold Detector._update_detected_opportunities.
        destruct (filter_m _ _); cbn; split; try exact Hself; lia.
      - split; [exact Hself|lia].
      - destruct success; split; lia. }
    destruct Hstep as [Hbalance Hgrow].
    destruct (IH _ Hbalance) as [Hb Hg]. split; [exact Hb|lia].
Qed.

Lemma execution_counts_balance_witness :
  Spec.counts_balance
    (Detector.run (Detector.init 1 0.01)
       [ Detector.RecordResult "a" true 0.5; Detector.RecordResult "b" false 0;
         Detector.Blacklist "b" ]).
Proof.
  apply (execution_counts_balance (Detector.init 1 0.01)). reflexivity.
Defined.

(** ** Arbitrage detection *)

Lemma compare_venues_sound
    (self : Detector.OpportunityDetector) (now : Z) (token_a token_b : string)
    (prices : list (string * Q)) (venue1 venue2 : string * Q)
    (opportunities : list pydict) :
  In venue1 prices -> In venue2 prices ->
  Forall (Spec.sound_arbitrage self prices) opportunities ->
  Forall (Spec.sound_arbitrage self prices)
         (fst (Detector.compare_venues self now token_a token_b venue1 venue2
                 opportunities)).
Proof.
  intros H1 H2 Hacc. destruct venue1 as [dex1 price1], venue2 as [dex2 price2].
  unfold Detector.compare_venues.
  destruct (String.eqb dex1 dex2) eqn:Hdex; [exact Hacc|].
  apply String.eqb_neq in Hdex.
  unfold py_div.
  destruct (Qeq_bool (py_min price1 price2) 0) eqn:Hzero; [exact Hacc|].
  apply Qeq_bool_neq in Hzero. cbn [fst].
  set (d := Qabs (price1 - price2)) in *.
  set (m := py_min price1 price2) in *.
  destruct (Qltb 0.005 (d / m)) eqn:Hspread; [|exact Hacc].
  destruct (Qle_bool (Detector._min_profit_threshold self) (1.0 * (d / m)))
    eqn:Hthreshold; [|exact Hacc].
  reflect_cmp. cbn [fst].
  apply Forall_app. split; [exact Hacc|]. constructor; [|constructor].
  assert (Hd : 0 <= d) by apply Qabs_nonneg.
  assert (Hrm : d / m * m == d) by (field; exact Hzero).
  assert (Hm : 0 < m) by nra.
  assert (Hdpos : 0 < d) by nra.
  destruct (Qlt_le_dec price1 price2) as [Hlt|Hge].
  - (* the first venue is the cheaper one *)
    assert (Hb : Qltb price1 price2 = true) by now apply Qltb_true.
    assert (Hmin : m = price1).
    { subst m. unfold py_min.
      destruct (Qltb price2 price1) eqn:E; [reflect_cmp; lra|reflexivity]. }
    assert (Hmax : py_max price1 price2 = price2)
      by (unfold py_max; now rewrite Hb).
    assert (Habs : d == price2 - price1).
    { subst d. rewrite Qabs_neg by lra. ring. }
    exists dex1, dex2, price1, price2, (1.0 * (d / m)).
    rewrite Hb, Hmax. rewrite Hmin in *.
    repeat split; try assumption; try reflexivity; try lra.
    rewrite Habs. field. lra.
  - (* the second venue is the cheaper one *)
    assert (Hne : price2 < price1).
    { destruct (Qlt_le_dec price2 price1) as [L|L]; [exact L|].
      exfalso. assert (He : price1 - price2 == 0) by lra.
      subst d. rewrite (Qabs_pos (price1 - price2)) in Hdpos; lra. }
    assert (Hb : Qltb price1 price2 = false) by (apply Qltb_false; lra).
    assert (Hmin : m = price2).
    { subst m. unfold py_min.
      now rewrite (proj2 (Qltb_true price2 price1) Hne). }
    assert (Hmax : py_max price1 price2 = price1)
      by (unfold py_max; now rewrite Hb).
    assert (Habs : d == price1 - price2).
    { subst d. apply Qabs_pos. lra. }
    exists dex2, dex1, price2, price1, (1.0 * (d / m)).
    rewrite Hb, Hmax. rewrite Hmin in *.
    repeat split; try assumption; try reflexivity; try lra; try congruence.
    rewrite Habs. field. lra.
Qed.

Lemma against_later_venues_sound
    (self : Detector.OpportunityDetector) (now : Z) (token_a token_b : string)
    (prices : list (string * Q)) (venue1 : string * Q)
    (later : list (string * Q)) (opportunities : list pydict) :
  In venue1 prices -> incl later prices ->
  Forall (Spec.sound_arbitrage self prices) opportunities ->
  Forall (Spec.sound_arbitrage self prices)
         (fst (Detector.against_later_venues self now token_a token_b venue1
                 later opportunities)).
Proof.
  intros H1. revert opportunities.
  induction later as [|venue2 later IH]; intros opportunities Hincl Hacc; cbn;
    [exact Hacc|].
  pose proof (compare_venues_sound self now token_a token_b prices venue1 venue2
                opportunities H1 (Hincl _ (or_introl eq_refl)) Hacc) as Hstep.
  destruct (Detector.compare_venues _ _ _ _ _ _ _) as [acc [[]|e]];
    cbn [fst] in *; [|exact Hstep].
  apply IH; [|exact Hstep]. intros v Hv. apply Hincl. now right.
Qed.

Lemma scan_venues_sound
    (self : Detector.OpportunityDetector) (now : Z) (token_a token_b : string)
    (prices venues : list (string * Q)) (opportunities : list pydict) :
  incl venues prices ->
  Forall (Spec.sound_arbitrage self prices) opportunities ->
  Forall (Spec.sound_arbitrage self prices)
         (fst (Detector.scan_venues self now token_a token_b venues opportunities)).
Proof.
  revert opportunities.
  induction venues as [|venue1 later IH]; intros opportunities Hincl Hacc; cbn;
    [exact Hacc|].
  assert (Hlater : incl later prices)
    by (intros v Hv; apply Hincl; now right).
  pose proof (against_later_venues_sound self now token_a token_b prices venue1
                later opportunities (Hincl _ (or_introl eq_refl)) Hlater Hacc)
    as Hstep.
  destruct (Detector.against_later_venues _ _ _ _ _ _ _) as [acc [[]|e]];
    cbn [fst] in *; [|exact Hstep].
  now apply IH.
Qed.

(** X13.  Whatever prices the venues quote for a token pair, every
    arbitrage opportunity that the scan of the pair reports comes from two
    differently named venues of the list, buys at the strictly lower price
    (which is positive) and sells at the higher one, commits 1.0, and
    expects the relative spread (sell - buy) / buy as profit, which exceeds
    0.5% and is at least the minimum-profit threshold.  This also holds for
    what is reported before a zero price stops the scan. *)
Theorem arbitrage_scan_sound
    (self : Detector.OpportunityDetector) (now : Z) (token_a token_b : string)
    (prices : list (string * Q)) (opportunity : pydict) :
  In opportunity (fst (Detector.scan_pair self now token_a token_b prices [])) ->
  Spec.sound_arbitrage self prices opportunity.
Proof.
  unfold Detector.scan_pair. intro Hin.
  destruct (Nat.ltb (List.length prices) 2); [destruct Hin|].
  pose proof (scan_venues_sound self now token_a token_b prices prices []
                (incl_refl _) (Forall_nil _)) as Hall.
  rewrite Forall_forall in Hall. now apply Hall.
Qed.

Lemma arbitrage_scan_sound_witness :
  exists opportunity : pydict,
    fst (Detector.scan_pair (Detector.init 1 0.001) 1700000000000000
           "WETH" "USDC" Examples.two_venues []) = [opportunity] /\
    Spec.sound_arbitrage (Detector.init 1 0.001) Examples.two_venues opportunity.
Proof.
  eexists. split; [vm_compute; reflexivity|].
  apply (arbitrage_scan_sound (Detector.init 1 0.001) 1700000000000000
           "WETH" "USDC").
  vm_compute. now left.
Defined.

Lemma scan_pending_rejects
    (is_target : pyval -> bool) (create : pyval -> option pydict)
    (pending_txs : list pyval) (opportunities : list pydict) :
  (forall tx, is_target tx = false) ->
  fold_left
    (fun (acc : list pydict) (tx : pyval) =>
       if is_target tx then
         match create tx with
         | Some opportunity => acc ++ [opportunity]
         | None => acc
         end
       else acc)
    pending_txs opportunities = opportunities.
Proof.
  intro Hreject. revert opportunities.
  induction pending_txs as [|tx txs IH]; intro acc; cbn; [reflexivity|].
  rewrite Hreject. apply IH.
Qed.

(** X14.  As shipped, a detection cycle finds nothing, whatever the
    settings, the detector, the time and the mempool: the price table of
    [_get_dex_prices] has no spread above 0.5% (the largest is 4/1798), the
    three mempool predicates reject every transaction, and the liquidation
    detector is empty. *)
Theorem shipped_detection_finds_nothing
    (settings : Detector.DetectorSettings) (self : Detector.OpportunityDetector)
    (now : Z) (pending : result (list pyval)) :
  Detector._detect_all_opportunities settings self now pending = [].
Proof.
  assert (Harb : Detector._detect_arbitrage_opportunities self now = [])
    by reflexivity.
  unfold Detector._detect_all_opportunities,
    Detector._detect_front_running_opportunities,
    Detector._detect_back_running_opportunities,
    Detector._detect_sandwich_opportunities,
    Detector._detect_liquidation_opportunities, Detector.scan_pending.
  rewrite Harb.
  destruct pending as [txs|e];
    [rewrite !scan_pending_rejects by reflexivity|];
    destruct (Detector.mev_strategies_enabled settings),
             (Detector.front_running_enabled settings),
             (Detector.back_running_enabled settings),
             (Detector.sandwich_attacks_enabled settings); reflexivity.
Qed.

(* ================================================================== *)
(** * Further properties of the profit optimizer *)
(* ================================================================== *)

(** X15.  [is_profitable_trade] only accepts a trade with a positive input
    amount, and against a positive threshold only one whose net profit
    (output minus input minus gas) is positive.  Its verdict is monotone: a
    trade that is accepted is still accepted when the output is larger, the
    gas cost smaller or the threshold lower. *)
Theorem is_profitable_trade_monotone
    (input_amt output_amt gas_cost_eth roi_threshold_pct : Q)
    (larger_output smaller_gas_cost lower_threshold : Q) :
  Optimizer.is_profitable_trade input_amt output_amt gas_cost_eth
    roi_threshold_pct = true ->
  output_amt <= larger_output -> smaller_gas_cost <= gas_cost_eth ->
  lower_threshold <= roi_threshold_pct ->
  0 < input_amt /\
  (0 < roi_threshold_pct -> 0 < output_amt - input_amt - gas_cost_eth) /\
  Optimizer.is_profitable_trade input_amt larger_output smaller_gas_cost
    lower_threshold = true.
Proof.
  unfold Optimizer.is_profitable_trade.
  destruct (Qle_bool input_amt 0) eqn:Hin; reflect_cmp; [discriminate|].
  rewrite !Qle_bool_iff. intros Hroi Hout Hgas Hthr.
  set (net := output_amt - input_amt - gas_cost_eth) in *.
  set (net' := larger_output - input_amt - smaller_gas_cost).
  assert (Hnet : net <= net') by (subst net net'; lra).
  assert (Hdiv : net / input_amt <= net' / input_amt)
    by (apply Qdiv_le_compat_pos; assumption).
  split; [exact Hin|]. split; [|lra].
  intro Hpos.
  assert (Hr : net / input_amt * input_amt == net) by (field; lra).
  assert (Hq : 0 < net / input_amt) by lra.
  nra.
Qed.

Lemma is_profitable_trade_monotone_witness :
  Optimizer.is_profitable_trade 10 11 0.005 5.0 = true.
Proof.
  apply (is_profitable_trade_monotone 10 10.6 0.01 5.0 11 0.005 5.0);
    [reflexivity|lra|lra|lra].
Defined.

(** The two trades that the spec lists: an ROI of exactly 5% passes a 5%
    threshold, and a zero input is rejected. *)
Lemma is_profitable_trade_examples :
  Optimizer.is_profitable_trade 1.0 1.06 0.01 5.0 = true /\
  Optimizer.is_profitable_trade 0 1 0.01 5.0 = false.
Proof. split; reflexivity. Qed.

(** X16.  For a gas price that is not negative, the optimized gas price
    stays within 10% of it, and with ten or fewer samples in the history it
    is the current price itself. *)
Theorem optimal_gas_price_band
    (self : Optimizer.ProfitOptimizer) (current_gas_price_gwei : Q)
    (gas_estimate : Z) :
  0 <= current_gas_price_gwei ->
  let optimized :=
    Optimizer._calculate_optimal_gas_price self current_gas_price_gwei
      gas_estimate in
  current_gas_price_gwei * 0.9 <= optimized /\
  optimized <= current_gas_price_gwei * 1.1 /\
  ((List.length (Optimizer._gas_price_history self) <= 10)%nat ->
   optimized = current_gas_price_gwei).
Proof.
  intro Hpos. cbv zeta. unfold Optimizer._calculate_optimal_gas_price.
  destruct (Nat.ltb 10 (List.length (Optimizer._gas_price_history self)))
    eqn:Hlen.
  - apply Nat.ltb_lt in Hlen.
    repeat match goal with
           | |- context [if ?b then _ else _] => destruct b
           end; repeat split; try lra; intro; lia.
  - repeat split; try lra.
Qed.

Lemma optimal_gas_price_band_witness :
  Optimizer._calculate_optimal_gas_price Examples.optimizer 50 21000 = 50.
Proof.
  apply (optimal_gas_price_band Examples.optimizer 50 21000); [lra|].
  cbn. lia.
Defined.

Section OptimizerInvariants.
Context {builtins : Builtins} (settings : Optimizer.Settings).

Lemma _update_gas_price_history_bounded
    (self : Optimizer.ProfitOptimizer) (gas_price_gwei now : Q) :
  (0 < Optimizer._max_history_size self)%nat ->
  (List.length (Optimizer._gas_price_history self)
   <= Optimizer._max_history_size self)%nat ->
  let after := Optimizer._update_gas_price_history self gas_price_gwei now in
  (List.length (Optimizer._gas_price_history after)
   <= Optimizer._max_history_size self)%nat /\
  (List.length (Optimizer._gas_price_history self)
   <= List.length (Optimizer._gas_price_history after)
   <= List.length (Optimizer._gas_price_history self) + 1)%nat /\
  (exists older,
     Optimizer._gas_price_history after
     = older ++ [(py_int now, gas_price_gwei)]) /\
  Optimizer._max_history_size after = Optimizer._max_history_size self /\
  Optimizer._optimization_stats after = Optimizer._optimization_stats self.
Proof.
  intros Hmax Hlen. cbv zeta. unfold Optimizer._update_gas_price_history.
  cbn [Optimizer._gas_price_history Optimizer.with_history
       Optimizer._max_history_size Optimizer._optimization_stats].
  set (history := Optimizer._gas_price_history self ++ [(py_int now, gas_price_gwei)]).
  assert (Hh : List.length history
               = (List.length (Optimizer._gas_price_history self) + 1)%nat)
    by (subst history; rewrite length_app; reflexivity).
  destruct (Nat.ltb (Optimizer._max_history_size self) (List.length history))
    eqn:E.
  - apply Nat.ltb_lt in E. rewrite (last_n_length _ _ E).
    repeat split; try lia.
    subst history. apply last_n_app. cbn. lia.
  - apply Nat.ltb_ge in E. repeat split; try lia.
    now exists (Optimizer._gas_price_history self).
Qed.

Lemma _analyze_gas_costs_state
    (self : Optimizer.ProfitOptimizer) (tx_params : Optimizer.TxParams)
    (simulation_result : Optimizer.Simulation) (now : Q) :
  let after :=
    snd (Optimizer._analyze_gas_costs settings self tx_params
           simulation_result now) in
  after = self \/
  exists gas_price_gwei,
    after = Optimizer._update_gas_price_history self gas_price_gwei now.
Proof.
  cbv zeta. unfold Optimizer._analyze_gas_costs.
  destruct (Optimizer.eth_gas_price (Optimizer._web3 self)) as [price|];
    cbn [bind snd]; [|now left].
  destruct (Optimizer.from_wei (Optimizer._web3 self) price "gwei") as [gwei|];
    cbn [bind snd]; [|now left].
  destruct (Optimizer.from_wei (Optimizer._web3 self) _ "ether");
    cbn [bind snd]; [|now left].
  destruct (Optimizer.to_wei (Optimizer._web3 self) _ "gwei");
    cbn [bind snd]; [|now left].
  destruct (Optimizer.from_wei (Optimizer._web3 self) _ "ether");
    cbn [bind snd]; [|now left].
  right. now exists gwei.
Qed.

Lemma simulation_flag
    (self : Optimizer.ProfitOptimizer) (profit_analysis : Optimizer.Profitability)
    (gas_optimization : Optimizer.GasOptimization)
    (simulation_result : Optimizer.Simulation) :
  Optimizer.simulation_success
    (Optimizer._finalize_profit_analysis self profit_analysis gas_optimization
       simulation_result) = true ->
  Optimizer.sim_success simulation_result = true.
Proof.
  unfold Optimizer._finalize_profit_analysis.
  repeat split_result; cbn; congruence.
Qed.
End OptimizerInvariants.

(** X17.  [analyze_profitability] keeps the books of the optimizer: it
    counts exactly one more analysis, the number of profitable analyses
    stays between 0 and the number of analyses, the gas price history gains
    at most one sample and never exceeds its capacity, and the profit and
    ROI floors are not touched. *)
Theorem analyze_profitability_keeps_books
    (builtins : Builtins) (settings : Optimizer.Settings)
    (self : Optimizer.ProfitOptimizer) (opportunity : pydict)
    (tx_params : Optimizer.TxParams) (now : Q) :
  (0 < Optimizer._max_history_size self)%nat ->
  (List.length (Optimizer._gas_price_history self)
   <= Optimizer._max_history_size self)%nat ->
  Spec.analyses_cover_profitable self ->
  let after :=
    snd (Optimizer.analyze_profitability settings self opportunity tx_params now) in
  Optimizer.total_analyses (Optimizer._optimization_stats after)
  = (Optimizer.total_analyses (Optimizer._optimization_stats self) + 1)%Z /\
  Spec.analyses_cover_profitable after /\
  (List.length (Optimizer._gas_price_history after)
   <= Optimizer._max_history_size after)%nat /\
  (List.length (Optimizer._gas_price_history self)
   <= List.length (Optimizer._gas_price_history after)
   <= List.length (Optimizer._gas_price_history self) + 1)%nat /\
  Optimizer._max_history_size after = Optimizer._max_history_size self /\
  Optimizer._min_profit_eth after = Optimizer._min_profit_eth self /\
  Optimizer._min_roi_percentage after = Optimizer._min_roi_percentage self.
Proof.
  intros Hmax Hlen Hbooks. cbv zeta.
  unfold Optimizer.analyze_profitability.
  pose proof (_analyze_gas_costs_state settings self tx_params
                (Optimizer._simulate_transaction settings self tx_params) now)
    as Hstate.
  pose proof (_analyze_gas_costs_thresholds settings self tx_params
                (Optimizer._simulate_transaction settings self tx_params) now)
    as Hfloors.
  destruct (Optimizer._analyze_gas_costs settings self tx_params
              (Optimizer._simulate_transaction settings self tx_params) now)
    as [gas_analysis self1].
  cbn [fst snd] in *. destruct Hfloors as [Hprofit [Hroi _]].
  cbn [Optimizer.with_stats Optimizer._optimization_stats
       Optimizer.total_analyses Optimizer._gas_price_history
       Optimizer._max_history_size Optimizer._min_profit_eth
       Optimizer._min_roi_percentage].
  assert (Hself1 :
    Optimizer._optimization_stats self1 = Optimizer._optimization_stats self /\
    Optimizer._max_history_size self1 = Optimizer._max_history_size self /\
    (List.length (Optimizer._gas_price_history self1)
     <= Optimizer._max_history_size self)%nat /\
    (List.length (Optimizer._gas_price_history self)
     <= List.length (Optimizer._gas_price_history self1)
     <= List.length (Optimizer._gas_price_history self) + 1)%nat).
  { destruct Hstate as [->|[price ->]]; [repeat split; lia|].
    destruct (_update_gas_price_history_bounded self price now Hmax Hlen)
      as [H1 [H2 [_ [H3 H4]]]].
    repeat split; assumption || lia. }
  destruct Hself1 as [Hstats [Hsize [Hbound Hgrow]]].
  rewrite Hstats, Hsize.
  unfold Spec.analyses_cover_profitable in *.
  cbn [Optimizer.with_stats Optimizer._optimization_stats
       Optimizer.total_analyses Optimizer.profitable_opportunities].
  repeat split; try assumption; try lia;
    destruct (Optimizer.profitable _); lia.
Qed.

Lemma analyze_profitability_keeps_books_witness :
  Optimizer.total_analyses
    (Optimizer._optimization_stats
       (snd (Optimizer.analyze_profitability (builtins := Examples.builtins)
               Examples.settings Examples.optimizer
               Examples.two_eth_opportunity Examples.plain_transaction
               1700000000)))
  = 1%Z.
Proof.
  apply (analyze_profitability_keeps_books Examples.builtins Examples.settings
           Examples.optimizer Examples.two_eth_opportunity
           Examples.plain_transaction 1700000000).
  - cbn. lia.
  - cbn. lia.
  - unfold Spec.analyses_cover_profitable. cbn. lia.
Defined.

(** X18.  The confidence of a profit prediction lies in [0.1, 1], whatever
    the opportunity, the gas analysis, the simulation and the net profit. *)
Theorem profit_confidence_range
    (opportunity : pydict) (gas_analysis : Optimizer.GasAnalysis)
    (simulation_result : Optimizer.Simulation) (net_profit : Q) :
  0.1 <= Optimizer._calculate_profit_confidence opportunity gas_analysis
           simulation_result net_profit <= 1.
Proof.
  unfold Optimizer._calculate_profit_confidence.
  match goal with
  | |- context [py_min 1.0 ?y] =>
      destruct (py_min_cases 1.0 y) as [[Hy Hmin]|[Hy Hmin]]; rewrite Hmin;
      match goal with
      | |- context [py_max 0.1 ?x] =>
          destruct (py_max_cases 0.1 x) as [[Hx ->]|[Hx ->]]
      end
  end; lra.
Qed.

(** X19.  With a minimum ROI of at least 5%, an opportunity that the first
    profitability calculation marks profitable had a successful simulation,
    has a net profit of at least the minimum-profit floor, and is never
    rated "high" risk. *)
Theorem profitable_is_not_high_risk
    (builtins : Builtins) (self : Optimizer.ProfitOptimizer)
    (opportunity : pydict) (gas_analysis : Optimizer.GasAnalysis)
    (simulation_result : Optimizer.Simulation) :
  5 <= Optimizer._min_roi_percentage self ->
  let r :=
    Optimizer._calculate_profitability self opportunity gas_analysis
      simulation_result in
  Optimizer.pr_profitable r = true ->
  Optimizer.sim_success simulation_result = true /\
  Optimizer._min_profit_eth self <= Optimizer.pr_net_profit_eth r /\
  (Optimizer.pr_risk_level r = "low" \/ Optimizer.pr_risk_level r = "medium").
Proof.
  intro Hfloor. cbv zeta. unfold Optimizer._calculate_profitability.
  destruct (py_float (get opportunity "expected_profit_eth" (PNum 0)))
    as [expected_profit|]; cbn [bind]; [|discriminate].
  destruct (py_float (get opportunity "amount_in" (PNum 1.0)))
    as [amount_in|]; cbn [bind]; [|discriminate].
  cbn [Optimizer.pr_profitable Optimizer.pr_net_profit_eth
       Optimizer.pr_risk_level].
  set (net := expected_profit - Optimizer.ga_optimized_gas_cost_eth gas_analysis).
  set (roi := if Qltb 0 amount_in then net / amount_in * 100 else 0).
  intro Hprofitable.
  apply andb_true_iff in Hprofitable. destruct Hprofitable as [Hp Hsim].
  apply andb_true_iff in Hp. destruct Hp as [Hnet Hroi].
  reflect_cmp. split; [exact Hsim|]. split; [exact Hnet|].
  unfold Optimizer._assess_profit_risk. rewrite Hsim. cbn [negb].
  assert (Hroi5 : Qltb roi 5 = false) by (apply Qltb_false; lra).
  rewrite Hroi5.
  destruct (Qltb net 0.005); destruct (Qltb net 0.01);
  destruct (Qltb net 0.02); destruct (Qltb roi 10); cbn; auto.
Qed.

Lemma profitable_is_not_high_risk_witness :
  Optimizer.pr_risk_level
    (Optimizer._calculate_profitability (builtins := Examples.builtins)
       Examples.optimizer Examples.two_eth_opportunity
       Examples.two_eth_gas_analysis
       (Optimizer._simulate_transaction Examples.settings Examples.optimizer
          Examples.plain_transaction)) = "low".
Proof.
  destruct (profitable_is_not_high_risk Examples.builtins Examples.optimizer
              Examples.two_eth_opportunity Examples.two_eth_gas_analysis
              (Optimizer._simulate_transaction Examples.settings
                 Examples.optimizer Examples.plain_transaction))
    as [_ [_ [Hlow|Hmedium]]].
  - cbn. lra.
  - vm_compute. reflexivity.
  - exact Hlow.
  - vm_compute in Hmedium. discriminate Hmedium.
Defined.

(** X20.  [analyze_profitability] never reports a candidate as profitable
    unless its simulation on the node succeeded: the read-only call
    returned a result and the gas estimate was obtained. *)
Theorem profitable_needs_successful_simulation
    (builtins : Builtins) (settings : Optimizer.Settings)
    (self : Optimizer.ProfitOptimizer) (opportunity : pydict)
    (tx_params : Optimizer.TxParams) (now : Q) :
  Optimizer.profitable
    (fst (Optimizer.analyze_profitability settings self opportunity
            tx_params now)) = true ->
  exists (data : string) (gas_estimate : Z),
    Optimizer.eth_call (Optimizer._web3 self) tx_params = Ok (Some data) /\
    Optimizer.eth_estimate_gas (Optimizer._web3 self) tx_params = Ok gas_estimate.
Proof.
  unfold Optimizer.analyze_profitability.
  destruct (Optimizer._analyze_gas_costs settings self tx_params
              (Optimizer._simulate_transaction settings self tx_params) now)
    as [gas_analysis self1].
  cbn [fst]. intro Hprofitable.
  match type of Hprofitable with
  | Optimizer.profitable (Optimizer._finalize_profit_analysis ?o ?pa ?go ?sim) = _ =>
      destruct (_finalize_profit_analysis_verdict o pa go sim) as [_ [_ Hiff]]
  end.
  apply Hiff in Hprofitable. destruct Hprofitable as [_ [_ Hflag]].
  apply simulation_flag in Hflag.
  unfold Optimizer._simulate_transaction in Hflag.
  destruct (Optimizer.eth_call (Optimizer._web3 self) tx_params)
    as [[data|]|]; cbn in Hflag; try discriminate;
  destruct (Optimizer.eth_estimate_gas (Optimizer._web3 self) tx_params)
    as [gas|]; cbn in Hflag; try discriminate.
  eauto.
Qed.

Lemma profitable_needs_successful_simulation_witness :
  exists (data : string) (gas_estimate : Z),
    Optimizer.eth_call Examples.node Examples.plain_transaction = Ok (Some data) /\
    Optimizer.eth_estimate_gas Examples.node Examples.plain_transaction
      = Ok gas_estimate.
Proof.
  apply (profitable_needs_successful_simulation Examples.builtins
           Examples.settings Examples.optimizer Examples.two_eth_opportunity
           Examples.plain_transaction 1700000000).
  vm_compute. reflexivity.
Defined.

(** X21.  [analyze_profitability] fails closed to the all-zero analysis
    (not profitable, risk "high", simulation flag false) when the expected
    profit or the input amount of the opportunity cannot be read as a
    number; and so does the final step whenever the gas cost it is handed
    is zero, because it divides by that cost. *)
Theorem analysis_fails_closed
    (builtins : Builtins) (settings : Optimizer.Settings)
    (self : Optimizer.ProfitOptimizer) (opportunity : pydict)
    (tx_params : Optimizer.TxParams) (now : Q) :
  (raises (py_float (get opportunity "expected_profit_eth" (PNum 0))) = true \/
   raises (py_float (get opportunity "amount_in" (PNum 1.0))) = true ->
   fst (Optimizer.analyze_profitability settings self opportunity tx_params now)
   = Optimizer.failed_analysis) /\
  (forall (profit_analysis : Optimizer.Profitability)
          (gas_optimization : Optimizer.GasOptimization)
          (simulation_result : Optimizer.Simulation),
     Optimizer.pr_gas_cost_eth profit_analysis == 0 ->
     Optimizer._finalize_profit_analysis self profit_analysis gas_optimization
       simulation_result = Optimizer.failed_analysis).
Proof.
  assert (Hzero : forall (optimizer : Optimizer.ProfitOptimizer)
                         (profit_analysis : Optimizer.Profitability)
                         (gas_optimization : Optimizer.GasOptimization)
                         (simulation_result : Optimizer.Simulation),
            Optimizer.pr_gas_cost_eth profit_analysis == 0 ->
            Optimizer._finalize_profit_analysis optimizer profit_analysis
              gas_optimization simulation_result = Optimizer.failed_analysis).
  { intros optimizer pa go sim Hcost.
    unfold Optimizer._finalize_profit_analysis, py_div.
    apply Qeq_eq_bool in Hcost. now rewrite Hcost. }
  split; [|apply Hzero].
  intro Hraises. unfold Optimizer.analyze_profitability.
  destruct (Optimizer._analyze_gas_costs settings self tx_params
              (Optimizer._simulate_transaction settings self tx_params) now)
    as [gas_analysis self1].
  cbn [fst]. apply Hzero.
  unfold Optimizer._calculate_profitability.
  destruct (py_float (get opportunity "expected_profit_eth" (PNum 0)));
    cbn [bind]; [|reflexivity].
  destruct (py_float (get opportunity "amount_in" (PNum 1.0)));
    cbn [bind]; [|reflexivity].
  cbn in Hraises. destruct Hraises; discriminate.
Qed.

Lemma analysis_fails_closed_witness :
  fst (Optimizer.analyze_profitability (builtins := Examples.builtins)
         Examples.settings Examples.optimizer Examples.ill_typed_opportunity
         Examples.plain_transaction 1700000000)
  = Optimizer.failed_analysis.
Proof.
  apply (proj1 (analysis_fails_closed Examples.builtins Examples.settings
                  Examples.optimizer Examples.ill_typed_opportunity
                  Examples.plain_transaction 1700000000)).
  left. reflexivity.
Defined.

(* ================================================================== *)
(** * Further properties of the relay *)
(* ================================================================== *)

Lemma py_key_eqb_refl (k : pyval) : hashable k = true -> py_key_eqb k k = true.
Proof.
  destruct k; cbn; intro Hk; try discriminate; try reflexivity.
  - apply Qeq_bool_refl.
  - apply Qeq_bool_refl.
  - apply String.eqb_refl.
  - apply Z.eqb_refl.
Qed.

Lemma py_key_eqb_sym (a b : pyval) : py_key_eqb a b = py_key_eqb b a.
Proof.
  destruct a, b; cbn; try reflexivity.
  - apply Qeq_bool_comm.
  - apply Qeq_bool_comm.
  - apply Qeq_bool_comm.
  - apply Qeq_bool_comm.
  - apply String.eqb_sym.
  - apply Z.eqb_sym.
Qed.

Section DictFacts.
Context {K V : Type} (eqb : K -> K -> bool).

Lemma dict_set_lookup_same (d : list (K * V)) (k : K) (v : V) :
  eqb k k = true -> dict_lookup eqb (dict_set eqb d k v) k = Some v.
Proof.
  intro Hrefl. induction d as [|[k' v'] d IH]; cbn.
  - now rewrite Hrefl.
  - destruct (eqb k k') eqn:E; cbn; rewrite E; [reflexivity|exact IH].
Qed.

Lemma dict_set_length (d : list (K * V)) (k : K) (v : V) :
  (List.length d <= List.length (dict_set eqb d k v) <= List.length d + 1)%nat.
Proof.
  induction d as [|[k' v'] d IH]; cbn; [lia|].
  destruct (eqb k k'); cbn; lia.
Qed.

Lemma dict_set_keys_Forall (R : K -> Prop) (d : list (K * V)) (k : K) (v : V) :
  Forall (fun kv => R (fst kv)) d -> R k ->
  Forall (fun kv => R (fst kv)) (dict_set eqb d k v).
Proof.
  intros Hd Hk. induction Hd as [|[k' v'] d H0 Hd IH]; cbn.
  - now repeat constructor.
  - destruct (eqb k k'); constructor; auto.
Qed.

Lemma dict_set_distinct (d : list (K * V)) (k : K) (v : V) :
  (forall a b, eqb a b = eqb b a) ->
  Spec.distinct_keys eqb d -> Spec.distinct_keys eqb (dict_set eqb d k v).
Proof.
  intros Hsym Hd. unfold Spec.distinct_keys in *.
  induction Hd as [|[k' v'] d Hall Hd IH]; cbn.
  - repeat constructor.
  - destruct (eqb k k') eqn:E.
    + constructor; [exact Hall|exact Hd].
    + constructor; [|exact IH].
      apply (dict_set_keys_Forall
               (fun key => eqb k' key = false /\ eqb key k' = false));
        [exact Hall|].
      cbn. rewrite (Hsym k' k). auto.
Qed.

Lemma filter_distinct (P : K * V -> bool) (d : list (K * V)) :
  Spec.distinct_keys eqb d -> Spec.distinct_keys eqb (filter P d).
Proof.
  unfold Spec.distinct_keys.
  induction 1 as [|a d Hall Hd IH]; cbn; [constructor|].
  destruct (P a); [|exact IH].
  constructor; [|exact IH].
  apply Forall_forall. intros b Hb. apply filter_In in Hb.
  rewrite Forall_forall in Hall. now apply Hall.
Qed.
End DictFacts.

(** X22.  On a pending-bundle map with distinct keys,
    [cleanup_expired_bundles] removes exactly the bundles filed more than
    the timeout before the given time and keeps all others in order,
    whatever their status; it touches nothing else, and running it again at
    the same time changes nothing. *)
Theorem cleanup_removes_exactly_expired
    (self : Relay.FlashbotsRelay) (current_time : Q) :
  Spec.valid_pending (Relay._pending_bundles self) ->
  let after := Relay.cleanup_expired_bundles self current_time in
  Relay._pending_bundles after
  = filter (fun entry => negb (Spec.expired self current_time entry))
           (Relay._pending_bundles self) /\
  Spec.valid_pending (Relay._pending_bundles after) /\
  Relay._submission_stats after = Relay._submission_stats self /\
  Relay._session after = Relay._session self /\
  Relay.cleanup_expired_bundles after current_time = after.
Proof.
  intros [Hdistinct Hhashable]. cbv zeta.
  assert (Hclean : forall relay : Relay.FlashbotsRelay,
            Spec.valid_pending (Relay._pending_bundles relay) ->
            Relay._pending_bundles (Relay.cleanup_expired_bundles relay current_time)
            = filter (fun entry => negb (Spec.expired relay current_time entry))
                     (Relay._pending_bundles relay)).
  { intros relay [Hd Hh]. unfold Relay.cleanup_expired_bundles.
    cbn [Relay._pending_bundles Relay.with_pending].
    apply (evict_is_filter py_key_eqb (Spec.expired relay current_time));
      [|exact Hd].
    intros a Ha. apply py_key_eqb_refl.
    rewrite Forall_forall in Hh. now apply Hh. }
  assert (Hvalid : Spec.valid_pending
                     (Relay._pending_bundles
                        (Relay.cleanup_expired_bundles self current_time))).
  { rewrite (Hclean self (conj Hdistinct Hhashable)). split.
    - now apply filter_distinct.
    - apply Forall_forall. intros a Ha. apply filter_In in Ha.
      rewrite Forall_forall in Hhashable. now apply Hhashable. }
  split; [now apply Hclean|]. split; [exact Hvalid|].
  split; [reflexivity|]. split; [reflexivity|].
  set (after := Relay.cleanup_expired_bundles self current_time) in *.
  assert (Hpending : Relay._pending_bundles
                       (Relay.cleanup_expired_bundles after current_time)
                     = Relay._pending_bundles after).
  { rewrite (Hclean after Hvalid).
    subst after. rewrite (Hclean self (conj Hdistinct Hhashable)).
    rewrite forallb_filter_id; [reflexivity|].
    apply forallb_forall. intros a Ha. apply filter_In in Ha.
    exact (proj2 Ha). }
  unfold Relay.cleanup_expired_bundles at 1, Relay.with_pending.
  unfold Relay.cleanup_expired_bundles, Relay.with_pending in Hpending.
  cbn [Relay._pending_bundles] in Hpending. rewrite Hpending.
  subst after. reflexivity.
Qed.

Lemma cleanup_removes_exactly_expired_witness :
  dict_keys
    (Relay._pending_bundles
       (Relay.cleanup_expired_bundles Examples.relay_with_two_bundles 115))
  = [PStr "0xbbb"].
Proof.
  assert (Hvalid : Spec.valid_pending
                     (Relay._pending_bundles Examples.relay_with_two_bundles))
    by (split; repeat constructor).
  rewrite (proj1 (cleanup_removes_exactly_expired
                    Examples.relay_with_two_bundles 115 Hvalid)).
  reflexivity.
Defined.

(** X23.  Every call of [submit_bundle] is accounted for: it raises exactly
    one of the counters of submissions and of failed submissions by one,
    and leaves the counter of included bundles and the session alone.  The
    pending-bundle map keeps distinct hashable keys and grows by at most
    one entry; after a successful call, looking up the returned bundle hash
    gives the entry just filed. *)
Theorem submit_bundle_is_accounted
    (builtins : Builtins) (network : Network)
    (self : Relay.FlashbotsRelay) (transactions : list Relay.transaction)
    (target_block : Z) (min_timestamp max_timestamp : option Z)
    (start_time end_time : Q) :
  Spec.valid_pending (Relay._pending_bundles self) ->
  let outcome :=
    Relay.submit_bundle self transactions target_block
      min_timestamp max_timestamp start_time end_time in
  let submission := fst outcome in
  let after := snd outcome in
  let before_stats := Relay._submission_stats self in
  let after_stats := Relay._submission_stats after in
  Spec.valid_pending (Relay._pending_bundles after) /\
  (List.length (Relay._pending_bundles self)
   <= List.length (Relay._pending_bundles after)
   <= List.length (Relay._pending_bundles self) + 1)%nat /\
  (Relay.total_submissions after_stats
   = Relay.total_submissions before_stats
     + (if Relay.sub_success submission then 1 else 0))%Z /\
  (Relay.failed_submissions after_stats
   = Relay.failed_submissions before_stats
     + (if Relay.sub_success submission then 0 else 1))%Z /\
  Relay.successful_bundles after_stats = Relay.successful_bundles before_stats /\
  Relay._session after = Relay._session self /\
  (forall bundle_hash : pyval,
     Relay.sub_bundle_hash submission = Some bundle_hash ->
     dict_lookup py_key_eqb (Relay._pending_bundles after) bundle_hash
     = Some {| Relay.pb_transactions := transactions;
               Relay.pb_target_block := target_block;
               Relay.pb_submission_time := start_time;
               Relay.pb_status := "pending" |}).
Proof.
  intros [Hdistinct Hhashable]. cbv zeta.
  unfold Relay.submit_bundle, Relay.submit_bundle_try.
  destruct (Relay.request_bundle_hash _ _ _ _ _) as [h|e]; cbn.
  2:{ repeat split; try assumption; try lia. discriminate. }
  unfold Relay.track. destruct (hashable h) eqn:Hh; cbn.
  2:{ repeat split; try assumption; try lia. discriminate. }
  repeat split; try lia.
  - apply dict_set_distinct; [apply py_key_eqb_sym|exact Hdistinct].
  - apply (dict_set_keys_Forall py_key_eqb (fun k => hashable k = true));
      assumption.
  - apply dict_set_length.
  - apply dict_set_length.
  - intros bundle_hash Hb. injection Hb as <-.
    apply dict_set_lookup_same. now apply py_key_eqb_refl.
Qed.

Lemma submit_bundle_is_accounted_witness :
  let accepted :=
    Relay.submit_bundle (builtins := Examples.builtins)
      (network := Examples.accepting_relay)
      Examples.connected_relay Examples.one_transaction 19000000 None None
      1700000000 1700000000.25 in
  dict_lookup py_key_eqb (Relay._pending_bundles (snd accepted)) (PStr "0xb0b")
  = Some {| Relay.pb_transactions := Examples.one_transaction;
            Relay.pb_target_block := 19000000;
            Relay.pb_submission_time := 1700000000;
            Relay.pb_status := "pending" |}.
Proof.
  cbv zeta.
  destruct (submit_bundle_is_accounted Examples.builtins
              Examples.accepting_relay Examples.connected_relay
              Examples.one_transaction 19000000 None None
              1700000000 1700000000.25)
    as [_ [_ [_ [_ [_ [_ Hlookup]]]]]].
  - split; constructor.
  - apply Hlookup. reflexivity.
Defined.

(** ** Inclusion *)

Section InclusionFacts.
Context {builtins : Builtins}.

Lemma get_bundle_status_link
    {network : Network} (self : Relay.FlashbotsRelay) (bundle_hash : string) :
  let after := snd (Relay.get_bundle_status self bundle_hash) in
  Spec.same_link after self /\
  Relay._pending_bundles after = Relay._pending_bundles self.
Proof.
  cbv zeta. unfold Relay.get_bundle_status, Relay.get_bundle_status_try, Spec.same_link.
  destruct (Relay.session_post _ _ _) as [response|]; [|now cbn].
  destruct (py_contains response "error") as [[|]|]; try now cbn.
  - destruct (py_getitem response "error"); now cbn.
  - destruct (py_get response "result" PNone) as [data|]; [|now cbn].
    destruct (truthy data); [|now cbn].
    repeat split_result; now cbn.
Qed.

Lemma get_bundle_status_same
    {network : Network} (a b : Relay.FlashbotsRelay) (bundle_hash : string) :
  Spec.same_link a b ->
  fst (Relay.get_bundle_status a bundle_hash)
  = fst (Relay.get_bundle_status b bundle_hash).
Proof.
  intros [Hsession Hurl].
  unfold Relay.get_bundle_status, Relay.get_bundle_status_try,
    Relay.session_post.
  rewrite Hsession, Hurl.
  destruct (Relay._session b); [|reflexivity].
  destruct (http_post _ _) as [response|]; [|reflexivity].
  destruct (py_contains response "error") as [[|]|]; try reflexivity.
  - destruct (py_getitem response "error"); reflexivity.
  - destruct (py_get response "result" PNone) as [data|]; [|reflexivity].
    destruct (truthy data); [|reflexivity].
    repeat split_result; reflexivity.
Qed.

Lemma monitor_loop_spec
    (relay_at : nat -> Network) (block_at : nat -> result Z)
    (self : Relay.FlashbotsRelay) (bundle_hash : string)
    (start_block timeout_blocks : Z) (remaining : nat) :
  forall (polled : nat) (current : Relay.FlashbotsRelay),
    Spec.same_link current self ->
    let outcome :=
      Relay.monitor_loop relay_at block_at current bundle_hash start_block
        timeout_blocks polled remaining in
    Relay._pending_bundles (fst outcome) = Relay._pending_bundles current /\
    Spec.same_link (fst outcome) self /\
    Spec.monitored relay_at block_at self bundle_hash start_block
      timeout_blocks polled remaining (snd outcome).
Proof.
  induction remaining as [|remaining IH]; intros polled current Hlink; cbn.
  - repeat split; try apply Hlink. intros i Hi. lia.
  - pose proof (@get_bundle_status_link (relay_at polled) current bundle_hash)
      as [Hlink' Hpending'].
    pose proof (@get_bundle_status_same (relay_at polled) current self
                  bundle_hash Hlink) as Hsame.
    destruct (@Relay.get_bundle_status builtins (relay_at polled) current
                bundle_hash) as [bundle_status current'] eqn:Hstatus.
    cbn [fst snd] in *.
    assert (Hat : Spec.status_at relay_at self bundle_hash polled
                  = Relay.status bundle_status)
      by (unfold Spec.status_at; now rewrite <- Hsame).
    assert (Hlink2 : Spec.same_link current' self).
    { destruct Hlink' as [H1 H2], Hlink as [H3 H4]. split; congruence. }
    destruct (String.eqb (Relay.status bundle_status) "included") eqn:Hinc.
    + apply String.eqb_eq in Hinc.
      assert (Hfirst : (polled <= polled < polled + S remaining)%nat /\
                       Spec.status_at relay_at self bundle_hash polled
                       = "included" /\
                       (forall j, (polled <= j < polled)%nat ->
                          ~ Spec.status_at relay_at self bundle_hash j
                            = "included")).
      { split; [lia|]. split; [congruence|]. intros j Hj. lia. }
      split; [exact Hpending'|]. split; [exact Hlink2|].
      destruct (block_at polled) as [current_block|e] eqn:Hblock; cbn.
      * exists polled, current_block. now repeat split.
      * exists polled. now repeat split.
    + apply String.eqb_neq in Hinc.
      destruct (IH (S polled) current' Hlink2) as [Hpend [Hl Hmon]].
      split; [cbv zeta in Hpend; congruence|]. split; [exact Hl|].
      cbv zeta in Hmon. unfold Spec.monitored in *.
      assert (Hshift : forall i,
                (S polled <= i < S polled + remaining)%nat /\
                Spec.status_at relay_at self bundle_hash i = "included" /\
                (forall j, (S polled <= j < i)%nat ->
                   ~ Spec.status_at relay_at self bundle_hash j = "included") ->
                (polled <= i < polled + S remaining)%nat /\
                Spec.status_at relay_at self bundle_hash i = "included" /\
                (forall j, (polled <= j < i)%nat ->
                   ~ Spec.status_at relay_at self bundle_hash j = "included")).
      { intros i [Hi [Hs Hbefore]]. split; [lia|]. split; [exact Hs|].
        intros j Hj. destruct (Nat.eq_dec j polled) as [->|Hne];
          [congruence|]. apply Hbefore. lia. }
      destruct (snd (Relay.monitor_loop relay_at block_at current' bundle_hash
                       start_block timeout_blocks (S polled) remaining))
        as [inclusion|e].
      * destruct (Relay.included inclusion).
        -- destruct Hmon as [i [block [Hi Hrest]]].
           exists i, block. split; [now apply Hshift|exact Hrest].
        -- destruct Hmon as [Hnone Hrest]. split; [|exact Hrest].
           intros i Hi. destruct (Nat.eq_dec i polled) as [->|Hne];
             [congruence|]. apply Hnone. lia.
      * destruct Hmon as [i [Hi Hrest]].
        exists i. split; [now apply Hshift|exact Hrest].
Qed.
End InclusionFacts.

Ltac settle_status :=
  first [ reflexivity
        | intros _; reflexivity
        | intro; contradiction
        | intros [?|?]; discriminate
        | intro; discriminate
        | intros _; split; [assumption|eexists; reflexivity] ].

(** X24.  [get_bundle_status] always answers with one of the four statuses
    included, not_included, unknown and error, and never raises.  It leaves
    the session, the endpoint, the pending bundles and the counters of
    submissions alone.  The counter of included bundles goes up by one
    exactly when the relay answered without an error member and with a
    truthy result, also when decoding that result then fails and the status
    is error; a poll that says included always counted, so polling an
    included bundle again counts it again.  On the statuses not_included
    and unknown the relay object is unchanged, and without a session the
    status is error. *)
Theorem bundle_status_accounting
    (builtins : Builtins) (network : Network)
    (self : Relay.FlashbotsRelay) (bundle_hash : string) :
  let outcome := Relay.get_bundle_status self bundle_hash in
  let bundle_status := fst outcome in
  let after := snd outcome in
  let counted :=
    exists response bundle_data,
      Relay.session_post self (Relay._relay_url self)
        (Relay.bundle_by_hash_request bundle_hash) = Ok response /\
      py_contains response "error" = Ok false /\
      py_get response "result" PNone = Ok bundle_data /\
      truthy bundle_data = true in
  In (Relay.status bundle_status)
     ["included"; "not_included"; "unknown"; "error"]%string /\
  Spec.same_link after self /\
  Relay._pending_bundles after = Relay._pending_bundles self /\
  Relay.total_submissions (Relay._submission_stats after)
  = Relay.total_submissions (Relay._submission_stats self) /\
  Relay.failed_submissions (Relay._submission_stats after)
  = Relay.failed_submissions (Relay._submission_stats self) /\
  (counted ->
   Relay.successful_bundles (Relay._submission_stats after)
   = (Relay.successful_bundles (Relay._submission_stats self) + 1)%Z) /\
  (~ counted -> after = self) /\
  (Relay.status bundle_status = "included" ->
   counted /\ exists block, Relay.st_block_number bundle_status = Some block) /\
  (Relay.status bundle_status = "not_included" \/
   Relay.status bundle_status = "unknown" -> after = self) /\
  (Relay._session self = None -> Relay.status bundle_status = "error").
Proof.
  cbv zeta.
  pose proof (@get_bundle_status_link builtins network self bundle_hash)
    as [Hlink Hpending].
  split; [|split; [exact Hlink|split; [exact Hpending|]]].
  - unfold Relay.get_bundle_status, Relay.get_bundle_status_try.
    destruct (Relay.session_post _ _ _) as [response|]; [|cbn; tauto].
    destruct (py_contains response "error") as [[|]|]; try (cbn; tauto).
    + destruct (py_getitem response "error"); cbn; tauto.
    + destruct (py_get response "result" PNone) as [data|]; [|cbn; tauto].
      destruct (truthy data); [|cbn; tauto].
      repeat split_result; cbn; tauto.
  - unfold Relay.get_bundle_status, Relay.get_bundle_status_try.
    destruct (Relay.session_post _ _ _) as [response|e] eqn:Hpost.
    2:{ assert (Hnot : ~ exists r d : pyval,
                  @Raise pyval e = Ok r /\ py_contains r "error" = Ok false /\
                  py_get r "result" PNone = Ok d /\ truthy d = true)
          by (intros [r [d [Hr _]]]; discriminate).
        cbn [fst snd Relay.status Relay.st_block_number].
        repeat match goal with |- _ /\ _ => split end; settle_status. }
    assert (Hsession : Relay._session self <> None).
    { unfold Relay.session_post in Hpost. intro Hs.
      rewrite Hs in Hpost. discriminate. }
    destruct (py_contains response "error") as [[|]|e] eqn:Herror.
    + assert (Hnot : ~ exists r d : pyval,
                Ok response = Ok r /\ py_contains r "error" = Ok false /\
                py_get r "result" PNone = Ok d /\ truthy d = true).
      { intros [r [d [Hr [Hc _]]]]. injection Hr as <-. congruence. }
      destruct (py_getitem response "error");
        cbn [fst snd bind Relay.status Relay.st_block_number];
        repeat match goal with |- _ /\ _ => split end; settle_status.
    + destruct (py_get response "result" PNone) as [data|e] eqn:Hresult.
      2:{ assert (Hnot : ~ exists r d : pyval,
                    Ok response = Ok r /\ py_contains r "error" = Ok false /\
                    py_get r "result" PNone = Ok d /\ truthy d = true)
            by (intros [r [d [Hr [_ [Hd _]]]]]; injection Hr as <-;
                congruence).
          cbn [fst snd Relay.status Relay.st_block_number].
          repeat match goal with |- _ /\ _ => split end; settle_status. }
      destruct (truthy data) eqn:Htruthy.
      * assert (Hcounted : exists r d : pyval,
                  Ok response = Ok r /\ py_contains r "error" = Ok false /\
                  py_get r "result" PNone = Ok d /\ truthy d = true)
          by (exists response, data; auto).
        repeat split_result;
          cbn [fst snd bind Relay.status Relay.st_block_number
               Relay.count_included Relay.with_stats Relay._submission_stats
               Relay.successful_bundles Relay.total_submissions
               Relay.failed_submissions];
          repeat match goal with |- _ /\ _ => split end; settle_status.
      * assert (Hnot : ~ exists r d : pyval,
                  Ok response = Ok r /\ py_contains r "error" = Ok false /\
                  py_get r "result" PNone = Ok d /\ truthy d = true).
        { intros [r [d [Hr [_ [Hd Ht]]]]]. injection Hr as <-.
          rewrite Hresult in Hd. injection Hd as <-. congruence. }
        cbn [fst snd Relay.status Relay.st_block_number].
        repeat match goal with |- _ /\ _ => split end; settle_status.
    + assert (Hnot : ~ exists r d : pyval,
                Ok response = Ok r /\ py_contains r "error" = Ok false /\
                py_get r "result" PNone = Ok d /\ truthy d = true).
      { intros [r [d [Hr [Hc _]]]]. injection Hr as <-. congruence. }
      cbn [fst snd Relay.status Relay.st_block_number].
      repeat match goal with |- _ /\ _ => split end; settle_status.
Qed.

(** X25.  [monitor_bundle_inclusion], once the first block number is read,
    polls at most [timeout_blocks] times and stops at the first poll that
    says included: it then reports inclusion with the block number read
    after that poll minus the first one as the blocks waited, or raises
    what that read raises.  When no poll within the window says included it
    reports no inclusion, no block number and [timeout_blocks] blocks
    waited.  What a poll says does not depend on the counters that earlier
    polls changed, and the pending bundles are never touched. *)
Theorem monitor_reports_first_inclusion
    (builtins : Builtins) (relay_at : nat -> Network)
    (block_at : nat -> result Z) (self : Relay.FlashbotsRelay)
    (bundle_hash : string) (start_block timeout_blocks : Z) :
  let outcome :=
    Relay.monitor_bundle_inclusion relay_at block_at self bundle_hash
      (Ok start_block) timeout_blocks in
  Relay._pending_bundles (fst outcome) = Relay._pending_bundles self /\
  Spec.same_link (fst outcome) self /\
  Spec.monitored relay_at block_at self bundle_hash start_block
    timeout_blocks 0 (Z.to_nat timeout_blocks) (snd outcome).
Proof.
  cbv zeta. unfold Relay.monitor_bundle_inclusion.
  apply (monitor_loop_spec relay_at block_at self bundle_hash start_block
           timeout_blocks (Z.to_nat timeout_blocks) 0 self).
  split; reflexivity.
Qed.

Example monitor_bundle_inclusion_example :
  snd (Relay.monitor_bundle_inclusion (builtins := Examples.builtins)
         Examples.relay_finding_at_second_poll
         (fun i => Ok (19000000 + Z.of_nat i)%Z)
         Examples.connected_relay "0xb0b" (Ok 19000000%Z) 3)
  = Ok {| Relay.included := true;
          Relay.inc_block_number := Some 19000001%Z;
          Relay.inc_bundle_index := Some (PNum 3);
          Relay.blocks_waited := 1 |}.
Proof. vm_compute. reflexivity. Qed.
